(** * Venue geocoding resolver: a shallow embedding of
      [latlong/geocode_json.py] and [latlong/find.py]

    Both scripts resolve an attraction name and an optional city into
    coordinates through three provider tiers (Find Place, biased Text Search,
    Geocoding).  The embedding keeps the two files apart, as the repository
    does: module [GeocodeJson] has the city cache, module [Find] has none.

    Python values are an inductive type, exceptions are an error monad over
    an explicit state (the log of HTTP requests made so far and, for
    [geocode_json.py], the city cache), and the network is a function from
    the request history and the current request to an outcome. *)

From Stdlib Require Import ZArith Ascii String List Lia Bool DecimalString.
From stdpp Require Import base gmap strings list.

Local Open Scope Z_scope.
Set Warnings "-register-all".

(* ===================================================================== *)
(** ** Python text: [str] methods used by the scripts *)
(* ===================================================================== *)

(** A [str] is a [string] that holds the UTF-8 bytes of the text. *)
Module PyStr.

(** A text is held as the bytes of its UTF-8 encoding, one [ascii] for each
    byte, so that a text of any script is a [string]: the program compares,
    joins and prints texts, which the encoding preserves, and never indexes
    or measures one.  Where the program looks at single characters
    ([strip], [lower], the pattern [\d]) the text is split into its
    characters first.  A lone surrogate, which a Python [str] may hold, is
    taken in its three-byte form. *)

Definition byte (c : ascii) : Z := Z.of_N (N_of_ascii c).

Definition of_byte (b : Z) : ascii := ascii_of_N (Z.to_N b).

(** A continuation byte, [10xxxxxx]. *)
Definition inside (b : Z) : bool := (128 <=? b) && (b <=? 191).

Definition starts_inside (s : string) : bool :=
  match s with
  | String c _ => inside (byte c)
  | EmptyString => false
  end.

(** The characters of a text, each as the bytes that encode it: a character
    begins at every byte that is not a continuation byte. *)
Fixpoint chars (s : string) : list string :=
  match s with
  | EmptyString => []
  | String c t =>
      if starts_inside t then
        match chars t with
        | ch :: rest => String c ch :: rest
        | [] => [String c EmptyString]
        end
      else String c EmptyString :: chars t
  end.

(** The code point of a character, [ord(ch)]; [-1] for bytes that are the
    encoding of none, which no text of the program holds. *)
Definition code (ch : string) : Z :=
  match map byte (list_ascii_of_string ch) with
  | [b0] => if b0 <? 128 then b0 else -1
  | [b0; b1] =>
      if (194 <=? b0) && (b0 <=? 223) && inside b1
      then (b0 - 192) * 64 + (b1 - 128) else -1
  | [b0; b1; b2] =>
      let cp := (b0 - 224) * 4096 + (b1 - 128) * 64 + (b2 - 128) in
      if (224 <=? b0) && (b0 <=? 239) && inside b1 && inside b2
         && (2048 <=? cp)
      then cp else -1
  | [b0; b1; b2; b3] =>
      let cp := (b0 - 240) * 262144 + (b1 - 128) * 4096
                + (b2 - 128) * 64 + (b3 - 128) in
      if (240 <=? b0) && (b0 <=? 244) && inside b1 && inside b2 && inside b3
         && (65536 <=? cp) && (cp <=? 1114111)
      then cp else -1
  | _ => -1
  end.

(** The code points of a text, [[ord(ch) for ch in s]]. *)
Definition codes (s : string) : list Z := map code (chars s).

(** [chr(cp)] and the text of a list of code points. *)
Definition encode_char (cp : Z) : string :=
  if cp <? 128 then String (of_byte cp) EmptyString
  else if cp <? 2048 then
    String (of_byte (192 + cp / 64))
      (String (of_byte (128 + cp mod 64)) EmptyString)
  else if cp <? 65536 then
    String (of_byte (224 + cp / 4096))
      (String (of_byte (128 + (cp / 64) mod 64))
         (String (of_byte (128 + cp mod 64)) EmptyString))
  else
    String (of_byte (240 + cp / 262144))
      (String (of_byte (128 + (cp / 4096) mod 64))
         (String (of_byte (128 + (cp / 64) mod 64))
            (String (of_byte (128 + cp mod 64)) EmptyString))).

(** ["".join(parts)] *)
Fixpoint flat (parts : list string) : string :=
  match parts with
  | [] => EmptyString
  | p :: rest => p +:+ flat rest
  end.

Definition encode (cps : list Z) : string := flat (map encode_char cps).

(** [c.isspace()]: the white space that [strip()] removes. *)
Definition isspace (cp : Z) : bool :=
  ((9 <=? cp) && (cp <=? 13)) || ((28 <=? cp) && (cp <=? 32))
  || (cp =? 133) || (cp =? 160) || (cp =? 5760)
  || ((8192 <=? cp) && (cp <=? 8202))
  || (cp =? 8232) || (cp =? 8233) || (cp =? 8239) || (cp =? 8287)
  || (cp =? 12288).

(** The digit zero of every script: the decimal digits (category Nd) of
    Unicode 14.0, the database of CPython 3.11, come in runs of ten from
    these code points. *)
Definition decimal_zeros : list Z :=
  [48; 1632; 1776; 1984; 2406; 2534; 2662; 2790; 2918; 3046; 3174; 3302;
   3430; 3558; 3664; 3792; 3872; 4160; 4240; 6112; 6160; 6470; 6608; 6784;
   6800; 6992; 7088; 7232; 7248; 42528; 43216; 43264; 43472; 43504; 43600;
   44016; 65296; 66720; 68912; 69734; 69872; 69942; 70096; 70384; 70736;
   70864; 71248; 71360; 71472; 71904; 72016; 72784; 73040; 73120; 92768;
   92864; 93008; 120782; 120792; 120802; 120812; 120822; 123200; 123632;
   125264; 130032].

(** What the pattern [\d] matches in a [str]: any decimal digit. *)
Definition isdigit (cp : Z) : bool :=
  existsb (fun zero => (zero <=? cp) && (cp <? zero + 10)) decimal_zeros.

(** [ch.lower()], exact on the characters whose lower case holds an ASCII
    character: the letters A-Z, the Kelvin sign (which becomes [k]) and the
    dotted capital I (which becomes [i] and a combining dot).  Every other
    character lower-cases to characters outside ASCII and is left as it is,
    so [lower s] equals an ASCII text exactly when [s.lower()] does; the
    program only compares the result with ["nan"]. *)
Definition lower_char (ch : string) : string :=
  let cp := code ch in
  if (65 <=? cp) && (cp <=? 90) then encode_char (cp + 32)
  else if cp =? 8490 then encode_char 107
  else if cp =? 304 then encode [105; 775]
  else ch.

Definition lower (s : string) : string := flat (map lower_char (chars s)).

(** The characters left when the leading white space is dropped. *)
Fixpoint lskip (l : list string) : list string :=
  match l with
  | [] => []
  | ch :: t => if isspace (code ch) then lskip t else l
  end.

Definition lstrip (s : string) : string := flat (lskip (chars s)).

Definition rstrip (s : string) : string :=
  flat (rev (lskip (rev (chars s)))).

(** [s.strip()] *)
Definition strip (s : string) : string := rstrip (lstrip s).

(** [re.search(r"\d", s) is not None] *)
Definition has_digit (s : string) : bool :=
  existsb (fun ch => isdigit (code ch)) (chars s).

(** [sep.join(parts)] *)
Fixpoint join (sep : string) (parts : list string) : string :=
  match parts with
  | [] => ""
  | [p] => p
  | p :: rest => p +:+ sep +:+ join sep rest
  end.

(** [bool(s)] *)
Definition nonempty (s : string) : bool :=
  match s with EmptyString => false | _ => true end.

End PyStr.

(* ===================================================================== *)
(** ** Python values, exceptions and the run-time primitives *)
(* ===================================================================== *)

(** What [r.json()] can return, and what travels in request parameters.
    A float is its IEEE-754 binary64 bit pattern; a dict keeps its items in
    insertion order, looked up by key. *)
Inductive pyval : Type :=
| PNone
| PBool (b : bool)
| PInt (z : Z)
| PFloat (bits : Z)
| PStr (s : string)
| PList (l : list pyval)
| PDict (d : list (string * pyval)).

Inductive exn : Type :=
| HTTPError (msg : string)      (* raised by [session.get] or [r.json()] *)
| KeyError (key : pyval)
| IndexError (v : pyval)
| TypeError (v : pyval)
| AttributeError (v : pyval) (attr : string)
| ValueError (v : pyval)
| OverflowError (v : pyval).

(** The outcome of a Python expression: a value or a raised exception. *)
Inductive res (A : Type) : Type :=
| Ok (a : A)
| Raise (e : exn).
Arguments Ok {A} a.
Arguments Raise {A} e.

(** Primitives of the interpreter that the scripts call and do not define:
    [repr], the text of a built-in exception, and the conversions behind
    [float(...)]. *)
Class PyRuntime : Type := {
  repr : pyval -> string;
  exc_text : exn -> string;
  float_of_int : Z -> option Z;
  float_of_str : string -> option Z
}.

Module Py.

Definition float_isnan (bits : Z) : bool :=
  (Z.land (Z.shiftr bits 52) 2047 =? 2047)
  && negb (Z.land bits (2 ^ 52 - 1) =? 0).

Definition float_iszero (bits : Z) : bool :=
  Z.land bits (2 ^ 63 - 1) =? 0.

(** [bool(v)] *)
Definition truthy (v : pyval) : bool :=
  match v with
  | PNone => false
  | PBool b => b
  | PInt z => negb (z =? 0)
  | PFloat bits => negb (float_iszero bits)
  | PStr s => PyStr.nonempty s
  | PList l => match l with [] => false | _ => true end
  | PDict d => match d with [] => false | _ => true end
  end.

(** [v == s] for a string literal [s] *)
Definition eq_str (v : pyval) (s : string) : bool :=
  match v with
  | PStr t => String.eqb t s
  | _ => false
  end.

Definition is_none (v : pyval) : bool :=
  match v with PNone => true | _ => false end.

Fixpoint lookup (k : string) (d : list (string * pyval)) : option pyval :=
  match d with
  | [] => None
  | (k', v) :: rest => if String.eqb k' k then Some v else lookup k rest
  end.

(** [v.get(k, default)] *)
Definition get_or (v : pyval) (k : string) (default : pyval) : res pyval :=
  match v with
  | PDict d => Ok (match lookup k d with Some x => x | None => default end)
  | _ => Raise (AttributeError v "get")
  end.

(** [v.get(k)] *)
Definition get (v : pyval) (k : string) : res pyval := get_or v k PNone.

(** [v[k]] for a string key [k] *)
Definition item (v : pyval) (k : string) : res pyval :=
  match v with
  | PDict d =>
      match lookup k d with
      | Some x => Ok x
      | None => Raise (KeyError (PStr k))
      end
  | _ => Raise (TypeError v)
  end.

(** [v[0]]; of a text, its first character *)
Definition first (v : pyval) : res pyval :=
  match v with
  | PList (x :: _) => Ok x
  | PList [] => Raise (IndexError v)
  | PStr s =>
      match PyStr.chars s with
      | ch :: _ => Ok (PStr ch)
      | [] => Raise (IndexError v)
      end
  | PDict _ => Raise (KeyError (PInt 0))
  | _ => Raise (TypeError v)
  end.

Section WithRuntime.
Context `{PyRuntime}.

(** [str(v)], which is also [format(v, "")] inside an f-string *)
Definition str (v : pyval) : string :=
  match v with
  | PStr s => s
  | _ => repr v
  end.

(** [str(e)] *)
Definition str_exn (e : exn) : string :=
  match e with
  | HTTPError msg => msg
  | _ => exc_text e
  end.

(** [float(v)], as bits *)
Definition to_float (v : pyval) : res Z :=
  match v with
  | PFloat bits => Ok bits
  | PInt z =>
      match float_of_int z with
      | Some bits => Ok bits
      | None => Raise (OverflowError v)
      end
  | PBool b =>
      match float_of_int (if b then 1 else 0) with
      | Some bits => Ok bits
      | None => Raise (OverflowError v)
      end
  | PStr s =>
      match float_of_str s with
      | Some bits => Ok bits
      | None => Raise (ValueError v)
      end
  | _ => Raise (TypeError v)
  end.
End WithRuntime.

End Py.

(** A cell of the input sheet or an argument of the entry point: the
    scalars that reach [clean_cell]. *)
Inductive scalar : Type :=
| SNone
| SBool (b : bool)
| SInt (z : Z)
| SFloat (bits : Z)
| SStr (s : string).

Definition scalar_val (x : scalar) : pyval :=
  match x with
  | SNone => PNone
  | SBool b => PBool b
  | SInt z => PInt z
  | SFloat bits => PFloat bits
  | SStr s => PStr s
  end.

(** [pd.isna(x)] on a scalar *)
Definition pd_isna (x : scalar) : bool :=
  match x with
  | SNone => true
  | SFloat bits => Py.float_isnan bits
  | _ => false
  end.

(* ===================================================================== *)
(** ** Statements that may raise, over an explicit state *)
(* ===================================================================== *)

Definition M (St A : Type) : Type := St -> res A * St.

Definition ret {St A} (a : A) : M St A := fun s => (Ok a, s).

Definition raise {St A} (e : exn) : M St A := fun s => (Raise e, s).

Definition bind {St A B} (m : M St A) (k : A -> M St B) : M St B :=
  fun s =>
    match m s with
    | (Ok a, s') => k a s'
    | (Raise e, s') => (Raise e, s')
    end.

(** An expression that may raise, used as a statement. *)
Definition lift {St A} (r : res A) : M St A := fun s => (r, s).

(** [try: body  except Exception as e: handler(e)] *)
Definition try_except {St A} (body : M St A) (handler : exn -> M St A) : M St A :=
  fun s =>
    match body s with
    | (Ok a, s') => (Ok a, s')
    | (Raise e, s') => handler e s'
    end.

Notation "x <- m ;; k" := (bind m (fun x => k))
  (at level 100, m at next level, right associativity).

(** An HTTP request: the URL and the query parameters in insertion order. *)
Definition request : Type := string * list (string * pyval).

(** The provider transport: given the requests already made and the current
    one, the parsed JSON body or the exception [session.get]/[r.json()]
    raises. *)
Definition transport : Type := list request -> request -> res pyval.

(* ===================================================================== *)
(** ** [latlong/geocode_json.py] *)
(* ===================================================================== *)

Module GeocodeJson.

Definition CITY_TEXTSEARCH_RADIUS_M : Z := 50000.
Definition PLACES_TYPE : string := "tourist_attraction".

(** The result dict every adapter builds, one field per key. *)
Record result : Type := {
  latitude : pyval;
  longitude : pyval;
  formatted_address : pyval;
  resolved_name : pyval;
  status : string;
  source : string;
  place_id : pyval
}.

(** [d["source"] = src] *)
Definition set_source (d : result) (src : string) : result :=
  {| latitude := latitude d; longitude := longitude d;
     formatted_address := formatted_address d;
     resolved_name := resolved_name d; status := status d;
     source := src; place_id := place_id d |}.

(** The dict with no coordinates that the failure branches return. *)
Definition failure (st src : string) : result :=
  {| latitude := PNone; longitude := PNone; formatted_address := PNone;
     resolved_name := PNone; status := st; source := src;
     place_id := PNone |}.

(** The state a run threads: requests made so far (oldest first) and the
    [city_cache] dict shared by all calls of the run. *)
Record world : Type := {
  calls : list request;
  city_cache : gmap string (Z * Z)
}.

Definition url_details : string :=
  "https://maps.googleapis.com/maps/api/place/details/json".
Definition url_findplace : string :=
  "https://maps.googleapis.com/maps/api/place/findplacefromtext/json".
Definition url_textsearch : string :=
  "https://maps.googleapis.com/maps/api/place/textsearch/json".
Definition url_geocode : string :=
  "https://maps.googleapis.com/maps/api/geocode/json".

Definition is_low_quality_address (addr : pyval) : bool :=
  match addr with
  | PStr s =>
      if negb (Py.truthy addr) then true else negb (PyStr.has_digit s)
  | _ => true        (* [not isinstance(addr, str)], or [None] *)
  end.

Section Adapters.
Context `{PyRuntime}.
Variable net : transport.
Variable api_key : string.

Definition clean_cell (x : scalar) : option string :=
  match x with
  | SNone => None
  | _ =>
      if pd_isna x then None
      else
        let s := PyStr.strip (Py.str (scalar_val x)) in
        if negb (PyStr.nonempty s) || String.eqb (PyStr.lower s) "nan"
        then None
        else Some s
  end.

Definition http_get_json (url : string) (params : list (string * pyval))
  : M world pyval :=
  fun s =>
    (net (calls s) (url, params),
     {| calls := calls s ++ [(url, params)]; city_cache := city_cache s |}).

Definition place_details (pid : pyval) : M world (option result) :=
  data <- http_get_json url_details
            [("place_id", pid);
             ("fields", PStr "name,formatted_address,geometry,types");
             ("key", PStr api_key)] ;;
  st <- lift (Py.get data "status") ;;
  if Py.eq_str st "OK" then
    res <- lift (Py.item data "result") ;;
    geom <- lift (Py.item res "geometry") ;;
    loc <- lift (Py.item geom "location") ;;
    lat <- lift (Py.get loc "lat") ;;
    lng <- lift (Py.get loc "lng") ;;
    addr <- lift (Py.get_or res "formatted_address" (PStr "")) ;;
    name <- lift (Py.get_or res "name" (PStr "")) ;;
    ret (Some {| latitude := lat; longitude := lng;
                 formatted_address := addr; resolved_name := name;
                 status := "success"; source := "places_details";
                 place_id := pid |})
  else ret None.

Definition findplace_then_details (query : string) : M world result :=
  try_except
    (data <- http_get_json url_findplace
               [("input", PStr query);
                ("inputtype", PStr "textquery");
                ("fields", PStr "place_id");
                ("key", PStr api_key)] ;;
     let not_found :=
       st <- lift (Py.get_or data "status" (PStr "UNKNOWN")) ;;
       ret (failure ("not_found_in_places:" +:+ Py.str st)
                    "places_findplace") in
     st <- lift (Py.get data "status") ;;
     cands <- (if Py.eq_str st "OK" then lift (Py.get data "candidates")
               else ret PNone) ;;
     if Py.eq_str st "OK" && Py.truthy cands then
       cs <- lift (Py.item data "candidates") ;;
       c0 <- lift (Py.first cs) ;;
       pid <- lift (Py.item c0 "place_id") ;;
       details <- place_details pid ;;
       match details with
       | Some d =>
           if String.eqb (status d) "success"
           then ret (set_source d "places_findplace")
           else not_found
       | None => not_found
       end
     else not_found)
    (fun e =>
       ret (failure ("Exception: " +:+ Py.str_exn e) "places_findplace")).

Definition places_text_search_place_id (query : string)
    (location : option string) (radius : Z) (place_type : option string)
  : M world pyval :=
  let params := [("query", PStr query); ("key", PStr api_key)] in
  let params :=
    match location with
    | Some l =>
        if PyStr.nonempty l
        then params ++ [("location", PStr l); ("radius", PInt radius)]
        else params
    | None => params
    end in
  let params :=
    match place_type with
    | Some t =>
        if PyStr.nonempty t then params ++ [("type", PStr t)] else params
    | None => params
    end in
  data <- http_get_json url_textsearch params ;;
  st <- lift (Py.get data "status") ;;
  results <- (if Py.eq_str st "OK" then lift (Py.get data "results")
              else ret PNone) ;;
  if Py.eq_str st "OK" && Py.truthy results then
    rs <- lift (Py.item data "results") ;;
    r0 <- lift (Py.first rs) ;;
    lift (Py.get r0 "place_id")
  else ret PNone.

Definition geocode_fallback (query : string) : M world result :=
  try_except
    (data <- http_get_json url_geocode
               [("address", PStr query); ("key", PStr api_key)] ;;
     st <- lift (Py.get data "status") ;;
     results <- (if Py.eq_str st "OK" then lift (Py.get data "results")
                 else ret PNone) ;;
     if Py.eq_str st "OK" && Py.truthy results then
       rs <- lift (Py.item data "results") ;;
       r0 <- lift (Py.first rs) ;;
       geom <- lift (Py.item r0 "geometry") ;;
       loc <- lift (Py.item geom "location") ;;
       rs' <- lift (Py.item data "results") ;;
       r0' <- lift (Py.first rs') ;;
       addr <- lift (Py.get r0' "formatted_address") ;;
       lat <- lift (Py.get loc "lat") ;;
       lng <- lift (Py.get loc "lng") ;;
       ret {| latitude := lat; longitude := lng;
              formatted_address := addr; resolved_name := PNone;
              status := "success"; source := "geocoding_api";
              place_id := PNone |}
     else
       st' <- lift (Py.get_or data "status" (PStr "UNKNOWN")) ;;
       ret (failure ("Error: " +:+ Py.str st') "geocoding_api"))
    (fun e =>
       ret (failure ("Exception: " +:+ Py.str_exn e) "geocoding_api")).

(** [city_cache[city] = v] *)
Definition cache_store (city : string) (v : Z * Z) : M world unit :=
  fun s =>
    (Ok tt, {| calls := calls s; city_cache := <[city := v]> (city_cache s) |}).

Definition get_city_latlng (city : string) : M world (option (Z * Z)) :=
  fun s =>
    match city_cache s !! city with
    | Some v => (Ok (Some v), s)
    | None =>
        (r <- geocode_fallback city ;;
         if String.eqb (status r) "success"
            && negb (Py.is_none (latitude r))
            && negb (Py.is_none (longitude r))
         then
           lat <- lift (Py.to_float (latitude r)) ;;
           lng <- lift (Py.to_float (longitude r)) ;;
           _ <- cache_store city (lat, lng) ;;
           ret (Some (lat, lng))
         else ret None) s
    end.

(** [bool(v)] for the [Optional[str]] that [clean_cell] returns *)
Definition present (v : option string) : bool :=
  match v with
  | Some s => PyStr.nonempty s
  | None => false
  end.

(** [", ".join([v for v in [name, city] if v])] *)
Definition build_query (name city : option string) : string :=
  PyStr.join ", "
    (omap (fun v => if present v then v else None) [name; city]).

(** Lines 235-239: the bias for tier 2, from the city cache. *)
Definition city_location (city : option string) : M world (option string) :=
  match city with
  | Some c =>
      if PyStr.nonempty c then
        latlng <- get_city_latlng c ;;
        match latlng with
        | Some (lat, lng) =>
            ret (Some (Py.str (PFloat lat) +:+ "," +:+ Py.str (PFloat lng)))
        | None => ret None
        end
      else ret None
  | None => ret None
  end.

Definition resolve_attraction (attraction_name city_name : scalar)
  : M world result :=
  let name := clean_cell attraction_name in
  let city := clean_cell city_name in
  if negb (present name) && negb (present city) then
    ret (failure "skipped-empty" "none")
  else
    let query := build_query name city in
    (* 1) Find Place *)
    r1 <- findplace_then_details query ;;
    if String.eqb (status r1) "success"
       && negb (is_low_quality_address (formatted_address r1))
    then ret r1
    else
      (* 2) Text Search biased to city center *)
      city_loc <- city_location city ;;
      pid <- places_text_search_place_id query city_loc
               CITY_TEXTSEARCH_RADIUS_M (Some PLACES_TYPE) ;;
      (* 3) Geocoding fallback *)
      let fallback := geocode_fallback query in
      if Py.truthy pid then
        d <- place_details pid ;;
        match d with
        | Some d =>
            if String.eqb (status d) "success" then
              if is_low_quality_address (formatted_address d)
              then ret (set_source d "places_textsearch_low_quality")
              else ret (set_source d "places_textsearch")
            else fallback
        | None => fallback
        end
      else fallback.

End Adapters.

End GeocodeJson.

(* ===================================================================== *)
(** ** [latlong/find.py] *)
(* ===================================================================== *)

Module Find.

(** The result dict of this script: no [place_id], and the display name
    is under [venue_name]. *)
Record result : Type := {
  latitude : pyval;
  longitude : pyval;
  formatted_address : pyval;
  venue_name : pyval;
  status : string;
  source : string
}.

Definition set_source (d : result) (src : string) : result :=
  {| latitude := latitude d; longitude := longitude d;
     formatted_address := formatted_address d;
     venue_name := venue_name d; status := status d; source := src |}.

Definition failure (st src : string) : result :=
  {| latitude := PNone; longitude := PNone; formatted_address := PNone;
     venue_name := PNone; status := st; source := src |}.

(** This script keeps no cache: the state is the request log alone. *)
Definition world : Type := list request.

Definition url_details : string :=
  "https://maps.googleapis.com/maps/api/place/details/json".
Definition url_findplace : string :=
  "https://maps.googleapis.com/maps/api/place/findplacefromtext/json".
Definition url_textsearch : string :=
  "https://maps.googleapis.com/maps/api/place/textsearch/json".
Definition url_geocode : string :=
  "https://maps.googleapis.com/maps/api/geocode/json".

Definition is_low_quality_address (addr : pyval) : bool :=
  match addr with
  | PStr s =>
      if negb (Py.truthy addr) then true else negb (PyStr.has_digit s)
  | _ => true
  end.

Section Adapters.
Context `{PyRuntime}.
Variable net : transport.
Variable api_key : string.

Definition clean_cell (x : scalar) : option string :=
  if pd_isna x then None
  else
    let s := PyStr.strip (Py.str (scalar_val x)) in
    if negb (PyStr.nonempty s) || String.eqb (PyStr.lower s) "nan"
    then None
    else Some s.

Definition http_get_json (url : string) (params : list (string * pyval))
  : M world pyval :=
  fun s => (net s (url, params), s ++ [(url, params)]).

Definition place_details (pid : pyval) : M world (option result) :=
  data <- http_get_json url_details
            [("place_id", pid);
             ("fields",
              PStr "name,formatted_address,address_components,geometry,types");
             ("key", PStr api_key)] ;;
  st <- lift (Py.get data "status") ;;
  if Py.eq_str st "OK" then
    res <- lift (Py.item data "result") ;;
    geom <- lift (Py.item res "geometry") ;;
    loc <- lift (Py.item geom "location") ;;
    lat <- lift (Py.get loc "lat") ;;
    lng <- lift (Py.get loc "lng") ;;
    addr <- lift (Py.get_or res "formatted_address" (PStr "")) ;;
    name <- lift (Py.get_or res "name" (PStr "")) ;;
    ret (Some {| latitude := lat; longitude := lng;
                 formatted_address := addr; venue_name := name;
                 status := "success"; source := "places_details" |})
  else ret None.

Definition find_venue_with_places_findplace (query : string)
  : M world result :=
  try_except
    (data <- http_get_json url_findplace
               [("input", PStr query);
                ("inputtype", PStr "textquery");
                ("fields", PStr "place_id,name,formatted_address,geometry");
                ("key", PStr api_key)] ;;
     let not_found :=
       st <- lift (Py.get_or data "status" (PStr "UNKNOWN")) ;;
       ret (failure ("not_found_in_places:" +:+ Py.str st)
                    "places_findplace") in
     st <- lift (Py.get data "status") ;;
     cands <- (if Py.eq_str st "OK" then lift (Py.get data "candidates")
               else ret PNone) ;;
     if Py.eq_str st "OK" && Py.truthy cands then
       cs <- lift (Py.item data "candidates") ;;
       c0 <- lift (Py.first cs) ;;
       pid <- lift (Py.item c0 "place_id") ;;
       details <- place_details pid ;;
       match details with
       | Some d =>
           if String.eqb (status d) "success"
           then ret (set_source d "places_findplace")
           else not_found
       | None => not_found
       end
     else not_found)
    (fun e =>
       ret (failure ("Exception: " +:+ Py.str_exn e) "places_findplace")).

Definition places_text_search_place_id (query : string)
    (location : option string) (radius : Z) (place_type : option string)
  : M world pyval :=
  let params := [("query", PStr query); ("key", PStr api_key)] in
  let params :=
    match location with
    | Some l =>
        if PyStr.nonempty l
        then params ++ [("location", PStr l); ("radius", PInt radius)]
        else params
    | None => params
    end in
  let params :=
    match place_type with
    | Some t =>
        if PyStr.nonempty t then params ++ [("type", PStr t)] else params
    | None => params
    end in
  data <- http_get_json url_textsearch params ;;
  st <- lift (Py.get data "status") ;;
  results <- (if Py.eq_str st "OK" then lift (Py.get data "results")
              else ret PNone) ;;
  if Py.eq_str st "OK" && Py.truthy results then
    rs <- lift (Py.item data "results") ;;
    r0 <- lift (Py.first rs) ;;
    lift (Py.get r0 "place_id")
  else ret PNone.

Definition geocode_venue (query : string) : M world result :=
  try_except
    (data <- http_get_json url_geocode
               [("address", PStr query); ("key", PStr api_key)] ;;
     st <- lift (Py.get data "status") ;;
     results <- (if Py.eq_str st "OK" then lift (Py.get data "results")
                 else ret PNone) ;;
     if Py.eq_str st "OK" && Py.truthy results then
       rs <- lift (Py.item data "results") ;;
       r0 <- lift (Py.first rs) ;;
       geom <- lift (Py.item r0 "geometry") ;;
       loc <- lift (Py.item geom "location") ;;
       rs' <- lift (Py.item data "results") ;;
       r0' <- lift (Py.first rs') ;;
       addr <- lift (Py.get r0' "formatted_address") ;;
       lat <- lift (Py.get loc "lat") ;;
       lng <- lift (Py.get loc "lng") ;;
       ret {| latitude := lat; longitude := lng;
              formatted_address := addr; venue_name := PNone;
              status := "success"; source := "geocoding_api" |}
     else
       st' <- lift (Py.get_or data "status" (PStr "UNKNOWN")) ;;
       ret (failure ("Error: " +:+ Py.str st') "geocoding_api"))
    (fun e =>
       ret (failure ("Exception: " +:+ Py.str_exn e) "geocoding_api")).

Definition present (v : option string) : bool :=
  match v with
  | Some s => PyStr.nonempty s
  | None => false
  end.

Definition build_query (name city : option string) : string :=
  PyStr.join ", "
    (omap (fun v => if present v then v else None) [name; city]).

(** Lines 218-222: the bias for tier 2, geocoded on every call. *)
Definition city_location (city_clean : option string)
  : M world (option string) :=
  match city_clean with
  | Some c0 =>
      if PyStr.nonempty c0 then
        c <- geocode_venue c0 ;;
        if String.eqb (status c) "success"
           && negb (Py.is_none (latitude c))
           && negb (Py.is_none (longitude c))
        then ret (Some (Py.str (latitude c) +:+ "," +:+ Py.str (longitude c)))
        else ret None
      else ret None
  | None => ret None
  end.

Definition get_venue_location (venue_name city : scalar) : M world result :=
  let venue_name_clean := clean_cell venue_name in
  let city_clean := clean_cell city in
  if negb (present venue_name_clean) && negb (present city_clean) then
    ret (failure "skipped-empty" "none")
  else
    let query := build_query venue_name_clean city_clean in
    (* 1) Find Place *)
    result <- find_venue_with_places_findplace query ;;
    if String.eqb (status result) "success"
       && negb (is_low_quality_address (formatted_address result))
    then ret result
    else
      (* 2) Text Search biased to city location *)
      city_loc <- city_location city_clean ;;
      place_id <- places_text_search_place_id query city_loc 50000
                    (Some "tourist_attraction") ;;
      (* 3) Fallback to Geocoding *)
      let fallback := geocode_venue query in
      if Py.truthy place_id then
        details <- place_details place_id ;;
        match details with
        | Some d =>
            if String.eqb (status d) "success"
               && negb (is_low_quality_address (formatted_address d))
            then ret (set_source d "places_textsearch")
            else if String.eqb (status d) "success"
            then ret (set_source d "places_textsearch_low_quality")
            else fallback
        | None => fallback
        end
      else fallback.

End Adapters.

End Find.

(* ===================================================================== *)
(** ** Vocabulary of the properties *)
(* ===================================================================== *)

(** A coordinate that is present and numeric. *)
Definition numeric (v : pyval) : bool :=
  match v with
  | PInt _ | PFloat _ => true
  | _ => false
  end.

(** [loc] holds numbers under [lat] and [lng]. *)
Definition location_numeric (loc : pyval) : bool :=
  match Py.get loc "lat", Py.get loc "lng" with
  | Ok lat, Ok lng => numeric lat && numeric lng
  | _, _ => true
  end.

(** The location of a Place Details body, [data["result"]["geometry"]
    ["location"]], is numeric when the body has one. *)
Definition details_numeric (data : pyval) : bool :=
  match Py.item data "result" with
  | Ok res =>
      match Py.item res "geometry" with
      | Ok geom =>
          match Py.item geom "location" with
          | Ok loc => location_numeric loc
          | Raise _ => true
          end
      | Raise _ => true
      end
  | Raise _ => true
  end.

(** The same for a Geocoding body, [data["results"][0]["geometry"]
    ["location"]]. *)
Definition geocode_numeric (data : pyval) : bool :=
  match Py.item data "results" with
  | Ok rs =>
      match Py.first rs with
      | Ok r0 =>
          match Py.item r0 "geometry" with
          | Ok geom =>
              match Py.item geom "location" with
              | Ok loc => location_numeric loc
              | Raise _ => true
              end
          | Raise _ => true
          end
      | Raise _ => true
      end
  | Raise _ => true
  end.

(** A provider whose bodies carry numbers wherever they carry a location. *)
Definition numeric_transport (net : transport) : Prop :=
  forall h url params data,
    net h (url, params) = Ok data ->
    (url = GeocodeJson.url_details -> details_numeric data = true)
    /\ (url = GeocodeJson.url_geocode -> geocode_numeric data = true).

(** Is [rq] a geocoding request for the address [c]? *)
Definition geocodes (c : string) (rq : request) : bool :=
  String.eqb (fst rq) GeocodeJson.url_geocode
  && match Py.lookup "address" (snd rq) with
     | Some v => Py.eq_str v c
     | None => false
     end.

Fixpoint geocode_count (c : string) (l : list request) : nat :=
  match l with
  | [] => 0%nat
  | rq :: rest => ((if geocodes c rq then 1 else 0) + geocode_count c rest)%nat
  end.

(** Tier 3 geocodes the query; that is one more geocoding request on [c]
    when the query is the bare city (no venue name). *)
Definition tier3_on (q c : string) : nat :=
  if String.eqb q c then 1%nat else 0%nat.

(** A decimal digit of any script: what the pattern [\d] matches. *)
Definition decimal_digit (c : Z) : Prop :=
  exists zero, In zero PyStr.decimal_zeros /\ zero <= c < zero + 10.

Definition not_a_string (v : pyval) : Prop := forall s, v <> PStr s.

(** A text none of whose characters is a decimal digit. *)
Definition no_digit_text (v : pyval) : Prop :=
  exists s, v = PStr s /\
    forall c, In c (PyStr.codes s) -> ~ decimal_digit c.

(** A text all of whose characters are white space; the empty text is
    one. *)
Definition white (s : string) : Prop :=
  forall c, In c (PyStr.codes s) -> PyStr.isspace c = true.

(** [t] is [w] with white space before and after it. *)
Definition padded (w t : string) : Prop :=
  exists pre post, t = pre +:+ w +:+ post /\ white pre /\ white post.

(** The texts equal to ["nan"] when case is ignored. *)
Definition nan_spellings : list string :=
  ["nan"; "naN"; "nAn"; "nAN"; "Nan"; "NaN"; "NAn"; "NAN"].

(** The first and the last character of a text, when it has one. *)
Definition first_char (s : string) : option Z := head (PyStr.codes s).

Definition last_char (s : string) : option Z := last (PyStr.codes s).

(** A character as [PyStr.chars] cuts it: one byte and the continuation
    bytes that follow it. *)
Fixpoint all_inside (t : string) : bool :=
  match t with
  | EmptyString => true
  | String c t' => PyStr.inside (PyStr.byte c) && all_inside t'
  end.

Definition one_char (ch : string) : Prop :=
  match ch with
  | EmptyString => False
  | String _ t => all_inside t = true
  end.

(** A list of characters that [PyStr.chars] gives back when they are
    joined: every one but the first begins a character. *)
Definition separable (l : list string) : Prop :=
  Forall one_char l
  /\ Forall (fun ch => PyStr.starts_inside ch = false) (tl l).

Definition blank (ch : string) : Prop := PyStr.isspace (PyStr.code ch) = true.

(** What [strip] keeps of the characters of a text. *)
Definition trim (l : list string) : list string :=
  rev (PyStr.lskip (rev (PyStr.lskip l))).

(** The location object of a Place Details body,
    [data["result"]["geometry"]["location"]]. *)
Definition details_location (data : pyval) : res pyval :=
  match Py.item data "result" with
  | Ok res =>
      match Py.item res "geometry" with
      | Ok geom => Py.item geom "location"
      | Raise e => Raise e
      end
  | Raise e => Raise e
  end.

(** The location object of a Geocoding body,
    [data["results"][0]["geometry"]["location"]]. *)
Definition geocode_location (data : pyval) : res pyval :=
  match Py.item data "results" with
  | Ok rs =>
      match Py.first rs with
      | Ok r0 =>
          match Py.item r0 "geometry" with
          | Ok geom => Py.item geom "location"
          | Raise e => Raise e
          end
      | Raise e => Raise e
      end
  | Raise e => Raise e
  end.

(** The location object of the body that answered the request [rq], for
    the two endpoints that return one. *)
Definition provider_location (rq : request) (data : pyval) : option pyval :=
  if String.eqb (fst rq) GeocodeJson.url_details then
    match details_location data with Ok loc => Some loc | Raise _ => None end
  else if String.eqb (fst rq) GeocodeJson.url_geocode then
    match geocode_location data with Ok loc => Some loc | Raise _ => None end
  else None.

(** [lat] and [lng] are what the provider sent: the log [h] grew to [h']
    by requests the last of which was answered by a body whose location
    object holds [lat] under ["lat"] and [lng] under ["lng"] ([None] for a
    member that is missing). *)
Definition read_last (net : transport) (h h' : list request)
    (lat lng : pyval) : Prop :=
  exists l rq data loc,
    h' = h ++ l ++ [rq]
    /\ net (h ++ l) rq = Ok data
    /\ provider_location rq data = Some loc
    /\ Py.get loc "lat" = Ok lat
    /\ Py.get loc "lng" = Ok lng.

(** The requests each adapter sends, and the paths through the resolver
    that the properties speak of. *)
Module GeocodeJsonSpec.
Import GeocodeJson.

Definition details_request (key : string) (pid : pyval) : request :=
  (url_details,
   [("place_id", pid);
    ("fields", PStr "name,formatted_address,geometry,types");
    ("key", PStr key)]).

Definition geocode_request (key q : string) : request :=
  (url_geocode, [("address", PStr q); ("key", PStr key)]).

Definition findplace_request (key q : string) : request :=
  (url_findplace,
   [("input", PStr q); ("inputtype", PStr "textquery");
    ("fields", PStr "place_id"); ("key", PStr key)]).

(** [s] after the requests [l]. *)
Definition log (s : world) (l : list request) : world :=
  {| calls := calls s ++ l; city_cache := city_cache s |}.

Section Paths.
Context `{PyRuntime} (net : transport) (key : string).

(** The input is not the empty one: line 216 does not return. *)
Definition not_skipped (attraction_name city_name : scalar) : Prop :=
  negb (present (clean_cell attraction_name))
  && negb (present (clean_cell city_name)) = false.

Definition query_of (attraction_name city_name : scalar) : string :=
  build_query (clean_cell attraction_name) (clean_cell city_name).

(** Tier 1 ran from [s] to [s1] and line 231 did not accept its result. *)
Definition tier1_rejected (query : string) (s s1 : world) : Prop :=
  exists r1,
    findplace_then_details net key query s = (Ok r1, s1)
    /\ String.eqb (status r1) "success"
       && negb (is_low_quality_address (formatted_address r1)) = false.

(** Tier 2 was reached and its text search returned [pid], leaving [s3]. *)
Definition text_search_gave (city : option string) (query : string)
    (pid : pyval) (s s3 : world) : Prop :=
  exists s1 s2 city_loc,
    tier1_rejected query s s1
    /\ city_location net key city s1 = (Ok city_loc, s2)
    /\ places_text_search_place_id net key query city_loc
         CITY_TEXTSEARCH_RADIUS_M (Some PLACES_TYPE) s2
       = (Ok pid, s3).

(** [r] is the result dict that an adapter or the resolver returned on a
    run that took the state from [s] to [s']. *)
Definition returned (r : result) (s s' : world) : Prop :=
  (exists pid, place_details net key pid s = (Ok (Some r), s'))
  \/ (exists q, findplace_then_details net key q s = (Ok r, s'))
  \/ (exists q, geocode_fallback net key q s = (Ok r, s'))
  \/ (exists a c, resolve_attraction net key a c s = (Ok r, s')).
End Paths.
End GeocodeJsonSpec.

Module FindSpec.
Import Find.

Definition details_request (key : string) (pid : pyval) : request :=
  (url_details,
   [("place_id", pid);
    ("fields", PStr "name,formatted_address,address_components,geometry,types");
    ("key", PStr key)]).

Definition geocode_request (key q : string) : request :=
  (url_geocode, [("address", PStr q); ("key", PStr key)]).

Definition findplace_request (key q : string) : request :=
  (url_findplace,
   [("input", PStr q); ("inputtype", PStr "textquery");
    ("fields", PStr "place_id,name,formatted_address,geometry");
    ("key", PStr key)]).

Section Paths.
Context `{PyRuntime} (net : transport) (key : string).

Definition not_skipped (venue_name city : scalar) : Prop :=
  negb (present (clean_cell venue_name))
  && negb (present (clean_cell city)) = false.

Definition query_of (venue_name city : scalar) : string :=
  build_query (clean_cell venue_name) (clean_cell city).

Definition tier1_rejected (query : string) (s s1 : world) : Prop :=
  exists r1,
    find_venue_with_places_findplace net key query s = (Ok r1, s1)
    /\ String.eqb (status r1) "success"
       && negb (is_low_quality_address (formatted_address r1)) = false.

Definition text_search_gave (city : option string) (query : string)
    (pid : pyval) (s s3 : world) : Prop :=
  exists s1 s2 city_loc,
    tier1_rejected query s s1
    /\ city_location net key city s1 = (Ok city_loc, s2)
    /\ places_text_search_place_id net key query city_loc 50000
         (Some "tourist_attraction") s2
       = (Ok pid, s3).

Definition returned (r : result) (s s' : world) : Prop :=
  (exists pid, place_details net key pid s = (Ok (Some r), s'))
  \/ (exists q, find_venue_with_places_findplace net key q s = (Ok r, s'))
  \/ (exists q, geocode_venue net key q s = (Ok r, s'))
  \/ (exists a c, get_venue_location net key a c s = (Ok r, s')).
End Paths.
End FindSpec.

(* ===================================================================== *)
(** ** Worked scenarios: a run-time instance and scripted providers *)
(* ===================================================================== *)

Module Scenario.

(** 52.5, 4.75 *)
Definition f52_5 : Z := 4632585535448154112.
Definition f4_75 : Z := 4617034042984890368.

(** [float(z)] with round-to-nearest-even; [None] is [OverflowError]. *)
Definition py_float_of_int (z : Z) : option Z :=
  if z =? 0 then Some 0
  else
    let m := Z.abs z in
    let e := Z.log2 m in
    let sign := if z <? 0 then 2 ^ 63 else 0 in
    let '(mant, e') :=
      if e <=? 52 then (Z.shiftl m (52 - e), e)
      else
        let sh := e - 52 in
        let q := Z.shiftr m sh in
        let rem := Z.land m (2 ^ sh - 1) in
        let half := 2 ^ (sh - 1) in
        let q' :=
          if (half <? rem) || ((rem =? half) && Z.odd q) then q + 1 else q in
        if q' =? 2 ^ 53 then (2 ^ 52, e + 1) else (q', e) in
    if 1024 <=? e' then None
    else Some (sign + (e' + 1023) * 2 ^ 52 + (mant - 2 ^ 52)).

Definition type_name (v : pyval) : string :=
  match v with
  | PNone => "NoneType"
  | PBool _ => "bool"
  | PInt _ => "int"
  | PFloat _ => "float"
  | PStr _ => "str"
  | PList _ => "list"
  | PDict _ => "dict"
  end.

(** The instance answers as CPython does on [None], booleans, integers,
    quote-free strings and the two floats above; the scenarios use no
    other value in a place where its text matters, and convert no string
    to a float. *)
#[export] Instance sample_runtime : PyRuntime := {|
  repr v :=
    match v with
    | PNone => "None"
    | PBool true => "True"
    | PBool false => "False"
    | PInt z => DecimalString.NilZero.string_of_int (Z.to_int z)
    | PFloat bits =>
        if bits =? f52_5 then "52.5"
        else if bits =? f4_75 then "4.75"
        else "<float>"
    | PStr s => "'" +:+ s +:+ "'"
    | PList _ => "[...]"
    | PDict _ => "{...}"
    end;
  exc_text e :=
    match e with
    | HTTPError msg => msg
    | KeyError (PStr k) => "'" +:+ k +:+ "'"
    | KeyError _ => "0"
    | IndexError v => type_name v +:+ " index out of range"
    | TypeError v => "'" +:+ type_name v +:+ "' object is not subscriptable"
    | AttributeError v a =>
        "'" +:+ type_name v +:+ "' object has no attribute '" +:+ a +:+ "'"
    | ValueError _ => "could not convert string to float"
    | OverflowError _ => "int too large to convert to float"
    end;
  float_of_int := py_float_of_int;
  float_of_str := fun _ => None
|}.

Definition key : string := "KEY".

(** A provider that answers by endpoint alone: the first entry of the
    table for the URL, an empty object for an unlisted one. *)
Fixpoint answer (table : list (string * res pyval)) (url : string) : res pyval :=
  match table with
  | [] => Ok (PDict [])
  | (u, o) :: rest => if String.eqb u url then o else answer rest url
  end.

Definition by_url (table : list (string * res pyval)) : transport :=
  fun _ rq => answer table (fst rq).

Definition status_only (st : string) : pyval := PDict [("status", PStr st)].

Definition candidates (pid : string) : pyval :=
  PDict [("status", PStr "OK");
         ("candidates", PList [PDict [("place_id", PStr pid)]])].

Definition results (pid : string) : pyval :=
  PDict [("status", PStr "OK");
         ("results", PList [PDict [("place_id", PStr pid)]])].

Definition geometry (location : pyval) : pyval :=
  PDict [("location", location)].

Definition at_coords (lat lng : Z) : pyval :=
  PDict [("lat", PFloat lat); ("lng", PFloat lng)].

Definition details (location : pyval) (addr name : string) : pyval :=
  PDict [("status", PStr "OK");
         ("result",
          PDict [("geometry", geometry location);
                 ("formatted_address", PStr addr);
                 ("name", PStr name)])].

Definition geocoded (location : pyval) (addr : string) : pyval :=
  PDict [("status", PStr "OK");
         ("results",
          PList [PDict [("geometry", geometry location);
                        ("formatted_address", PStr addr)]])].

(** Tier 1 finds a street-level address. *)
Definition net_street : transport :=
  by_url
    [(GeocodeJson.url_findplace, Ok (candidates "p1"));
     (GeocodeJson.url_details,
      Ok (details (at_coords f52_5 f4_75) "Dam 1, 1012 JS Amsterdam"
            "Royal Palace"))].

(** Tier 1 finds nothing; the text search finds a place whose address is
    city-level. *)
Definition net_text_search : transport :=
  by_url
    [(GeocodeJson.url_findplace, Ok (status_only "ZERO_RESULTS"));
     (GeocodeJson.url_geocode,
      Ok (geocoded (at_coords f52_5 f4_75) "Amsterdam, Netherlands"));
     (GeocodeJson.url_textsearch, Ok (results "p2"));
     (GeocodeJson.url_details,
      Ok (details (at_coords f52_5 f4_75) "Amsterdam, Netherlands"
            "Royal Palace"))].

(** Neither place tier finds a candidate; geocoding answers. *)
Definition net_geocode_only : transport :=
  by_url
    [(GeocodeJson.url_findplace, Ok (status_only "ZERO_RESULTS"));
     (GeocodeJson.url_textsearch, Ok (status_only "ZERO_RESULTS"));
     (GeocodeJson.url_geocode,
      Ok (geocoded (at_coords f52_5 f4_75) "Amsterdam, Netherlands"))].

(** The text search finds a candidate whose details are refused. *)
Definition net_details_refused : transport :=
  by_url
    [(GeocodeJson.url_findplace, Ok (status_only "ZERO_RESULTS"));
     (GeocodeJson.url_textsearch, Ok (results "p2"));
     (GeocodeJson.url_details, Ok (status_only "NOT_FOUND"));
     (GeocodeJson.url_geocode,
      Ok (geocoded (at_coords f52_5 f4_75) "Amsterdam, Netherlands"))].

(** Tier 1 finds nothing and the text search times out. *)
Definition net_text_search_timeout : transport :=
  by_url
    [(GeocodeJson.url_findplace, Ok (status_only "ZERO_RESULTS"));
     (GeocodeJson.url_textsearch, Raise (HTTPError "Read timed out."))].

(** Place Details answers OK with a location that has no coordinates. *)
Definition net_no_coords : transport :=
  by_url
    [(GeocodeJson.url_findplace, Ok (candidates "p1"));
     (GeocodeJson.url_details,
      Ok (details (PDict []) "Dam 1, 1012 JS Amsterdam" "Royal Palace"))].

(** Geocoding times out on the first request of a run and answers from
    the second on; the place tiers find nothing. *)
Definition net_geocode_recovers : transport :=
  fun h rq =>
    if String.eqb (fst rq) GeocodeJson.url_geocode
       && negb (existsb (fun p => String.eqb (fst p) GeocodeJson.url_geocode) h)
    then Raise (HTTPError "Read timed out.")
    else net_geocode_only h rq.

(** A fresh run of [geocode_json.py]: no request made, empty cache. *)
Definition start : GeocodeJson.world :=
  {| GeocodeJson.calls := []; GeocodeJson.city_cache := ∅ |}.

End Scenario.

(* ===================================================================== *)
(** ** The batch drivers: the loops of [geocode_venues_excel] and
       [geocode_excel] *)
(* ===================================================================== *)

(** [v or ""] for the [Optional[str]] that [clean_cell] returns *)
Definition or_empty (v : option string) : string :=
  match v with
  | Some s => if PyStr.nonempty s then s else ""
  | None => ""
  end.

(** An [Optional[str]] passed on as an argument. *)
Definition optional (v : option string) : scalar :=
  match v with
  | Some s => SStr s
  | None => SNone
  end.

Module GeocodeJsonDriver.
Import GeocodeJson.

Section Driver.
Context `{PyRuntime}.
Variable net : transport.
Variable api_key : string.

(** Lines 291-298: one turn of the loop of [geocode_venues_excel] on the
    cells of columns A and B.  [None] is the [continue] of an empty row,
    whose output cells keep their [None]; otherwise the result is the one
    whose fields the loop writes to the row. *)
Definition geocode_venues_excel_row (cell_a cell_b : scalar)
  : M world (option result) :=
  let attraction := clean_cell cell_a in
  let city := clean_cell cell_b in
  if negb (present attraction) && negb (present city) then ret None
  else
    result <- resolve_attraction net api_key
                (SStr (or_empty attraction)) (optional city) ;;
    ret (Some result).

(** Lines 290-307: the loop over the rows, in order; an exception raised in
    a turn ends the loop. *)
Fixpoint geocode_venues_excel_loop (rows : list (scalar * scalar))
  : M world (list (option result)) :=
  match rows with
  | [] => ret []
  | (cell_a, cell_b) :: rest =>
      o <- geocode_venues_excel_row cell_a cell_b ;;
      os <- geocode_venues_excel_loop rest ;;
      ret (o :: os)
  end.

End Driver.
End GeocodeJsonDriver.

Module FindDriver.
Import Find.

Section Driver.
Context `{PyRuntime}.
Variable net : transport.
Variable api_key : string.

(** Lines 279-291: one turn of the loop of [geocode_excel].  [None] is the
    [continue] of an empty row, which gets Status ["skipped-empty"] and API
    Source ["none"] without a call of the resolver. *)
Definition geocode_excel_row (cell_name cell_city : scalar)
  : M world (option result) :=
  let name := clean_cell cell_name in
  let city := clean_cell cell_city in
  if negb (present name) && negb (present city) then ret None
  else
    result <- get_venue_location net api_key
                (SStr (or_empty name)) (optional city) ;;
    ret (Some result).

Fixpoint geocode_excel_loop (rows : list (scalar * scalar))
  : M world (list (option result)) :=
  match rows with
  | [] => ret []
  | (cell_name, cell_city) :: rest =>
      o <- geocode_excel_row cell_name cell_city ;;
      os <- geocode_excel_loop rest ;;
      ret (o :: os)
  end.

End Driver.
End FindDriver.

(* ===================================================================== *)
(** ** More vocabulary: request traces *)
(* ===================================================================== *)

(** How many requests of [l] go to the endpoint [url]. *)
Fixpoint url_count (url : string) (l : list request) : nat :=
  match l with
  | [] => 0%nat
  | rq :: rest =>
      ((if String.eqb (fst rq) url then 1 else 0) + url_count url rest)%nat
  end.

(** The requests of one resolver call, tier by tier: [t1] is tier 1 (Find
    Place, then at most one Place Details), [tc] the geocoding of the city
    for the bias, [t2] tier 2 (Text Search, then at most one Place Details)
    and [t3] tier 3 (geocoding of the query), which only follows a text
    search. *)
Definition gj_tiers (key : string) (city : option string) (q : string)
    (t1 tc t2 t3 : list request) : Prop :=
  (t1 = [GeocodeJsonSpec.findplace_request key q]
   \/ exists pid, t1 = [GeocodeJsonSpec.findplace_request key q;
                        GeocodeJsonSpec.details_request key pid])
  /\ (tc = [] \/ exists c, city = Some c
                          /\ tc = [GeocodeJsonSpec.geocode_request key c])
  /\ (t2 = []
      \/ exists ts, fst ts = GeocodeJson.url_textsearch
                    /\ (t2 = [ts]
                        \/ exists pid,
                             t2 = [ts; GeocodeJsonSpec.details_request key pid]))
  /\ (t3 = [] \/ t3 = [GeocodeJsonSpec.geocode_request key q])
  /\ (t2 = [] -> t3 = []).

Definition fd_tiers (key : string) (city : option string) (q : string)
    (t1 tc t2 t3 : list request) : Prop :=
  (t1 = [FindSpec.findplace_request key q]
   \/ exists pid, t1 = [FindSpec.findplace_request key q;
                        FindSpec.details_request key pid])
  /\ (tc = [] \/ exists c, city = Some c
                          /\ tc = [FindSpec.geocode_request key c])
  /\ (t2 = []
      \/ exists ts, fst ts = Find.url_textsearch
                    /\ (t2 = [ts]
                        \/ exists pid,
                             t2 = [ts; FindSpec.details_request key pid]))
  /\ (t3 = [] \/ t3 = [FindSpec.geocode_request key q])
  /\ (t2 = [] -> t3 = []).

(** The status member of a body as the failure branches print it:
    [data.get('status', 'UNKNOWN')]. *)
Definition status_or_unknown (d : list (string * pyval)) : pyval :=
  match Py.lookup "status" d with
  | Some v => v
  | None => PStr "UNKNOWN"
  end.

(** An OK body with a non-empty member [k] ([candidates] or [results]):
    the test [data.get("status") == "OK" and data.get(k)]. *)
Definition ok_with (k : string) (d : list (string * pyval)) : bool :=
  match Py.lookup "status" d with
  | Some v =>
      Py.eq_str v "OK"
      && match Py.lookup k d with
         | Some x => Py.truthy x
         | None => false
         end
  | None => false
  end.

(** The identifier tier 1 takes from a Find Place body:
    [data["candidates"][0]["place_id"]]. *)
Definition first_candidate (data : pyval) : res pyval :=
  match Py.item data "candidates" with
  | Ok cs =>
      match Py.first cs with
      | Ok c0 => Py.item c0 "place_id"
      | Raise e => Raise e
      end
  | Raise e => Raise e
  end.

(** The parameters of the Text Search request of tier 2 in
    [geocode_json.py], for a centroid [pair] when one is known: the bias is
    [location = "<lat>,<lng>"] with [radius = 50000]. *)
Definition textsearch_bias `{PyRuntime} (pair : option (Z * Z))
  : list (string * pyval) :=
  match pair with
  | Some (lat, lng) =>
      [("location", PStr (Py.str (PFloat lat) +:+ "," +:+ Py.str (PFloat lng)));
       ("radius", PInt 50000)]
  | None => []
  end.

Definition textsearch_params `{PyRuntime} (key q : string)
    (pair : option (Z * Z)) : list (string * pyval) :=
  [("query", PStr q); ("key", PStr key)]
  ++ textsearch_bias pair
  ++ [("type", PStr "tourist_attraction")].

(** [d.get(k)] and [d.get(k, "")] on the items of a dict. *)
Definition or_none (o : option pyval) : pyval :=
  match o with Some v => v | None => PNone end.

Definition or_blank (o : option pyval) : pyval :=
  match o with Some v => v | None => PStr "" end.

(** The Text Search request for a query, an optional ["lat,lng"] bias with
    its radius, and an optional category. *)
Definition textsearch_request (key q : string) (location : option string)
    (radius : Z) (place_type : option string) : request :=
  (GeocodeJson.url_textsearch,
   [("query", PStr q); ("key", PStr key)]
   ++ (match location with
       | Some l =>
           if PyStr.nonempty l
           then [("location", PStr l); ("radius", PInt radius)]
           else []
       | None => []
       end)
   ++ (match place_type with
       | Some t => if PyStr.nonempty t then [("type", PStr t)] else []
       | None => []
       end)).

(* ===================================================================== *)
(** ** More scenarios: batches *)
(* ===================================================================== *)

(** Lines 221-222 of [find.py]: the bias of tier 2 for the result [c] of
    geocoding the city, the two coordinates printed as they came. *)
Definition fd_bias `{PyRuntime} (c : Find.result) : option string :=
  if String.eqb (Find.status c) "success"
     && negb (Py.is_none (Find.latitude c))
     && negb (Py.is_none (Find.longitude c))
  then Some (Py.str (Find.latitude c) +:+ "," +:+ Py.str (Find.longitude c))
  else None.

Module MoreScenarios.
Import Scenario.

(** Tier 1 finds a candidate whose details are refused. *)
Definition net_tier1_details_refused : transport :=
  by_url
    [(GeocodeJson.url_findplace, Ok (candidates "p1"));
     (GeocodeJson.url_details, Ok (status_only "NOT_FOUND"))].

(** Two venues of one city. *)
Definition rows_one_city : list (scalar * scalar) :=
  [(SStr "Royal Palace", SStr "Amsterdam");
   (SStr "Dam Square", SStr "Amsterdam")].

(** A venue and a blank row. *)
Definition rows_with_blank : list (scalar * scalar) :=
  [(SStr "Royal Palace", SStr "Amsterdam"); (SStr " ", SNone)].

(** A run of [geocode_json.py] whose cache already holds Amsterdam. *)
Definition start_cached : GeocodeJson.world :=
  {| GeocodeJson.calls := [];
     GeocodeJson.city_cache := {["Amsterdam" := (f52_5, f4_75)]} |}.

End MoreScenarios.

(* ===================================================================== *)
(** ** Proof support *)
(* ===================================================================== *)

Ltac unfold_m := unfold bind, lift, ret, raise, try_except in *.
Ltac split_match :=
  match goal with
  | |- context [match ?x with _ => _ end] =>
      lazymatch x with
      | context [match _ with _ => _ end] => fail
      | _ => destruct x eqn:?
      end
  end.
Ltac run := repeat (simpl in *; split_match).

(* ===================================================================== *)
(** ** Facts about [geocode_json.py] *)
(* ===================================================================== *)

Section GJFacts.
Import GeocodeJson GeocodeJsonSpec.
Context `{PyRuntime} (net : transport) (key : string).

Lemma gj_place_details_run pid s :
  exists o, place_details net key pid s = (o, log s [details_request key pid])
    /\ forall d, o = Ok (Some d) ->
         status d = "success" /\ source d = "places_details" /\ place_id d = pid.
Proof.
  unfold place_details, http_get_json. unfold_m.
  run; eexists; (split; [reflexivity|]); intros d Hd; inversion Hd; subst; simpl; auto.
Qed.

Lemma gj_geocode_fallback_run q s :
  exists r, geocode_fallback net key q s = (Ok r, log s [geocode_request key q])
    /\ source r = "geocoding_api"
    /\ (status r <> "success" -> latitude r = PNone /\ longitude r = PNone).
Proof.
  unfold geocode_fallback, http_get_json. unfold_m.
  run; eexists; (split; [reflexivity|]); simpl; split; auto; intros; try congruence; auto.
Qed.

Lemma gj_place_details_numeric pid s d s' :
  numeric_transport net ->
  place_details net key pid s = (Ok (Some d), s') ->
  numeric (latitude d) = true /\ numeric (longitude d) = true.
Proof.
  intros Hn. unfold place_details, http_get_json. unfold_m.
  destruct (net (calls s) _) as [data|e] eqn:Hnet; simpl; [|discriminate].
  apply Hn in Hnet as [Hd _]. specialize (Hd eq_refl).
  unfold details_numeric, location_numeric in Hd.
  run; intros Heq; inversion Heq; subst; simpl;
    try discriminate; apply andb_prop in Hd; exact Hd.
Qed.

Lemma gj_geocode_fallback_numeric q s r s' :
  numeric_transport net ->
  geocode_fallback net key q s = (Ok r, s') ->
  status r = "success" ->
  numeric (latitude r) = true /\ numeric (longitude r) = true.
Proof.
  intros Hn. unfold geocode_fallback, http_get_json. unfold_m.
  destruct (net (calls s) _) as [data|e] eqn:Hnet; simpl; [|intros Heq; inversion Heq; subst; discriminate].
  apply Hn in Hnet as [_ Hd]. specialize (Hd eq_refl).
  unfold geocode_numeric, location_numeric in Hd.
  run; intros Heq; inversion Heq; subst; simpl;
    try discriminate; intros _; apply andb_prop in Hd; exact Hd.
Qed.

Lemma not_found_ne_success x : "not_found_in_places:" +:+ x <> "success".
Proof. cbv. discriminate. Qed.
Lemma exception_ne_success x : "Exception: " +:+ x <> "success".
Proof. cbv. discriminate. Qed.

Ltac use_details :=
  match goal with
  | |- context [place_details net key ?p ?s] =>
      let o := fresh "o" in
      let Hd := fresh "Hd" in
      let E := fresh "E" in
      destruct (gj_place_details_run p s) as (o & E & Hd); rewrite E; clear E
  end.

Lemma gj_findplace_run q s :
  exists r l, findplace_then_details net key q s = (Ok r, log s l)
    /\ source r = "places_findplace"
    /\ (status r <> "success" ->
        latitude r = PNone /\ longitude r = PNone)
    /\ (l = [findplace_request key q]
        \/ exists pid, l = [findplace_request key q; details_request key pid])
    /\ (status r = "success" ->
        exists pid, l = [findplace_request key q; details_request key pid]).
Proof.
  unfold findplace_then_details, http_get_json. unfold_m.
  repeat (simpl in *; first [use_details | split_match]).
  all: (do 2 eexists; split;
    [ first [ reflexivity
            | unfold log; simpl; rewrite <- app_assoc; reflexivity ] | ]).
  all: simpl; repeat split; eauto; intros; try congruence;
    try (exfalso; eapply not_found_ne_success; eassumption);
    try (exfalso; eapply exception_ne_success; eassumption).
  all: match goal with
       | Hb : String.eqb _ _ = true |- _ =>
           apply String.eqb_eq in Hb; congruence
       end.
Qed.

Lemma gj_findplace_numeric q s r s' :
  numeric_transport net ->
  findplace_then_details net key q s = (Ok r, s') ->
  status r = "success" ->
  numeric (latitude r) = true /\ numeric (longitude r) = true.
Proof.
  intros Hn. unfold findplace_then_details, http_get_json. unfold_m.
  run; intros Heq; inversion Heq; subst; simpl; intros Hs;
    try (exfalso; eapply not_found_ne_success; eassumption);
    try (exfalso; eapply exception_ne_success; eassumption).
  all: eapply gj_place_details_numeric; eassumption.
Qed.

Lemma gj_text_search_run q loc radius ty s :
  exists o rq,
    places_text_search_place_id net key q loc radius ty s = (o, log s [rq])
    /\ fst rq = url_textsearch.
Proof.
  unfold places_text_search_place_id, http_get_json. unfold_m.
  run; do 2 eexists; (split; [reflexivity|]); reflexivity.
Qed.

Lemma gj_city_hit c p s :
  city_cache s !! c = Some p ->
  get_city_latlng net key c s = (Ok (Some p), s).
Proof. intros Hc. unfold get_city_latlng. rewrite Hc. reflexivity. Qed.

Lemma gj_city_miss c s :
  city_cache s !! c = None ->
  exists o s',
    get_city_latlng net key c s = (o, s')
    /\ calls s' = calls s ++ [geocode_request key c]
    /\ match o with
       | Ok (Some p) => city_cache s' = <[c := p]> (city_cache s)
       | _ => city_cache s' = city_cache s
       end.
Proof.
  intros Hc. unfold get_city_latlng. rewrite Hc. unfold_m.
  destruct (gj_geocode_fallback_run c s) as (r' & E' & _). rewrite E'.
  unfold cache_store.
  run; do 2 eexists; (split; [reflexivity|]); simpl; auto.
Qed.

Lemma gj_city_location_run city s :
  exists o s' l,
    city_location net key city s = (o, s')
    /\ calls s' = calls s ++ l
    /\ ((l = [] /\ s' = s)
        \/ (exists c, city = Some c /\ l = [geocode_request key c]
              /\ city_cache s !! c = None
              /\ (city_cache s' = city_cache s
                  \/ exists p, city_cache s' = <[c := p]> (city_cache s)))).
Proof.
  unfold city_location.
  destruct city as [c|]; [destruct (PyStr.nonempty c)|].
  2,3: exists (Ok None), s, []; rewrite app_nil_r; auto.
  unfold bind.
  destruct (city_cache s !! c) as [p|] eqn:Hc.
  - rewrite (gj_city_hit _ _ _ Hc). destruct p as [lat lng]. unfold ret.
    do 2 eexists; exists []; rewrite app_nil_r; auto.
  - destruct (gj_city_miss _ _ Hc) as (o & s' & E & Hl & Hcache). rewrite E.
    destruct o as [[[lat lng]|]|e]; unfold ret;
      do 3 eexists; (split; [reflexivity|]); (split; [exact Hl|]);
      right; exists c; repeat split; eauto.
Qed.

Lemma geocode_count_app c l1 l2 :
  geocode_count c (l1 ++ l2) = (geocode_count c l1 + geocode_count c l2)%nat.
Proof. induction l1 as [|rq l1 IH]; simpl; [reflexivity|]. rewrite IH. lia. Qed.

Lemma geocode_count_request c q :
  geocode_count c [geocode_request key q] = tier3_on q c.
Proof.
  unfold tier3_on. simpl. unfold geocodes. simpl.
  destruct (String.eqb q c); reflexivity.
Qed.




End GJFacts.


(* ===================================================================== *)
(** ** Facts about [find.py] *)
(* ===================================================================== *)

Section FDFacts.
Import Find FindSpec.
Context `{PyRuntime} (net : transport) (key : string).

Lemma fd_place_details_run pid s :
  exists o, place_details net key pid s = (o, s ++ [details_request key pid])
    /\ forall d, o = Ok (Some d) ->
         status d = "success" /\ source d = "places_details".
Proof.
  unfold place_details, http_get_json. unfold_m.
  run; eexists; (split; [reflexivity|]); intros d Hd; inversion Hd; subst; simpl; auto.
Qed.

Lemma fd_geocode_venue_run q s :
  exists r, geocode_venue net key q s = (Ok r, s ++ [geocode_request key q])
    /\ source r = "geocoding_api"
    /\ (status r <> "success" -> latitude r = PNone /\ longitude r = PNone).
Proof.
  unfold geocode_venue, http_get_json. unfold_m.
  run; eexists; (split; [reflexivity|]); simpl; split; auto; intros; try congruence; auto.
Qed.

Lemma fd_place_details_numeric pid s d s' :
  numeric_transport net ->
  place_details net key pid s = (Ok (Some d), s') ->
  numeric (latitude d) = true /\ numeric (longitude d) = true.
Proof.
  intros Hn. unfold place_details, http_get_json. unfold_m.
  destruct (net s _) as [data|e] eqn:Hnet; simpl; [|discriminate].
  apply Hn in Hnet as [Hd _]. specialize (Hd eq_refl).
  unfold details_numeric, location_numeric in Hd.
  run; intros Heq; inversion Heq; subst; simpl;
    try discriminate; apply andb_prop in Hd; exact Hd.
Qed.

Lemma fd_geocode_venue_numeric q s r s' :
  numeric_transport net ->
  geocode_venue net key q s = (Ok r, s') ->
  status r = "success" ->
  numeric (latitude r) = true /\ numeric (longitude r) = true.
Proof.
  intros Hn. unfold geocode_venue, http_get_json. unfold_m.
  destruct (net s _) as [data|e] eqn:Hnet; simpl;
    [|intros Heq; inversion Heq; subst; discriminate].
  apply Hn in Hnet as [_ Hd]. specialize (Hd eq_refl).
  unfold geocode_numeric, location_numeric in Hd.
  run; intros Heq; inversion Heq; subst; simpl;
    try discriminate; intros _; apply andb_prop in Hd; exact Hd.
Qed.

Ltac use_details :=
  match goal with
  | |- context [place_details net key ?p ?s] =>
      let o := fresh "o" in
      let Hd := fresh "Hd" in
      let E := fresh "E" in
      destruct (fd_place_details_run p s) as (o & E & Hd); rewrite E; clear E
  end.

Lemma fd_findplace_run q s :
  exists r l, find_venue_with_places_findplace net key q s = (Ok r, s ++ l)
    /\ source r = "places_findplace"
    /\ (status r <> "success" ->
        latitude r = PNone /\ longitude r = PNone)
    /\ (l = [findplace_request key q]
        \/ exists pid, l = [findplace_request key q; details_request key pid])
    /\ (status r = "success" ->
        exists pid, l = [findplace_request key q; details_request key pid]).
Proof.
  unfold find_venue_with_places_findplace, http_get_json. unfold_m.
  repeat (simpl in *; first [use_details | split_match]).
  all: (do 2 eexists; split;
    [ first [ reflexivity | rewrite <- app_assoc; reflexivity ] | ]).
  all: simpl; repeat split; eauto; intros; try congruence;
    try (exfalso; eapply not_found_ne_success; eassumption);
    try (exfalso; eapply exception_ne_success; eassumption).
  all: match goal with
       | Hb : String.eqb _ _ = true |- _ =>
           apply String.eqb_eq in Hb; congruence
       end.
Qed.

Lemma fd_findplace_numeric q s r s' :
  numeric_transport net ->
  find_venue_with_places_findplace net key q s = (Ok r, s') ->
  status r = "success" ->
  numeric (latitude r) = true /\ numeric (longitude r) = true.
Proof.
  intros Hn. unfold find_venue_with_places_findplace, http_get_json. unfold_m.
  run; intros Heq; inversion Heq; subst; simpl; intros Hs;
    try (exfalso; eapply not_found_ne_success; eassumption);
    try (exfalso; eapply exception_ne_success; eassumption).
  all: eapply fd_place_details_numeric; eassumption.
Qed.

Lemma fd_text_search_run q loc radius ty s :
  exists o rq,
    places_text_search_place_id net key q loc radius ty s = (o, s ++ [rq])
    /\ fst rq = url_textsearch.
Proof.
  unfold places_text_search_place_id, http_get_json. unfold_m.
  run; do 2 eexists; (split; [reflexivity|]); reflexivity.
Qed.
End FDFacts.

(* ===================================================================== *)
(** ** Texts and their characters *)
(* ===================================================================== *)

Lemma append_cons a s t : String a s +:+ t = String a (s +:+ t).
Proof. reflexivity. Qed.

Lemma append_nil_r (s : string) : s +:+ "" = s.
Proof.
  induction s as [|a s IH]; [reflexivity|]. rewrite append_cons, IH. reflexivity.
Qed.

Lemma append_assoc (a b c : string) : (a +:+ b) +:+ c = a +:+ (b +:+ c).
Proof.
  induction a as [|x a IH]; [reflexivity|]. rewrite !append_cons, IH. reflexivity.
Qed.

Lemma flat_app l1 l2 : PyStr.flat (l1 ++ l2) = PyStr.flat l1 +:+ PyStr.flat l2.
Proof.
  induction l1 as [|p l1 IH]; simpl; [reflexivity|].
  rewrite IH, append_assoc. reflexivity.
Qed.

Lemma flat_chars s : PyStr.flat (PyStr.chars s) = s.
Proof.
  induction s as [|c t IH]; simpl; [reflexivity|].
  destruct (PyStr.starts_inside t).
  - destruct (PyStr.chars t) as [|ch rest]; simpl in *; rewrite <- IH; reflexivity.
  - simpl. rewrite IH. reflexivity.
Qed.

Lemma chars_nil s : PyStr.chars s = [] -> s = "".
Proof. intros Hs. rewrite <- (flat_chars s), Hs. reflexivity. Qed.

Lemma chars_head_inside s :
  PyStr.starts_inside s = true ->
  exists ch rest, PyStr.chars s = ch :: rest /\ all_inside ch = true.
Proof.
  induction s as [|c t IH]; simpl; [discriminate|]. intros Hc.
  destruct (PyStr.starts_inside t) eqn:Ht.
  - destruct (IH eq_refl) as (ch & rest & -> & Hch).
    do 2 eexists; split; [reflexivity|]. simpl. rewrite Hc, Hch. reflexivity.
  - do 2 eexists; split; [reflexivity|]. simpl. rewrite Hc. reflexivity.
Qed.

Lemma chars_separable s : separable (PyStr.chars s).
Proof.
  induction s as [|c t [IH1 IH2]]; [split; constructor|]. simpl.
  destruct (PyStr.starts_inside t) eqn:Ht.
  - destruct (chars_head_inside t Ht) as (ch & rest & E & Hch). rewrite E in *.
    split; [|exact IH2]. inversion IH1; subst. constructor; [exact Hch|assumption].
  - split; [constructor; [reflexivity|exact IH1]|]. simpl.
    destruct (PyStr.chars t) as [|ch rest] eqn:E; [constructor|].
    constructor; [|exact IH2].
    destruct t as [|c' t']; [discriminate E|]. simpl in E, Ht.
    destruct (PyStr.starts_inside t');
      [destruct (PyStr.chars t')|]; inversion E; subst; exact Ht.
Qed.

Lemma chars_all_inside t c :
  all_inside t = true -> PyStr.chars (String c t) = [String c t].
Proof.
  revert c. induction t as [|c' t IH]; intros c; [reflexivity|].
  simpl all_inside. intros Ht. apply andb_prop in Ht as [Hc' Ht].
  change (PyStr.chars (String c (String c' t)))
    with (if PyStr.inside (PyStr.byte c')
          then match PyStr.chars (String c' t) with
               | ch :: rest => String c ch :: rest
               | [] => [String c ""]
               end
          else String c "" :: PyStr.chars (String c' t)).
  rewrite Hc', (IH c' Ht). reflexivity.
Qed.

Lemma chars_one ch : one_char ch -> PyStr.chars ch = [ch].
Proof. destruct ch as [|c t]; [intros []|apply chars_all_inside]. Qed.

Lemma starts_inside_app a b :
  PyStr.starts_inside (a +:+ b)
  = match a with
    | EmptyString => PyStr.starts_inside b
    | _ => PyStr.starts_inside a
    end.
Proof. destruct a; reflexivity. Qed.

Lemma chars_app a b :
  PyStr.starts_inside b = false ->
  PyStr.chars (a +:+ b) = PyStr.chars a ++ PyStr.chars b.
Proof.
  intros Hb. induction a as [|c t IH]; [reflexivity|].
  simpl. rewrite starts_inside_app, IH.
  destruct t as [|c' t']; [rewrite Hb; reflexivity|].
  destruct (PyStr.starts_inside (String c' t')) eqn:Ht; [|reflexivity].
  destruct (chars_head_inside _ Ht) as (ch & rest & -> & _). reflexivity.
Qed.

Lemma flat_starts l :
  Forall one_char l ->
  PyStr.starts_inside (PyStr.flat l)
  = match l with
    | [] => false
    | ch :: _ => PyStr.starts_inside ch
    end.
Proof.
  destruct l as [|ch rest]; [reflexivity|]. intros Hl. inversion Hl; subst.
  simpl. rewrite starts_inside_app. destruct ch; [contradiction|reflexivity].
Qed.

Lemma separable_tail ch rest : separable (ch :: rest) -> separable rest.
Proof.
  intros [H1 H2]. inversion H1; subst. split; [assumption|].
  simpl in H2. destruct rest; [constructor|]. inversion H2; assumption.
Qed.

Lemma chars_flat l : separable l -> PyStr.chars (PyStr.flat l) = l.
Proof.
  induction l as [|ch rest IH]; [reflexivity|]. intros Hsep.
  pose proof (separable_tail _ _ Hsep) as Hrest.
  destruct Hsep as [H1 H2]. inversion H1 as [|? ? Hch _]; subst.
  simpl. rewrite chars_app.
  - rewrite (chars_one ch Hch), (IH Hrest). reflexivity.
  - rewrite (flat_starts rest (proj1 Hrest)). simpl in H2.
    destruct rest; [reflexivity|]. inversion H2; assumption.
Qed.

Lemma separable_app l1 l2 : separable (l1 ++ l2) -> separable l1 /\ separable l2.
Proof.
  induction l1 as [|ch l1 IH]; intros Hsep.
  - split; [split; constructor|exact Hsep].
  - pose proof (separable_tail _ _ Hsep) as Hrest.
    destruct (IH Hrest) as [Hl1 Hl2]. split; [|exact Hl2].
    destruct Hsep as [H1 H2]. inversion H1; subst.
    split; [constructor; [assumption|exact (proj1 Hl1)]|].
    simpl in H2 |- *. apply Forall_app in H2 as [H2 _]. exact H2.
Qed.

(** Joining a run of the characters of a text and cutting the result
    again gives that run. *)
Lemma chars_run s l1 l l2 :
  PyStr.chars s = l1 ++ l ++ l2 -> PyStr.chars (PyStr.flat l) = l.
Proof.
  intros Hs. apply chars_flat.
  pose proof (chars_separable s) as Hsep. rewrite Hs in Hsep.
  apply separable_app in Hsep as [_ Hsep].
  apply separable_app in Hsep as [Hsep _]. exact Hsep.
Qed.

(** *** White space at the ends *)

Lemma lskip_split l : exists p, l = p ++ PyStr.lskip l /\ Forall blank p.
Proof.
  induction l as [|ch l (p & Hl & Hp)]; [exists []; split; [reflexivity|constructor]|].
  simpl. destruct (PyStr.isspace (PyStr.code ch)) eqn:Hch.
  - exists (ch :: p). split; [simpl; rewrite <- Hl; reflexivity|].
    constructor; assumption.
  - exists []. split; [reflexivity|constructor].
Qed.

Lemma lskip_head l ch rest :
  PyStr.lskip l = ch :: rest -> PyStr.isspace (PyStr.code ch) = false.
Proof.
  induction l as [|x l IH]; simpl; [discriminate|].
  destruct (PyStr.isspace (PyStr.code x)) eqn:Hx; [exact IH|].
  intros Heq; inversion Heq; subst. exact Hx.
Qed.

Lemma lskip_fixed l :
  (forall ch, head l = Some ch -> PyStr.isspace (PyStr.code ch) = false) ->
  PyStr.lskip l = l.
Proof.
  destruct l as [|ch l]; [reflexivity|]. intros Hh. simpl.
  rewrite (Hh ch eq_refl). reflexivity.
Qed.

Lemma lskip_blank l : Forall blank l -> PyStr.lskip l = [].
Proof.
  induction 1 as [|ch l Hch _ IH]; [reflexivity|]. simpl.
  unfold blank in Hch. rewrite Hch. exact IH.
Qed.

Lemma lskip_nil l : PyStr.lskip l = [] -> Forall blank l.
Proof.
  intros Hl. destruct (lskip_split l) as (p & Hp & Hb).
  rewrite Hl, app_nil_r in Hp. subst. exact Hb.
Qed.

Lemma lskip_app_blank p l : Forall blank p -> PyStr.lskip (p ++ l) = PyStr.lskip l.
Proof.
  induction 1 as [|ch p Hch _ IH]; [reflexivity|]. simpl.
  unfold blank in Hch. rewrite Hch. exact IH.
Qed.

Lemma lskip_app_keep l m ch rest :
  PyStr.lskip l = ch :: rest -> PyStr.lskip (l ++ m) = (ch :: rest) ++ m.
Proof.
  induction l as [|x l IH]; simpl; [discriminate|].
  destruct (PyStr.isspace (PyStr.code x)); [exact IH|].
  intros Heq; inversion Heq; subst. reflexivity.
Qed.

Lemma trim_split l :
  exists p q, l = p ++ trim l ++ q /\ Forall blank p /\ Forall blank q.
Proof.
  unfold trim. destruct (lskip_split l) as (p & Hl & Hp).
  destruct (lskip_split (rev (PyStr.lskip l))) as (q & Hr & Hq).
  exists p, (rev q). split; [|split; [exact Hp|apply Forall_rev; exact Hq]].
  rewrite <- rev_app_distr, <- Hr, rev_involutive. exact Hl.
Qed.

Lemma trim_last l ch :
  last (trim l) = Some ch -> PyStr.isspace (PyStr.code ch) = false.
Proof.
  unfold trim. destruct (PyStr.lskip (rev (PyStr.lskip l))) as [|x m] eqn:E;
    [discriminate|].
  simpl. rewrite last_snoc. intros Heq; inversion Heq; subst.
  exact (lskip_head _ _ _ E).
Qed.

Lemma trim_head l ch :
  head (trim l) = Some ch -> PyStr.isspace (PyStr.code ch) = false.
Proof.
  intros Hh. destruct (trim l) as [|x m] eqn:E; [discriminate|].
  inversion Hh; subst x.
  unfold trim in E.
  destruct (lskip_split (rev (PyStr.lskip l))) as (q & Hr & _).
  apply (f_equal (@rev string)) in Hr.
  rewrite rev_involutive, rev_app_distr, E in Hr.
  apply (lskip_head l ch (m ++ rev q)). exact Hr.
Qed.

Lemma trim_fixed l :
  (forall ch, head l = Some ch -> PyStr.isspace (PyStr.code ch) = false) ->
  (forall ch, last l = Some ch -> PyStr.isspace (PyStr.code ch) = false) ->
  trim l = l.
Proof.
  intros Hh Hl. unfold trim. rewrite (lskip_fixed l Hh).
  rewrite lskip_fixed; [apply rev_involutive|].
  intros ch Hch. apply Hl. rewrite <- (rev_involutive l).
  destruct (rev l) as [|x m]; [discriminate|]. inversion Hch; subst.
  simpl. apply last_snoc.
Qed.

Lemma trim_idempotent l : trim (trim l) = trim l.
Proof. apply trim_fixed; [apply trim_head|apply trim_last]. Qed.

Lemma trim_nil l : trim l = [] <-> Forall blank l.
Proof.
  unfold trim. split.
  - intros Ht. apply (f_equal (@rev string)) in Ht.
    rewrite rev_involutive in Ht. simpl in Ht.
    apply lskip_nil in Ht. apply Forall_rev in Ht.
    rewrite rev_involutive in Ht.
    destruct (lskip_split l) as (p & Hl & Hp). rewrite Hl.
    apply Forall_app. split; assumption.
  - intros Hl. rewrite (lskip_blank l Hl). reflexivity.
Qed.

(** Blank on both sides of a run that has none at its ends. *)
Lemma trim_between p m q :
  Forall blank p -> Forall blank q ->
  (forall ch, head m = Some ch -> PyStr.isspace (PyStr.code ch) = false) ->
  (forall ch, last m = Some ch -> PyStr.isspace (PyStr.code ch) = false) ->
  trim (p ++ m ++ q) = m.
Proof.
  intros Hp Hq Hh Hl. unfold trim. rewrite (lskip_app_blank p _ Hp).
  destruct m as [|x m].
  - simpl. rewrite (lskip_blank q Hq). reflexivity.
  - simpl. rewrite (Hh x eq_refl).
    change (x :: m ++ q) with ((x :: m) ++ q).
    rewrite rev_app_distr, (lskip_app_blank (rev q)) by (apply Forall_rev; exact Hq).
    rewrite lskip_fixed; [apply rev_involutive|].
    intros ch Hch. apply Hl. rewrite <- (rev_involutive (x :: m)).
    destruct (rev (x :: m)) as [|y r]; [discriminate|]. inversion Hch; subst.
    simpl. apply last_snoc.
Qed.

Lemma chars_lstrip s : PyStr.chars (PyStr.lstrip s) = PyStr.lskip (PyStr.chars s).
Proof.
  unfold PyStr.lstrip. destruct (lskip_split (PyStr.chars s)) as (p & Hl & _).
  apply (chars_run s p _ []). rewrite app_nil_r. exact Hl.
Qed.

Lemma chars_strip s : PyStr.chars (PyStr.strip s) = trim (PyStr.chars s).
Proof.
  unfold PyStr.strip, PyStr.rstrip. rewrite chars_lstrip. fold (trim (PyStr.chars s)).
  destruct (trim_split (PyStr.chars s)) as (p & q & Hl & _).
  exact (chars_run s p _ q Hl).
Qed.

Lemma strip_flat s : PyStr.strip s = PyStr.flat (trim (PyStr.chars s)).
Proof. unfold PyStr.strip, PyStr.rstrip. rewrite chars_lstrip. reflexivity. Qed.

Lemma strip_idempotent s : PyStr.strip (PyStr.strip s) = PyStr.strip s.
Proof.
  rewrite (strip_flat (PyStr.strip s)), chars_strip, trim_idempotent.
  symmetry. apply strip_flat.
Qed.

Lemma flat_nil l : Forall one_char l -> PyStr.flat l = "" -> l = [].
Proof.
  destruct l as [|ch l]; [reflexivity|]. intros Hl. inversion Hl; subst.
  destruct ch; [contradiction|discriminate].
Qed.

Lemma strip_empty s : PyStr.strip s = "" <-> Forall blank (PyStr.chars s).
Proof.
  rewrite <- trim_nil. split.
  - intros Hs. rewrite <- chars_strip, Hs. reflexivity.
  - intros Ht. rewrite strip_flat, Ht. reflexivity.
Qed.

(** A text is left as it is by [strip] exactly when it neither begins nor
    ends with white space. *)
Lemma strip_fixed s :
  (forall c, head (PyStr.codes s) = Some c -> PyStr.isspace c = false) ->
  (forall c, last (PyStr.codes s) = Some c -> PyStr.isspace c = false) ->
  PyStr.strip s = s.
Proof.
  intros Hh Hl. rewrite strip_flat, trim_fixed; [apply flat_chars| |].
  - intros ch Hch. apply Hh. unfold PyStr.codes.
    destruct (PyStr.chars s); inversion Hch; subst. reflexivity.
  - intros ch Hch. apply Hl. unfold PyStr.codes.
    change (map PyStr.code) with (fmap (M:=list) PyStr.code).
    rewrite fmap_last, Hch. reflexivity.
Qed.

Lemma strip_first s c :
  head (PyStr.codes (PyStr.strip s)) = Some c -> PyStr.isspace c = false.
Proof.
  unfold PyStr.codes. rewrite chars_strip.
  destruct (trim (PyStr.chars s)) as [|ch m] eqn:E; [discriminate|].
  intros Heq; inversion Heq; subst. apply (trim_head (PyStr.chars s)).
  rewrite E. reflexivity.
Qed.

Lemma strip_last s c :
  last (PyStr.codes (PyStr.strip s)) = Some c -> PyStr.isspace c = false.
Proof.
  unfold PyStr.codes. rewrite chars_strip.
  change (map PyStr.code) with (fmap (M:=list) PyStr.code).
  rewrite fmap_last.
  destruct (last (trim (PyStr.chars s))) as [ch|] eqn:E; [|discriminate].
  intros Heq; inversion Heq; subst. exact (trim_last _ _ E).
Qed.

(** *** Bytes and code points *)

Lemma byte_range c : 0 <= PyStr.byte c < 256.
Proof.
  unfold PyStr.byte. pose proof (N_ascii_bounded c). lia.
Qed.

Lemma byte_of_byte b : 0 <= b < 256 -> PyStr.byte (PyStr.of_byte b) = b.
Proof.
  intros Hb. unfold PyStr.byte, PyStr.of_byte.
  rewrite N_ascii_embedding by lia. lia.
Qed.

Lemma of_byte_byte c : PyStr.of_byte (PyStr.byte c) = c.
Proof.
  unfold PyStr.byte, PyStr.of_byte. rewrite N2Z.id. apply ascii_N_embedding.
Qed.

Ltac bools :=
  repeat match goal with
         | H : _ && _ = true |- _ => apply andb_prop in H as [? ?]
         | H : _ || _ = false |- _ => apply orb_false_elim in H as [? ?]
         | H : (_ <=? _) = true |- _ => apply Z.leb_le in H
         | H : (_ <=? _) = false |- _ => apply Z.leb_gt in H
         | H : (_ <? _) = true |- _ => apply Z.ltb_lt in H
         | H : (_ <? _) = false |- _ => apply Z.ltb_ge in H
         | H : (_ =? _) = true |- _ => apply Z.eqb_eq in H
         | H : (_ =? _) = false |- _ => apply Z.eqb_neq in H
         end.

Ltac split_if :=
  match goal with
  | |- context [if ?b then _ else _] => destruct b eqn:?
  | H : context [if ?b then _ else _] |- _ => destruct b eqn:?
  end.

(** Bytes that begin with a continuation byte encode no character. *)
Lemma code_inside ch : PyStr.starts_inside ch = true -> PyStr.code ch = -1.
Proof.
  destruct ch as [|c0 [|c1 [|c2 [|c3 [|c4 t]]]]]; simpl; try discriminate;
    unfold PyStr.inside, PyStr.code; simpl; intros Hc;
    repeat split_if; try reflexivity; bools; lia.
Qed.

Lemma isspace_started ch :
  PyStr.isspace (PyStr.code ch) = true -> PyStr.starts_inside ch = false.
Proof.
  destruct (PyStr.starts_inside ch) eqn:Hs; [|reflexivity].
  rewrite (code_inside ch Hs). discriminate.
Qed.

(** A character whose code point is ASCII is that one byte. *)
Lemma code_ascii ch cp :
  PyStr.code ch = cp -> 0 <= cp < 128 ->
  ch = String (PyStr.of_byte cp) EmptyString.
Proof.
  destruct ch as [|c0 [|c1 [|c2 [|c3 [|c4 t]]]]];
    unfold PyStr.code; simpl; intros Hc Hcp; try lia.
  - split_if; [|lia]. subst cp. rewrite of_byte_byte. reflexivity.
  - exfalso. unfold PyStr.inside in Hc. split_if; [|lia]. bools. lia.
  - exfalso. unfold PyStr.inside in Hc. split_if; [|lia]. bools. lia.
  - exfalso. unfold PyStr.inside in Hc. split_if; [|lia]. bools. lia.
Qed.

Lemma code_of_byte b :
  0 <= b < 128 -> PyStr.code (String (PyStr.of_byte b) EmptyString) = b.
Proof.
  intros Hb. unfold PyStr.code. simpl. rewrite byte_of_byte by lia.
  destruct (Z.ltb_spec b 128); [reflexivity|lia].
Qed.

(** [ord(chr(cp)) == cp]: the encoding of a code point is one character,
    and it is read back. *)
Lemma encode_char_spec cp :
  0 <= cp <= 1114111 ->
  PyStr.code (PyStr.encode_char cp) = cp
  /\ one_char (PyStr.encode_char cp)
  /\ PyStr.starts_inside (PyStr.encode_char cp) = false.
Proof.
  intros Hcp. unfold PyStr.encode_char.
  destruct (Z.ltb_spec cp 128) as [H1|H1].
  { split; [apply code_of_byte; lia|]. split; [reflexivity|].
    simpl. rewrite byte_of_byte by lia. unfold PyStr.inside.
    destruct (Z.leb_spec 128 cp); [lia|reflexivity]. }
  pose proof (Z.div_mod cp 64 ltac:(lia)) as D0.
  pose proof (Z.mod_pos_bound cp 64 ltac:(lia)) as M0.
  destruct (Z.ltb_spec cp 2048) as [H2|H2].
  { assert (Hq : 2 <= cp / 64 < 32) by lia.
    unfold PyStr.code, one_char, PyStr.inside. simpl.
    rewrite !byte_of_byte by lia. unfold PyStr.inside.
    repeat split.
    - destruct (Z.leb_spec 194 (192 + cp / 64)); [|lia].
      destruct (Z.leb_spec (192 + cp / 64) 223); [|lia].
      destruct (Z.leb_spec 128 (128 + cp mod 64)); [|lia].
      destruct (Z.leb_spec (128 + cp mod 64) 191); [|lia]. simpl. lia.
    - destruct (Z.leb_spec 128 (128 + cp mod 64)); [|lia].
      destruct (Z.leb_spec (128 + cp mod 64) 191); [|lia]. reflexivity.
    - destruct (Z.leb_spec (192 + cp / 64) 191); [lia|].
      apply andb_false_r. }
  pose proof (Z.div_mod (cp / 64) 64 ltac:(lia)) as D1.
  pose proof (Z.mod_pos_bound (cp / 64) 64 ltac:(lia)) as M1.
  assert (E1 : cp / 64 / 64 = cp / 4096) by (rewrite Z.div_div by lia; reflexivity).
  destruct (Z.ltb_spec cp 65536) as [H3|H3].
  { assert (Hq : 0 <= cp / 4096 < 16) by lia.
    unfold PyStr.code, one_char, PyStr.inside. simpl.
    rewrite !byte_of_byte by lia. unfold PyStr.inside.
    repeat split.
    - destruct (Z.leb_spec 224 (224 + cp / 4096)); [|lia].
      destruct (Z.leb_spec (224 + cp / 4096) 239); [|lia].
      destruct (Z.leb_spec 128 (128 + (cp / 64) mod 64)); [|lia].
      destruct (Z.leb_spec (128 + (cp / 64) mod 64) 191); [|lia].
      destruct (Z.leb_spec 128 (128 + cp mod 64)); [|lia].
      destruct (Z.leb_spec (128 + cp mod 64) 191); [|lia]. simpl.
      destruct (Z.leb_spec 2048
                  ((224 + cp / 4096 - 224) * 4096
                   + (128 + (cp / 64) mod 64 - 128) * 64
                   + (128 + cp mod 64 - 128))); lia.
    - destruct (Z.leb_spec 128 (128 + (cp / 64) mod 64)); [|lia].
      destruct (Z.leb_spec (128 + (cp / 64) mod 64) 191); [|lia].
      destruct (Z.leb_spec 128 (128 + cp mod 64)); [|lia].
      destruct (Z.leb_spec (128 + cp mod 64) 191); [|lia]. reflexivity.
    - destruct (Z.leb_spec (224 + cp / 4096) 191); [lia|].
      apply andb_false_r. }
  pose proof (Z.div_mod (cp / 4096) 64 ltac:(lia)) as D2.
  pose proof (Z.mod_pos_bound (cp / 4096) 64 ltac:(lia)) as M2.
  assert (E2 : cp / 4096 / 64 = cp / 262144) by (rewrite Z.div_div by lia; reflexivity).
  assert (Hq : 0 <= cp / 262144 < 5) by lia.
  unfold PyStr.code, one_char, PyStr.inside. simpl.
  rewrite !byte_of_byte by lia. unfold PyStr.inside.
  repeat split.
  - destruct (Z.leb_spec 240 (240 + cp / 262144)); [|lia].
    destruct (Z.leb_spec (240 + cp / 262144) 244); [|lia].
    destruct (Z.leb_spec 128 (128 + (cp / 4096) mod 64)); [|lia].
    destruct (Z.leb_spec (128 + (cp / 4096) mod 64) 191); [|lia].
    destruct (Z.leb_spec 128 (128 + (cp / 64) mod 64)); [|lia].
    destruct (Z.leb_spec (128 + (cp / 64) mod 64) 191); [|lia].
    destruct (Z.leb_spec 128 (128 + cp mod 64)); [|lia].
    destruct (Z.leb_spec (128 + cp mod 64) 191); [|lia]. simpl.
    match goal with
    | |- context [65536 <=? ?v] =>
        assert (Hv : v = cp) by lia; rewrite Hv
    end.
    destruct (Z.leb_spec 65536 cp); [|lia].
    destruct (Z.leb_spec cp 1114111); [|lia]. reflexivity.
  - destruct (Z.leb_spec 128 (128 + (cp / 4096) mod 64)); [|lia].
    destruct (Z.leb_spec (128 + (cp / 4096) mod 64) 191); [|lia].
    destruct (Z.leb_spec 128 (128 + (cp / 64) mod 64)); [|lia].
    destruct (Z.leb_spec (128 + (cp / 64) mod 64) 191); [|lia].
    destruct (Z.leb_spec 128 (128 + cp mod 64)); [|lia].
    destruct (Z.leb_spec (128 + cp mod 64) 191); [|lia]. reflexivity.
  - destruct (Z.leb_spec (240 + cp / 262144) 191); [lia|].
    apply andb_false_r.
Qed.

(** The text of a list of code points has these code points: the byte
    form loses nothing of a Python [str]. *)
Lemma codes_encode cps :
  Forall (fun cp => 0 <= cp <= 1114111) cps ->
  PyStr.codes (PyStr.encode cps) = cps.
Proof.
  intros Hall. unfold PyStr.codes, PyStr.encode.
  rewrite chars_flat.
  - rewrite map_map. induction Hall as [|cp cps Hcp _ IH]; [reflexivity|].
    simpl. rewrite IH, (proj1 (encode_char_spec cp Hcp)). reflexivity.
  - split.
    + induction Hall as [|cp cps Hcp _ IH]; constructor; [|exact IH].
      apply (encode_char_spec cp Hcp).
    + destruct Hall as [|cp0 cps0 _ Hall]; [constructor|]. simpl.
      induction Hall as [|cp cps Hcp _ IH]; constructor; [|exact IH].
      apply (encode_char_spec cp Hcp).
Qed.

(** *** Lower case *)

Lemma lower_char_nonempty ch : one_char ch -> PyStr.lower_char ch <> "".
Proof.
  intros Hch. unfold PyStr.lower_char, PyStr.encode_char.
  repeat split_if; try discriminate.
  destruct ch; [contradiction|discriminate].
Qed.

(** Which characters lower-case to a given small letter other than [k]
    and [i]: the letter and its capital. *)
Lemma lower_char_step ch r r' lo :
  one_char ch ->
  97 <= lo <= 122 -> lo <> 107 -> lo <> 105 ->
  PyStr.starts_inside r' = false ->
  PyStr.lower_char ch +:+ r = String (PyStr.of_byte lo) r' ->
  r' = r
  /\ (ch = String (PyStr.of_byte lo) EmptyString
      \/ ch = String (PyStr.of_byte (lo - 32)) EmptyString).
Proof.
  intros Hch Hlo Hk Hi Hr'. unfold PyStr.lower_char.
  destruct ((65 <=? PyStr.code ch) && (PyStr.code ch <=? 90)) eqn:Hup.
  { bools. unfold PyStr.encode_char.
    destruct (Z.ltb_spec (PyStr.code ch + 32) 128); [|lia].
    rewrite append_cons. intros Heq; inversion Heq as [[Hb Hrr]].
    split; [first [reflexivity|symmetry; exact Hrr|exact Hrr]|]. right.
    apply (f_equal PyStr.byte) in Hb. rewrite !byte_of_byte in Hb by lia.
    rewrite (code_ascii ch (PyStr.code ch) eq_refl) by lia.
    f_equal. f_equal. lia. }
  destruct (PyStr.code ch =? 8490) eqn:Hkel.
  { change (PyStr.encode_char 107) with (String "k"%char EmptyString).
    rewrite append_cons. intros Heq. exfalso.
    inversion Heq as [[Hb Hrr]]. clear Heq Hrr.
    apply (f_equal PyStr.byte) in Hb. rewrite byte_of_byte in Hb by lia.
    change (PyStr.byte "k") with 107 in Hb. lia. }
  destruct (PyStr.code ch =? 304) eqn:Hdot.
  { replace (PyStr.encode [105; 775])
      with (String "i"%char (PyStr.encode [775])) by (vm_compute; reflexivity).
    rewrite append_cons. intros Heq. exfalso.
    inversion Heq as [[Hb Hrr]]. clear Heq Hrr.
    apply (f_equal PyStr.byte) in Hb. rewrite byte_of_byte in Hb by lia.
    change (PyStr.byte "i") with 105 in Hb. lia. }
  destruct ch as [|c t]; [contradiction|]. rewrite append_cons.
  intros Heq; inversion Heq as [[Hc Ht]].
  destruct t as [|c' t].
  - split; [first [reflexivity|symmetry; exact Ht|exact Ht]|left].
    first [reflexivity|rewrite Hc; reflexivity].
  - exfalso. simpl in Hch. apply andb_prop in Hch as [Hc' _].
    rewrite <- Ht in Hr'. simpl in Hr'. congruence.
Qed.

Lemma lower_nan s : PyStr.lower s = "nan" <-> In s nan_spellings.
Proof.
  split.
  - unfold PyStr.lower. pose proof (proj1 (chars_separable s)) as Hall.
    rewrite <- (flat_chars s) at 2.
    destruct (PyStr.chars s) as [|c1 l]; [discriminate|].
    inversion Hall as [|? ? H1 Hl]; subst. simpl PyStr.flat at 1. simpl map.
    simpl PyStr.flat at 1.
    intros Heq.
    apply (lower_char_step c1 _ "an" 110 H1) in Heq as [Heq Hc1];
      [|lia|lia|lia|reflexivity].
    destruct l as [|c2 l]; [discriminate|].
    inversion Hl as [|? ? H2 Hl2]; subst. simpl in Heq. symmetry in Heq.
    apply (lower_char_step c2 _ "n" 97 H2) in Heq as [Heq Hc2];
      [|lia|lia|lia|reflexivity].
    destruct l as [|c3 l]; [discriminate|].
    inversion Hl2 as [|? ? H3 Hl3]; subst. simpl in Heq. symmetry in Heq.
    apply (lower_char_step c3 _ "" 110 H3) in Heq as [Heq Hc3];
      [|lia|lia|lia|reflexivity].
    destruct l as [|c4 l].
    + destruct Hc1 as [-> | ->], Hc2 as [-> | ->], Hc3 as [-> | ->];
        vm_compute; tauto.
    + exfalso. inversion Hl3 as [|? ? H4 _]; subst. simpl in Heq.
      apply (lower_char_nonempty c4 H4).
      destruct (PyStr.lower_char c4); [reflexivity|discriminate].
  - intros Hs. repeat (destruct Hs as [<-|Hs]; [vm_compute; reflexivity|]).
    destruct Hs.
Qed.

(* ===================================================================== *)
(** ** The quality classifier and the normalizer *)
(* ===================================================================== *)

Lemma isdigit_spec c : PyStr.isdigit c = true <-> decimal_digit c.
Proof.
  unfold PyStr.isdigit, decimal_digit. rewrite existsb_exists.
  split; intros (zero & Hin & Hz); exists zero; (split; [exact Hin|]).
  - apply andb_prop in Hz as [H1 H2]. apply Z.leb_le in H1.
    apply Z.ltb_lt in H2. lia.
  - apply andb_true_intro. split; [apply Z.leb_le|apply Z.ltb_lt]; lia.
Qed.

Lemma has_digit_false s :
  PyStr.has_digit s = false <->
  forall c, In c (PyStr.codes s) -> ~ decimal_digit c.
Proof.
  unfold PyStr.has_digit, PyStr.codes. split.
  - intros Hno c Hc Hd. apply in_map_iff in Hc as (ch & <- & Hch).
    apply isdigit_spec in Hd.
    assert (Ht : existsb (fun ch => PyStr.isdigit (PyStr.code ch))
                   (PyStr.chars s) = true)
      by (apply existsb_exists; eauto).
    congruence.
  - intros Hall.
    destruct (existsb _ (PyStr.chars s)) eqn:E; [|reflexivity].
    apply existsb_exists in E as (ch & Hch & Hd). exfalso.
    apply (Hall (PyStr.code ch)); [apply in_map; exact Hch|].
    apply isdigit_spec. exact Hd.
Qed.

Lemma gj_low_quality_spec v :
  GeocodeJson.is_low_quality_address v = true <->
  v = PNone \/ not_a_string v \/ no_digit_text v.
Proof.
  unfold not_a_string, no_digit_text.
  destruct v as [| b | z | bits | s | l | d]; simpl;
    try (split; [intros _; right; left; intros s; discriminate | reflexivity]).
  destruct s as [|a s]; cbn [negb PyStr.nonempty].
  - split; [|reflexivity]. intros _. right; right. exists "".
    split; [reflexivity|]. intros c [].
  - rewrite negb_true_iff, (has_digit_false (String a s)). split.
    + intros Hs. right; right. eauto.
    + intros [Hn|[Hn|(s' & Heq & Hs')]];
        [discriminate| exfalso; eapply Hn; reflexivity |].
      inversion Heq; subst. exact Hs'.
Qed.

(** C7: the quality classifier of either script answers true exactly when
    the address is [None], is not a string, or is a string without any
    decimal digit, of whatever script; it is true on [None] and on
    ["Amsterdam, Netherlands"], false on
    ["123 Main St, Amsterdam, Netherlands"] and on an address whose number
    is written in Arabic-Indic digits. *)
Theorem C7_quality_classifier :
  (forall v : pyval,
     (GeocodeJson.is_low_quality_address v = true <->
      v = PNone \/ not_a_string v \/ no_digit_text v)
     /\ (Find.is_low_quality_address v = true <->
         v = PNone \/ not_a_string v \/ no_digit_text v))
  /\ GeocodeJson.is_low_quality_address PNone = true
  /\ GeocodeJson.is_low_quality_address (PStr "Amsterdam, Netherlands") = true
  /\ GeocodeJson.is_low_quality_address
       (PStr "123 Main St, Amsterdam, Netherlands") = false
  /\ GeocodeJson.is_low_quality_address
       (PStr (PyStr.encode [1588; 1575; 1585; 1593; 32; 1633; 1634; 1635]))
     = false
  /\ Find.is_low_quality_address PNone = true
  /\ Find.is_low_quality_address (PStr "Amsterdam, Netherlands") = true
  /\ Find.is_low_quality_address
       (PStr "123 Main St, Amsterdam, Netherlands") = false
  /\ Find.is_low_quality_address
       (PStr (PyStr.encode [1588; 1575; 1585; 1593; 32; 1633; 1634; 1635]))
     = false.
Proof.
  split; [|repeat split; vm_compute; reflexivity].
  intros v. split; [apply gj_low_quality_spec | apply (gj_low_quality_spec v)].
Qed.

(** *** The normalizer *)

Lemma white_blank s : white s <-> Forall blank (PyStr.chars s).
Proof.
  unfold white, PyStr.codes, blank. rewrite List.Forall_forall. split.
  - intros Hw ch Hch. apply Hw. apply in_map. exact Hch.
  - intros Hb c Hc. apply in_map_iff in Hc as (ch & <- & Hch). auto.
Qed.

Lemma strip_white s : PyStr.strip s = "" <-> white s.
Proof. rewrite white_blank. apply strip_empty. Qed.

Lemma white_starts s : white s -> PyStr.starts_inside s = false.
Proof.
  intros Hw. apply white_blank in Hw.
  rewrite <- (flat_chars s), (flat_starts _ (proj1 (chars_separable s))).
  destruct (PyStr.chars s) as [|ch rest]; [reflexivity|].
  inversion Hw; subst. apply isspace_started. assumption.
Qed.

(** A text that [strip] leaves alone keeps that form between white
    space. *)
Lemma strip_padded w t :
  PyStr.strip w = w -> PyStr.starts_inside w = false ->
  padded w t -> PyStr.strip t = w.
Proof.
  intros Hfix Hw (pre & post & -> & Hpre & Hpost).
  assert (Hmid : PyStr.starts_inside (w +:+ post) = false).
  { rewrite starts_inside_app. destruct w; [apply white_starts|]; assumption. }
  rewrite strip_flat, (chars_app pre _ Hmid),
    (chars_app w post (white_starts post Hpost)).
  rewrite trim_between.
  - apply flat_chars.
  - apply white_blank, Hpre.
  - apply white_blank, Hpost.
  - intros ch. rewrite <- Hfix, chars_strip. apply trim_head.
  - intros ch. rewrite <- Hfix, chars_strip. apply trim_last.
Qed.

Lemma padded_strip t : padded (PyStr.strip t) t.
Proof.
  destruct (trim_split (PyStr.chars t)) as (p & q & Hl & Hp & Hq).
  exists (PyStr.flat p), (PyStr.flat q).
  assert (Hsep := chars_separable t). rewrite Hl in Hsep.
  split.
  - rewrite strip_flat, <- !flat_app, <- Hl. symmetry. apply flat_chars.
  - split; apply white_blank.
    + rewrite (chars_run t [] p (trim (PyStr.chars t) ++ q) Hl). exact Hp.
    + rewrite (chars_run t (p ++ trim (PyStr.chars t)) q []);
        [exact Hq|]. rewrite app_nil_r, <- app_assoc. exact Hl.
Qed.

Lemma nan_spelling_fixed w :
  In w nan_spellings ->
  PyStr.strip w = w /\ PyStr.starts_inside w = false /\ PyStr.lower w = "nan".
Proof.
  intros Hw. repeat (destruct Hw as [<-|Hw]; [vm_compute; auto|]). destruct Hw.
Qed.

Section Normalizer.
Context `{PyRuntime}.

Lemma clean_cell_agree x : Find.clean_cell x = GeocodeJson.clean_cell x.
Proof. destruct x; reflexivity. Qed.

Lemma nonempty_false s : PyStr.nonempty s = false <-> s = "".
Proof. destruct s; simpl; split; congruence. Qed.

Lemma clean_cell_test x :
  GeocodeJson.clean_cell x
  = (if pd_isna x then None
     else
       let t := PyStr.strip (Py.str (scalar_val x)) in
       if negb (PyStr.nonempty t) || String.eqb (PyStr.lower t) "nan"
       then None else Some t).
Proof. destruct x; reflexivity. Qed.

(** What the normalizer does, told by the characters of the field: the
    field is absent exactly when it is missing or NaN, when its text is
    white space only, or when its text is a spelling of [nan] between
    white space; otherwise it is the text without the white space at its
    ends. *)
Lemma clean_cell_spec x :
  let t := Py.str (scalar_val x) in
  (GeocodeJson.clean_cell x = None <->
     pd_isna x = true \/ white t
     \/ exists w, In w nan_spellings /\ padded w t)
  /\ (forall s, GeocodeJson.clean_cell x = Some s ->
                s = PyStr.strip t /\ PyStr.nonempty s = true).
Proof.
  intros t. rewrite clean_cell_test. fold t.
  destruct (pd_isna x); [split; [tauto|discriminate]|]. cbv zeta.
  destruct (PyStr.nonempty (PyStr.strip t)) eqn:Hne; simpl.
  - assert (Hnw : ~ white t).
    { intros Hw. apply strip_white in Hw. rewrite Hw in Hne. discriminate. }
    destruct (String.eqb_spec (PyStr.lower (PyStr.strip t)) "nan") as [Hl|Hl].
    + split; [|discriminate]. split; [|reflexivity]. intros _.
      right; right. exists (PyStr.strip t).
      split; [apply lower_nan; exact Hl|apply padded_strip].
    + split.
      * split; [discriminate|].
        intros [Hd|[Hw|(w & Hw & Hp)]]; [discriminate|contradiction|].
        exfalso. apply Hl.
        destruct (nan_spelling_fixed w Hw) as (Hfix & Hst & Hlow).
        rewrite (strip_padded w t Hfix Hst Hp). exact Hlow.
      * intros s Heq; inversion Heq; subst. auto.
  - apply nonempty_false in Hne. split; [|discriminate].
    split; [|reflexivity]. intros _. right; left. apply strip_white, Hne.
Qed.

End Normalizer.

(* ===================================================================== *)
(** ** The resolver *)
(* ===================================================================== *)

Section Resolver.
Context `{PyRuntime} (net : transport) (key : string).

(** C8: when both the venue name and the city normalize to absent, the
    resolver of either script returns at once a result with status
    ["skipped-empty"], source ["none"] and no coordinates, and the state is
    the one it started from: no request was made. *)
Theorem C8_skipped_empty :
  (forall (attraction_name city_name : scalar) (s : GeocodeJson.world),
     GeocodeJson.clean_cell attraction_name = None ->
     GeocodeJson.clean_cell city_name = None ->
     exists r,
       GeocodeJson.resolve_attraction net key attraction_name city_name s
       = (Ok r, s)
       /\ GeocodeJson.status r = "skipped-empty"
       /\ GeocodeJson.source r = "none"
       /\ GeocodeJson.latitude r = PNone
       /\ GeocodeJson.longitude r = PNone)
  /\ (forall (venue_name city : scalar) (s : Find.world),
        Find.clean_cell venue_name = None ->
        Find.clean_cell city = None ->
        exists r,
          Find.get_venue_location net key venue_name city s = (Ok r, s)
          /\ Find.status r = "skipped-empty"
          /\ Find.source r = "none"
          /\ Find.latitude r = PNone
          /\ Find.longitude r = PNone).
Proof.
  split.
  - intros a c s Hn Hc. unfold GeocodeJson.resolve_attraction.
    rewrite Hn, Hc. simpl. eexists; split; [reflexivity|]. simpl. auto.
  - intros a c s Hn Hc. unfold Find.get_venue_location.
    rewrite Hn, Hc. simpl. eexists; split; [reflexivity|]. simpl. auto.
Qed.

(** C10: a field whose text, once the white space at its ends is trimmed,
    is empty or is ["nan"] in any letter case is normalized to absent by
    either script, and no other field with a value is; the white space is
    that of any script.  So a venue name ["NaN"] or [" nan "], or one
    between an em space and an ideographic space, with no city is the
    empty input: the result is the ["skipped-empty"] one and no request is
    made. *)
Theorem C10_nan_is_absent :
  (forall x : scalar,
     let t := Py.str (scalar_val x) in
     (GeocodeJson.clean_cell x = None <->
        pd_isna x = true \/ white t
        \/ exists w, In w nan_spellings /\ padded w t)
     /\ Find.clean_cell x = GeocodeJson.clean_cell x)
  /\ (forall v : string,
        v = "NaN" \/ v = " nan "
        \/ v = PyStr.encode [8195; 78; 97; 78; 12288]
        \/ v = PyStr.encode [8195; 12288] ->
        (forall s : GeocodeJson.world,
           GeocodeJson.resolve_attraction net key (SStr v) SNone s
           = (Ok (GeocodeJson.failure "skipped-empty" "none"), s))
        /\ (forall s : Find.world,
              Find.get_venue_location net key (SStr v) SNone s
              = (Ok (Find.failure "skipped-empty" "none"), s))).
Proof.
  split.
  - intros x t. split; [apply (clean_cell_spec x)|apply clean_cell_agree].
  - intros v [->|[->|[->| ->]]]; split; intros s; reflexivity.
Qed.

(** C4: when tier 1 reports ["success"] with an address that the classifier
    does not judge city-level, the resolver returns that very result in the
    state tier 1 left: the only requests of the call are the Find Place
    request and one Place Details request, so no text search and no
    geocoding happened, and the city cache is untouched. *)
Theorem C4_tier1_early_return :
  (forall (attraction_name city_name : scalar) (s s1 : GeocodeJson.world)
          (r1 : GeocodeJson.result),
     let query := GeocodeJsonSpec.query_of attraction_name city_name in
     GeocodeJsonSpec.not_skipped attraction_name city_name ->
     GeocodeJson.findplace_then_details net key query s = (Ok r1, s1) ->
     GeocodeJson.status r1 = "success" ->
     GeocodeJson.is_low_quality_address (GeocodeJson.formatted_address r1)
     = false ->
     GeocodeJson.resolve_attraction net key attraction_name city_name s
     = (Ok r1, s1)
     /\ GeocodeJson.city_cache s1 = GeocodeJson.city_cache s
     /\ exists pid,
          GeocodeJson.calls s1
          = GeocodeJson.calls s
            ++ [GeocodeJsonSpec.findplace_request key query;
                GeocodeJsonSpec.details_request key pid])
  /\ (forall (venue_name city : scalar) (s s1 : Find.world) (r1 : Find.result),
        let query := FindSpec.query_of venue_name city in
        FindSpec.not_skipped venue_name city ->
        Find.find_venue_with_places_findplace net key query s = (Ok r1, s1) ->
        Find.status r1 = "success" ->
        Find.is_low_quality_address (Find.formatted_address r1) = false ->
        Find.get_venue_location net key venue_name city s = (Ok r1, s1)
        /\ exists pid,
             s1 = s ++ [FindSpec.findplace_request key query;
                        FindSpec.details_request key pid]).
Proof.
  split.
  - intros a c s s1 r1 query Hpresent Hrun Hst Hq.
    split.
    + unfold GeocodeJson.resolve_attraction.
      unfold GeocodeJsonSpec.not_skipped in Hpresent. rewrite Hpresent.
      fold (GeocodeJsonSpec.query_of a c). fold query.
      unfold bind at 1. rewrite Hrun, Hst, Hq. reflexivity.
    + destruct (gj_findplace_run net key query s) as (r & l & E & _ & _ & _ & Hl).
      rewrite E in Hrun. inversion Hrun; subst.
      destruct (Hl Hst) as [pid ->]. eauto.
  - intros a c s s1 r1 query Hpresent Hrun Hst Hq.
    split.
    + unfold Find.get_venue_location.
      unfold FindSpec.not_skipped in Hpresent. rewrite Hpresent.
      fold (FindSpec.query_of a c). fold query.
      unfold bind at 1. rewrite Hrun, Hst, Hq. reflexivity.
    + destruct (fd_findplace_run net key query s) as (r & l & E & _ & _ & _ & Hl).
      rewrite E in Hrun. inversion Hrun; subst.
      destruct (Hl Hst) as [pid ->]. eauto.
Qed.

Lemma gj_resolve_tier2 attraction_name city_name pid s s3 :
  let query := GeocodeJsonSpec.query_of attraction_name city_name in
  GeocodeJsonSpec.not_skipped attraction_name city_name ->
  GeocodeJsonSpec.text_search_gave net key
    (GeocodeJson.clean_cell city_name) query pid s s3 ->
  GeocodeJson.resolve_attraction net key attraction_name city_name s
  = (if Py.truthy pid then
       d <- GeocodeJson.place_details net key pid ;;
       match d with
       | Some d =>
           if String.eqb (GeocodeJson.status d) "success" then
             if GeocodeJson.is_low_quality_address
                  (GeocodeJson.formatted_address d)
             then ret (GeocodeJson.set_source d "places_textsearch_low_quality")
             else ret (GeocodeJson.set_source d "places_textsearch")
           else GeocodeJson.geocode_fallback net key query
       | None => GeocodeJson.geocode_fallback net key query
       end
     else GeocodeJson.geocode_fallback net key query) s3.
Proof.
  intros query Hpresent (s1 & s2 & loc & (r1 & Hrun & Hrej) & Hloc & Hts).
  unfold GeocodeJson.resolve_attraction.
  unfold GeocodeJsonSpec.not_skipped in Hpresent. rewrite Hpresent.
  fold (GeocodeJsonSpec.query_of attraction_name city_name). fold query.
  unfold bind at 1. rewrite Hrun, Hrej.
  unfold bind at 1. rewrite Hloc. unfold bind at 1. rewrite Hts. reflexivity.
Qed.

Lemma fd_resolve_tier2 venue_name city pid s s3 :
  let query := FindSpec.query_of venue_name city in
  FindSpec.not_skipped venue_name city ->
  FindSpec.text_search_gave net key (Find.clean_cell city) query pid s s3 ->
  Find.get_venue_location net key venue_name city s
  = (if Py.truthy pid then
       details <- Find.place_details net key pid ;;
       match details with
       | Some d =>
           if String.eqb (Find.status d) "success"
              && negb (Find.is_low_quality_address (Find.formatted_address d))
           then ret (Find.set_source d "places_textsearch")
           else if String.eqb (Find.status d) "success"
           then ret (Find.set_source d "places_textsearch_low_quality")
           else Find.geocode_venue net key query
       | None => Find.geocode_venue net key query
       end
     else Find.geocode_venue net key query) s3.
Proof.
  intros query Hpresent (s1 & s2 & loc & (r1 & Hrun & Hrej) & Hloc & Hts).
  unfold Find.get_venue_location.
  unfold FindSpec.not_skipped in Hpresent. rewrite Hpresent.
  fold (FindSpec.query_of venue_name city). fold query.
  unfold bind at 1. rewrite Hrun, Hrej.
  unfold bind at 1. rewrite Hloc. unfold bind at 1. rewrite Hts. reflexivity.
Qed.

(** C5: when tier 2 is reached, its text search yields a candidate
    identifier and the details fetch for it reports ["success"], the
    resolver returns that details result with only the source changed:
    ["places_textsearch"] when the address is not city-level,
    ["places_textsearch_low_quality"] when it is; the coarse result is
    returned, not dropped. *)
Theorem C5_tier2_details_kept :
  (forall (attraction_name city_name : scalar) (pid : pyval)
          (s s3 s4 : GeocodeJson.world) (d : GeocodeJson.result),
     let query := GeocodeJsonSpec.query_of attraction_name city_name in
     GeocodeJsonSpec.not_skipped attraction_name city_name ->
     GeocodeJsonSpec.text_search_gave net key
       (GeocodeJson.clean_cell city_name) query pid s s3 ->
     Py.truthy pid = true ->
     GeocodeJson.place_details net key pid s3 = (Ok (Some d), s4) ->
     GeocodeJson.status d = "success" ->
     GeocodeJson.resolve_attraction net key attraction_name city_name s
     = (Ok (GeocodeJson.set_source d
              (if GeocodeJson.is_low_quality_address
                    (GeocodeJson.formatted_address d)
               then "places_textsearch_low_quality"
               else "places_textsearch")), s4))
  /\ (forall (venue_name city : scalar) (pid : pyval)
             (s s3 s4 : Find.world) (d : Find.result),
        let query := FindSpec.query_of venue_name city in
        FindSpec.not_skipped venue_name city ->
        FindSpec.text_search_gave net key (Find.clean_cell city) query pid s s3 ->
        Py.truthy pid = true ->
        Find.place_details net key pid s3 = (Ok (Some d), s4) ->
        Find.status d = "success" ->
        Find.get_venue_location net key venue_name city s
        = (Ok (Find.set_source d
                 (if Find.is_low_quality_address (Find.formatted_address d)
                  then "places_textsearch_low_quality"
                  else "places_textsearch")), s4)).
Proof.
  split.
  - intros a c pid s s3 s4 d query Hpresent Hreach Hpid Hd Hst.
    rewrite (gj_resolve_tier2 a c pid s s3 Hpresent Hreach), Hpid.
    unfold bind. rewrite Hd, Hst. simpl.
    destruct (GeocodeJson.is_low_quality_address _); reflexivity.
  - intros a c pid s s3 s4 d query Hpresent Hreach Hpid Hd Hst.
    rewrite (fd_resolve_tier2 a c pid s s3 Hpresent Hreach), Hpid.
    unfold bind. rewrite Hd, Hst. simpl.
    destruct (Find.is_low_quality_address _); reflexivity.
Qed.

(** C6: when tier 1 gave no acceptable result and the text search of tier 2
    produced no candidate identifier, the resolver returns exactly what the
    geocoding adapter returns on the original query from the state the text
    search left, success or failure alike, and its source is
    ["geocoding_api"]. *)
Theorem C6_no_candidate_falls_back :
  (forall (attraction_name city_name : scalar) (pid : pyval)
          (s s3 : GeocodeJson.world),
     let query := GeocodeJsonSpec.query_of attraction_name city_name in
     GeocodeJsonSpec.not_skipped attraction_name city_name ->
     GeocodeJsonSpec.text_search_gave net key
       (GeocodeJson.clean_cell city_name) query pid s s3 ->
     Py.truthy pid = false ->
     exists r s4,
       GeocodeJson.geocode_fallback net key query s3 = (Ok r, s4)
       /\ GeocodeJson.resolve_attraction net key attraction_name city_name s
          = (Ok r, s4)
       /\ GeocodeJson.source r = "geocoding_api")
  /\ (forall (venue_name city : scalar) (pid : pyval) (s s3 : Find.world),
        let query := FindSpec.query_of venue_name city in
        FindSpec.not_skipped venue_name city ->
        FindSpec.text_search_gave net key (Find.clean_cell city) query pid s s3 ->
        Py.truthy pid = false ->
        exists r s4,
          Find.geocode_venue net key query s3 = (Ok r, s4)
          /\ Find.get_venue_location net key venue_name city s = (Ok r, s4)
          /\ Find.source r = "geocoding_api").
Proof.
  split.
  - intros a c pid s s3 query Hpresent Hreach Hpid.
    destruct (gj_geocode_fallback_run net key query s3) as (r & E & Hsrc & _).
    exists r, (GeocodeJsonSpec.log s3 [GeocodeJsonSpec.geocode_request key query]).
    rewrite (gj_resolve_tier2 a c pid s s3 Hpresent Hreach), Hpid. auto.
  - intros a c pid s s3 query Hpresent Hreach Hpid.
    destruct (fd_geocode_venue_run net key query s3) as (r & E & Hsrc & _).
    exists r, (s3 ++ [FindSpec.geocode_request key query]).
    rewrite (fd_resolve_tier2 a c pid s s3 Hpresent Hreach), Hpid. auto.
Qed.

(** C9: when the text search of tier 2 yields a candidate identifier and
    the details fetch for it returns [None] (the upstream status is not
    ["OK"]), the resolver goes on to the geocoding adapter on the original
    query and returns its result; no tier-2 failure record is returned. *)
Theorem C9_details_refused_falls_back :
  (forall (attraction_name city_name : scalar) (pid : pyval)
          (s s3 s4 : GeocodeJson.world),
     let query := GeocodeJsonSpec.query_of attraction_name city_name in
     GeocodeJsonSpec.not_skipped attraction_name city_name ->
     GeocodeJsonSpec.text_search_gave net key
       (GeocodeJson.clean_cell city_name) query pid s s3 ->
     Py.truthy pid = true ->
     GeocodeJson.place_details net key pid s3 = (Ok None, s4) ->
     exists r s5,
       GeocodeJson.geocode_fallback net key query s4 = (Ok r, s5)
       /\ GeocodeJson.resolve_attraction net key attraction_name city_name s
          = (Ok r, s5)
       /\ GeocodeJson.source r = "geocoding_api")
  /\ (forall (venue_name city : scalar) (pid : pyval) (s s3 s4 : Find.world),
        let query := FindSpec.query_of venue_name city in
        FindSpec.not_skipped venue_name city ->
        FindSpec.text_search_gave net key (Find.clean_cell city) query pid s s3 ->
        Py.truthy pid = true ->
        Find.place_details net key pid s3 = (Ok None, s4) ->
        exists r s5,
          Find.geocode_venue net key query s4 = (Ok r, s5)
          /\ Find.get_venue_location net key venue_name city s = (Ok r, s5)
          /\ Find.source r = "geocoding_api").
Proof.
  split.
  - intros a c pid s s3 s4 query Hpresent Hreach Hpid Hd.
    destruct (gj_geocode_fallback_run net key query s4) as (r & E & Hsrc & _).
    exists r, (GeocodeJsonSpec.log s4 [GeocodeJsonSpec.geocode_request key query]).
    rewrite (gj_resolve_tier2 a c pid s s3 Hpresent Hreach), Hpid.
    unfold bind. rewrite Hd. auto.
  - intros a c pid s s3 s4 query Hpresent Hreach Hpid Hd.
    destruct (fd_geocode_venue_run net key query s4) as (r & E & Hsrc & _).
    exists r, (s4 ++ [FindSpec.geocode_request key query]).
    rewrite (fd_resolve_tier2 a c pid s s3 Hpresent Hreach), Hpid.
    unfold bind. rewrite Hd. auto.
Qed.

Lemma gj_resolve_origin a c s r s' :
  GeocodeJson.resolve_attraction net key a c s = (Ok r, s') ->
  r = GeocodeJson.failure "skipped-empty" "none"
  \/ (exists q s0 s1,
        GeocodeJson.findplace_then_details net key q s0 = (Ok r, s1))
  \/ (exists pid s0 s1 d src,
        GeocodeJson.place_details net key pid s0 = (Ok (Some d), s1)
        /\ r = GeocodeJson.set_source d src)
  \/ (exists q s0 s1, GeocodeJson.geocode_fallback net key q s0 = (Ok r, s1)).
Proof.
  unfold GeocodeJson.resolve_attraction.
  destruct (negb _ && negb _).
  { intros Heq; inversion Heq; auto. }
  unfold bind at 1.
  destruct (GeocodeJson.findplace_then_details net key _ s)
    as [[r1|e1] s1] eqn:E1; [|discriminate].
  destruct (_ && _).
  { intros Heq; inversion Heq; subst. right; left; eauto. }
  unfold bind at 1.
  destruct (GeocodeJson.city_location net key _ s1)
    as [[loc|e2] s2] eqn:E2; [|discriminate].
  unfold bind at 1.
  destruct (GeocodeJson.places_text_search_place_id net key _ loc _ _ s2)
    as [[pid|e3] s3] eqn:E3; [|discriminate].
  destruct (Py.truthy pid); [|intros Heq; do 3 right; eauto].
  unfold bind at 1.
  destruct (GeocodeJson.place_details net key pid s3)
    as [[[d|]|e4] s4] eqn:E4; [| |discriminate].
  - destruct (String.eqb (GeocodeJson.status d) "success").
    + destruct (GeocodeJson.is_low_quality_address _);
        intros Heq; inversion Heq; subst; right; right; left; eauto 10.
    + intros Heq; do 3 right; eauto.
  - intros Heq; do 3 right; eauto.
Qed.

Lemma fd_resolve_origin a c s r s' :
  Find.get_venue_location net key a c s = (Ok r, s') ->
  r = Find.failure "skipped-empty" "none"
  \/ (exists q s0 s1,
        Find.find_venue_with_places_findplace net key q s0 = (Ok r, s1))
  \/ (exists pid s0 s1 d src,
        Find.place_details net key pid s0 = (Ok (Some d), s1)
        /\ r = Find.set_source d src)
  \/ (exists q s0 s1, Find.geocode_venue net key q s0 = (Ok r, s1)).
Proof.
  unfold Find.get_venue_location.
  destruct (negb _ && negb _).
  { intros Heq; inversion Heq; auto. }
  unfold bind at 1.
  destruct (Find.find_venue_with_places_findplace net key _ s)
    as [[r1|e1] s1] eqn:E1; [|discriminate].
  destruct (_ && _).
  { intros Heq; inversion Heq; subst. right; left; eauto. }
  unfold bind at 1.
  destruct (Find.city_location net key _ s1)
    as [[loc|e2] s2] eqn:E2; [|discriminate].
  unfold bind at 1.
  destruct (Find.places_text_search_place_id net key _ loc _ _ s2)
    as [[pid|e3] s3] eqn:E3; [|discriminate].
  destruct (Py.truthy pid); [|intros Heq; do 3 right; eauto].
  unfold bind at 1.
  destruct (Find.place_details net key pid s3)
    as [[[d|]|e4] s4] eqn:E4; [| |discriminate].
  - destruct (String.eqb (Find.status d) "success"); simpl.
    + destruct (Find.is_low_quality_address _);
        intros Heq; inversion Heq; subst; right; right; left; eauto 10.
    + intros Heq; do 3 right; eauto.
  - intros Heq; do 3 right; eauto.
Qed.

(** *** Where the coordinates of a result come from *)

Lemma read_last_extend h l0 h' lat lng :
  read_last net (h ++ l0) h' lat lng -> read_last net h h' lat lng.
Proof.
  intros (l & rq & data & loc & Hh & Hnet & Hrest).
  exists (l0 ++ l), rq, data, loc.
  rewrite <- app_assoc in Hh. rewrite <- app_assoc in Hnet.
  split; [rewrite <- app_assoc; exact Hh|]. split; [exact Hnet|exact Hrest].
Qed.

Lemma gj_place_details_last pid s d s' :
  GeocodeJson.place_details net key pid s = (Ok (Some d), s') ->
  read_last net (GeocodeJson.calls s) (GeocodeJson.calls s')
    (GeocodeJson.latitude d) (GeocodeJson.longitude d).
Proof.
  unfold GeocodeJson.place_details, GeocodeJson.http_get_json. unfold_m.
  destruct (net (GeocodeJson.calls s) _) as [data|e] eqn:Hnet; simpl;
    [|discriminate].
  intros Hrun.
  exists [], (GeocodeJsonSpec.details_request key pid), data.
  rewrite app_nil_r. unfold provider_location, details_location.
  change (String.eqb (fst (GeocodeJsonSpec.details_request key pid))
            GeocodeJson.url_details) with true. cbv iota.
  revert Hrun. run; intros Heq; inversion Heq; subst; simpl.
  all: eexists; repeat split; try reflexivity; try eassumption.
Qed.

Lemma gj_geocode_fallback_last q s r s' :
  GeocodeJson.geocode_fallback net key q s = (Ok r, s') ->
  GeocodeJson.status r = "success" ->
  read_last net (GeocodeJson.calls s) (GeocodeJson.calls s')
    (GeocodeJson.latitude r) (GeocodeJson.longitude r).
Proof.
  unfold GeocodeJson.geocode_fallback, GeocodeJson.http_get_json. unfold_m.
  destruct (net (GeocodeJson.calls s) _) as [data|e] eqn:Hnet; simpl;
    [|intros Heq; inversion Heq; subst; discriminate].
  intros Hrun Hs.
  exists [], (GeocodeJsonSpec.geocode_request key q), data.
  rewrite app_nil_r. unfold provider_location, geocode_location.
  change (String.eqb (fst (GeocodeJsonSpec.geocode_request key q))
            GeocodeJson.url_details) with false.
  change (String.eqb (fst (GeocodeJsonSpec.geocode_request key q))
            GeocodeJson.url_geocode) with true. cbv iota.
  revert Hrun Hs. run; intros Heq; inversion Heq; subst; simpl;
    try discriminate; intros _.
  all: eexists; repeat split; try reflexivity; try eassumption.
Qed.

Lemma gj_findplace_last q s r s' :
  GeocodeJson.findplace_then_details net key q s = (Ok r, s') ->
  GeocodeJson.status r = "success" ->
  read_last net (GeocodeJson.calls s) (GeocodeJson.calls s')
    (GeocodeJson.latitude r) (GeocodeJson.longitude r).
Proof.
  unfold GeocodeJson.findplace_then_details, GeocodeJson.http_get_json.
  unfold_m.
  destruct (net (GeocodeJson.calls s) _) as [data|e] eqn:Hnet; simpl;
    [|intros Heq; inversion Heq; subst; discriminate].
  repeat (simpl in *;
          first [ match goal with
                  | |- context [GeocodeJson.place_details net key ?p ?s0] =>
                      destruct (GeocodeJson.place_details net key p s0)
                        as [[[d|]|e] s1] eqn:Ed
                  end
                | split_match ]);
    intros Heq; inversion Heq; subst; simpl; try discriminate; intros _.
  all: apply (read_last_extend _ [GeocodeJsonSpec.findplace_request key q]).
  all: exact (gj_place_details_last _ _ _ _ Ed).
Qed.

(** Where the resolver of [geocode_json.py] takes the result it returns:
    from the adapter it called last, which ran from a state whose log
    extends the one the call started with. *)
Lemma gj_resolve_from a c s r s' :
  GeocodeJson.resolve_attraction net key a c s = (Ok r, s') ->
  r = GeocodeJson.failure "skipped-empty" "none"
  \/ exists s0 l0,
       GeocodeJson.calls s0 = GeocodeJson.calls s ++ l0
       /\ ((exists q,
              GeocodeJson.findplace_then_details net key q s0 = (Ok r, s'))
           \/ (exists pid d src,
                 GeocodeJson.place_details net key pid s0 = (Ok (Some d), s')
                 /\ r = GeocodeJson.set_source d src)
           \/ (exists q, GeocodeJson.geocode_fallback net key q s0 = (Ok r, s'))).
Proof.
  unfold GeocodeJson.resolve_attraction.
  destruct (negb _ && negb _).
  { intros Heq; inversion Heq; auto. }
  unfold bind at 1.
  destruct (GeocodeJson.findplace_then_details net key _ s)
    as [[r1|e1] s1] eqn:E1; [|discriminate].
  destruct (_ && _).
  { intros Heq; inversion Heq; subst. right. exists s, [].
    rewrite app_nil_r. eauto. }
  assert (H1 : exists l1, GeocodeJson.calls s1 = GeocodeJson.calls s ++ l1).
  { destruct (gj_findplace_run net key
                (GeocodeJson.build_query (GeocodeJson.clean_cell a)
                   (GeocodeJson.clean_cell c)) s) as (r0 & l & E & _).
    rewrite E in E1. inversion E1; subst. exists l. reflexivity. }
  destruct H1 as (l1 & H1).
  unfold bind at 1.
  destruct (gj_city_location_run net key (GeocodeJson.clean_cell c) s1)
    as (oc & s2 & lc & E2 & H2 & _). rewrite E2.
  destruct oc as [loc|e2]; [|discriminate].
  unfold bind at 1.
  destruct (gj_text_search_run net key
              (GeocodeJson.build_query (GeocodeJson.clean_cell a)
                 (GeocodeJson.clean_cell c)) loc
              GeocodeJson.CITY_TEXTSEARCH_RADIUS_M
              (Some GeocodeJson.PLACES_TYPE) s2) as (op & rq & E3 & _).
  rewrite E3. destruct op as [pid|e3]; [|discriminate].
  assert (H3 : GeocodeJson.calls (GeocodeJsonSpec.log s2 [rq])
               = GeocodeJson.calls s ++ (l1 ++ lc ++ [rq])).
  { simpl. rewrite H2, H1, <- !app_assoc. reflexivity. }
  destruct (Py.truthy pid).
  2:{ intros Heq. right. do 2 eexists. split; [exact H3|]. eauto. }
  unfold bind at 1.
  destruct (GeocodeJson.place_details net key pid (GeocodeJsonSpec.log s2 [rq]))
    as [[[d|]|e4] s4] eqn:E4; [| |discriminate].
  - assert (H4 : GeocodeJson.calls s4
                 = GeocodeJson.calls s
                   ++ (l1 ++ lc ++ [rq; GeocodeJsonSpec.details_request key pid])).
    { destruct (gj_place_details_run net key pid (GeocodeJsonSpec.log s2 [rq]))
        as (o & E & _). rewrite E in E4. inversion E4; subst. simpl.
      rewrite H2, H1, <- !app_assoc. reflexivity. }
    destruct (String.eqb (GeocodeJson.status d) "success").
    + destruct (GeocodeJson.is_low_quality_address _);
        intros Heq; inversion Heq; subst; right;
        (do 2 eexists; split; [exact H3|]); right; left; eauto.
    + intros Heq. right. do 2 eexists. split; [exact H4|]. eauto.
  - assert (H4 : GeocodeJson.calls s4
                 = GeocodeJson.calls s
                   ++ (l1 ++ lc ++ [rq; GeocodeJsonSpec.details_request key pid])).
    { destruct (gj_place_details_run net key pid (GeocodeJsonSpec.log s2 [rq]))
        as (o & E & _). rewrite E in E4. inversion E4; subst. simpl.
      rewrite H2, H1, <- !app_assoc. reflexivity. }
    intros Heq. right. do 2 eexists. split; [exact H4|]. eauto.
Qed.

Lemma gj_resolve_last a c s r s' :
  GeocodeJson.resolve_attraction net key a c s = (Ok r, s') ->
  GeocodeJson.status r = "success" ->
  read_last net (GeocodeJson.calls s) (GeocodeJson.calls s')
    (GeocodeJson.latitude r) (GeocodeJson.longitude r).
Proof.
  intros Hrun Hs.
  destruct (gj_resolve_from _ _ _ _ _ Hrun)
    as [->|(s0 & l0 & Hl0 & [(q & Hr)|[(pid & d & src & Hr & ->)|(q & Hr)]])].
  - discriminate Hs.
  - apply (read_last_extend _ l0). rewrite <- Hl0.
    exact (gj_findplace_last _ _ _ _ Hr Hs).
  - apply (read_last_extend _ l0). rewrite <- Hl0.
    exact (gj_place_details_last _ _ _ _ Hr).
  - apply (read_last_extend _ l0). rewrite <- Hl0.
    exact (gj_geocode_fallback_last _ _ _ _ Hr Hs).
Qed.

Lemma fd_place_details_last pid s d s' :
  Find.place_details net key pid s = (Ok (Some d), s') ->
  read_last net s s' (Find.latitude d) (Find.longitude d).
Proof.
  unfold Find.place_details, Find.http_get_json. unfold_m.
  destruct (net s _) as [data|e] eqn:Hnet; simpl; [|discriminate].
  intros Hrun.
  exists [], (FindSpec.details_request key pid), data.
  rewrite app_nil_r. unfold provider_location, details_location.
  change (String.eqb (fst (FindSpec.details_request key pid))
            GeocodeJson.url_details) with true. cbv iota.
  revert Hrun. run; intros Heq; inversion Heq; subst; simpl.
  all: eexists; repeat split; try reflexivity; try eassumption.
Qed.

Lemma fd_geocode_venue_last q s r s' :
  Find.geocode_venue net key q s = (Ok r, s') ->
  Find.status r = "success" ->
  read_last net s s' (Find.latitude r) (Find.longitude r).
Proof.
  unfold Find.geocode_venue, Find.http_get_json. unfold_m.
  destruct (net s _) as [data|e] eqn:Hnet; simpl;
    [|intros Heq; inversion Heq; subst; discriminate].
  intros Hrun Hs.
  exists [], (FindSpec.geocode_request key q), data.
  rewrite app_nil_r. unfold provider_location, geocode_location.
  change (String.eqb (fst (FindSpec.geocode_request key q))
            GeocodeJson.url_details) with false.
  change (String.eqb (fst (FindSpec.geocode_request key q))
            GeocodeJson.url_geocode) with true. cbv iota.
  revert Hrun Hs. run; intros Heq; inversion Heq; subst; simpl;
    try discriminate; intros _.
  all: eexists; repeat split; try reflexivity; try eassumption.
Qed.

Lemma fd_findplace_last q s r s' :
  Find.find_venue_with_places_findplace net key q s = (Ok r, s') ->
  Find.status r = "success" ->
  read_last net s s' (Find.latitude r) (Find.longitude r).
Proof.
  unfold Find.find_venue_with_places_findplace, Find.http_get_json.
  unfold_m.
  destruct (net s _) as [data|e] eqn:Hnet; simpl;
    [|intros Heq; inversion Heq; subst; discriminate].
  repeat (simpl in *;
          first [ match goal with
                  | |- context [Find.place_details net key ?p ?s0] =>
                      destruct (Find.place_details net key p s0)
                        as [[[d|]|e] s1] eqn:Ed
                  end
                | split_match ]);
    intros Heq; inversion Heq; subst; simpl; try discriminate; intros _.
  all: apply (read_last_extend _ [FindSpec.findplace_request key q]).
  all: exact (fd_place_details_last _ _ _ _ Ed).
Qed.

Lemma fd_city_location_log city s :
  exists o l, Find.city_location net key city s = (Ok o, s ++ l).
Proof.
  unfold Find.city_location.
  destruct city as [c0|]; [destruct (PyStr.nonempty c0)|].
  2,3: exists None, []; rewrite app_nil_r; reflexivity.
  unfold bind.
  destruct (fd_geocode_venue_run net key c0 s) as (r & E & _). rewrite E.
  destruct (_ && _); do 2 eexists; reflexivity.
Qed.

(** The same for the resolver of [find.py]. *)
Lemma fd_resolve_from a c s r s' :
  Find.get_venue_location net key a c s = (Ok r, s') ->
  r = Find.failure "skipped-empty" "none"
  \/ exists l0,
       (exists q,
          Find.find_venue_with_places_findplace net key q (s ++ l0)
          = (Ok r, s'))
       \/ (exists pid d src,
             Find.place_details net key pid (s ++ l0) = (Ok (Some d), s')
             /\ r = Find.set_source d src)
       \/ (exists q, Find.geocode_venue net key q (s ++ l0) = (Ok r, s')).
Proof.
  unfold Find.get_venue_location.
  destruct (negb _ && negb _).
  { intros Heq; inversion Heq; auto. }
  unfold bind at 1.
  destruct (fd_findplace_run net key
              (Find.build_query (Find.clean_cell a) (Find.clean_cell c)) s)
    as (r1 & l1 & E1 & _). rewrite E1.
  destruct (_ && _).
  { intros Heq; inversion Heq; subst. right. exists []. left.
    eexists. rewrite app_nil_r. exact E1. }
  unfold bind at 1.
  destruct (fd_city_location_log (Find.clean_cell c) (s ++ l1))
    as (loc & lc & E2). rewrite E2.
  unfold bind at 1.
  destruct (fd_text_search_run net key
              (Find.build_query (Find.clean_cell a) (Find.clean_cell c)) loc
              50000 (Some "tourist_attraction") ((s ++ l1) ++ lc))
    as (op & rq & E3 & _).
  rewrite E3. destruct op as [pid|e3]; [|discriminate].
  assert (H3 : ((s ++ l1) ++ lc) ++ [rq] = s ++ (l1 ++ lc ++ [rq]))
    by (rewrite <- !app_assoc; reflexivity).
  rewrite H3.
  destruct (Py.truthy pid).
  2:{ intros Heq. right. eexists. eauto. }
  unfold bind at 1.
  destruct (Find.place_details net key pid (s ++ l1 ++ lc ++ [rq]))
    as [[[d|]|e4] s4] eqn:E4; [| |discriminate].
  - assert (H4 : s4 = s ++ (l1 ++ lc ++ [rq; FindSpec.details_request key pid])).
    { destruct (fd_place_details_run net key pid (s ++ l1 ++ lc ++ [rq]))
        as (o & E & _). rewrite E in E4. inversion E4; subst.
      rewrite <- !app_assoc. reflexivity. }
    destruct (String.eqb (Find.status d) "success"); simpl.
    + destruct (Find.is_low_quality_address _);
        intros Heq; inversion Heq; subst; right;
        eexists; right; left; eauto.
    + rewrite H4. intros Heq. right. eexists. eauto.
  - assert (H4 : s4 = s ++ (l1 ++ lc ++ [rq; FindSpec.details_request key pid])).
    { destruct (fd_place_details_run net key pid (s ++ l1 ++ lc ++ [rq]))
        as (o & E & _). rewrite E in E4. inversion E4; subst.
      rewrite <- !app_assoc. reflexivity. }
    rewrite H4. intros Heq. right. eexists. eauto.
Qed.

Lemma fd_resolve_last a c s r s' :
  Find.get_venue_location net key a c s = (Ok r, s') ->
  Find.status r = "success" ->
  read_last net s s' (Find.latitude r) (Find.longitude r).
Proof.
  intros Hrun Hs.
  destruct (fd_resolve_from _ _ _ _ _ Hrun)
    as [->|(l0 & [(q & Hr)|[(pid & d & src & Hr & ->)|(q & Hr)]])].
  - discriminate Hs.
  - apply (read_last_extend _ l0). exact (fd_findplace_last _ _ _ _ Hr Hs).
  - apply (read_last_extend _ l0). exact (fd_place_details_last _ _ _ _ Hr).
  - apply (read_last_extend _ l0). exact (fd_geocode_venue_last _ _ _ _ Hr Hs).
Qed.

(** C2, as the code has it: a result whose status is not ["success"] has no
    latitude and no longitude; a result whose status is ["success"] has as
    latitude and longitude the values found under [lat] and [lng] of the
    location object of the body that answered the last request of the run
    ([None] for a member that the body lacks), and these are numeric
    provided the provider's bodies carry numbers under [lat] and [lng]
    wherever they carry a location.  This holds of every result dict
    returned by an adapter or by the resolver, in both scripts. *)
Theorem C2_coordinates_follow_status :
  (forall (r : GeocodeJson.result) (s s' : GeocodeJson.world),
     GeocodeJsonSpec.returned net key r s s' ->
     (GeocodeJson.status r <> "success" ->
      GeocodeJson.latitude r = PNone /\ GeocodeJson.longitude r = PNone)
     /\ (GeocodeJson.status r = "success" ->
         read_last net (GeocodeJson.calls s) (GeocodeJson.calls s')
           (GeocodeJson.latitude r) (GeocodeJson.longitude r))
     /\ (numeric_transport net ->
         GeocodeJson.status r = "success" ->
         numeric (GeocodeJson.latitude r) = true
         /\ numeric (GeocodeJson.longitude r) = true))
  /\ (forall (r : Find.result) (s s' : Find.world),
        FindSpec.returned net key r s s' ->
        (Find.status r <> "success" ->
         Find.latitude r = PNone /\ Find.longitude r = PNone)
        /\ (Find.status r = "success" ->
            read_last net s s' (Find.latitude r) (Find.longitude r))
        /\ (numeric_transport net ->
            Find.status r = "success" ->
            numeric (Find.latitude r) = true
            /\ numeric (Find.longitude r) = true)).
Proof.
  split.
  - assert (Hdet : forall pid s d s',
              GeocodeJson.place_details net key pid s = (Ok (Some d), s') ->
              GeocodeJson.status d = "success").
    { intros pid s d s' Hrun.
      destruct (gj_place_details_run net key pid s) as (o & E & Hd).
      rewrite E in Hrun. inversion Hrun; subst. apply (Hd d eq_refl). }
    assert (Hfp : forall q s r s',
              GeocodeJson.findplace_then_details net key q s = (Ok r, s') ->
              GeocodeJson.status r <> "success" ->
              GeocodeJson.latitude r = PNone /\ GeocodeJson.longitude r = PNone).
    { intros q s r s' Hrun.
      destruct (gj_findplace_run net key q s) as (r0 & l & E & _ & Hx & _).
      rewrite E in Hrun. inversion Hrun; subst. exact Hx. }
    assert (Hgc : forall q s r s',
              GeocodeJson.geocode_fallback net key q s = (Ok r, s') ->
              GeocodeJson.status r <> "success" ->
              GeocodeJson.latitude r = PNone /\ GeocodeJson.longitude r = PNone).
    { intros q s r s' Hrun.
      destruct (gj_geocode_fallback_run net key q s) as (r0 & E & _ & Hx).
      rewrite E in Hrun. inversion Hrun; subst. exact Hx. }
    intros r s s' [(pid & Hrun)|[(q & Hrun)|[(q & Hrun)|(a & c & Hrun)]]].
    + split; [intros Hne; exfalso; apply Hne; eauto|].
      split; [intros _; exact (gj_place_details_last _ _ _ _ Hrun)|].
      intros Hn _. eapply gj_place_details_numeric; eassumption.
    + split; [eauto|].
      split; [exact (gj_findplace_last _ _ _ _ Hrun)|].
      intros Hn. eapply gj_findplace_numeric; eassumption.
    + split; [eauto|].
      split; [exact (gj_geocode_fallback_last _ _ _ _ Hrun)|].
      intros Hn. eapply gj_geocode_fallback_numeric; eassumption.
    + split; [|split; [exact (gj_resolve_last _ _ _ _ _ Hrun)|]];
        destruct (gj_resolve_origin _ _ _ _ _ Hrun)
          as [->|[(q & s0 & s1 & Hr)|[(pid & s0 & s1 & d & src & Hr & ->)
             |(q & s0 & s1 & Hr)]]].
      * auto.
      * eauto.
      * simpl. intros Hne; exfalso; apply Hne; eauto.
      * eauto.
      * intros _ Hs. discriminate Hs.
      * intros Hn. eapply gj_findplace_numeric; eassumption.
      * simpl. intros Hn _. eapply gj_place_details_numeric; eassumption.
      * intros Hn. eapply gj_geocode_fallback_numeric; eassumption.
  - assert (Hdet : forall pid s d s',
              Find.place_details net key pid s = (Ok (Some d), s') ->
              Find.status d = "success").
    { intros pid s d s' Hrun.
      destruct (fd_place_details_run net key pid s) as (o & E & Hd).
      rewrite E in Hrun. inversion Hrun; subst. apply (Hd d eq_refl). }
    assert (Hfp : forall q s r s',
              Find.find_venue_with_places_findplace net key q s = (Ok r, s') ->
              Find.status r <> "success" ->
              Find.latitude r = PNone /\ Find.longitude r = PNone).
    { intros q s r s' Hrun.
      destruct (fd_findplace_run net key q s) as (r0 & l & E & _ & Hx & _).
      rewrite E in Hrun. inversion Hrun; subst. exact Hx. }
    assert (Hgc : forall q s r s',
              Find.geocode_venue net key q s = (Ok r, s') ->
              Find.status r <> "success" ->
              Find.latitude r = PNone /\ Find.longitude r = PNone).
    { intros q s r s' Hrun.
      destruct (fd_geocode_venue_run net key q s) as (r0 & E & _ & Hx).
      rewrite E in Hrun. inversion Hrun; subst. exact Hx. }
    intros r s s' [(pid & Hrun)|[(q & Hrun)|[(q & Hrun)|(a & c & Hrun)]]].
    + split; [intros Hne; exfalso; apply Hne; eauto|].
      split; [intros _; exact (fd_place_details_last _ _ _ _ Hrun)|].
      intros Hn _. eapply fd_place_details_numeric; eassumption.
    + split; [eauto|].
      split; [exact (fd_findplace_last _ _ _ _ Hrun)|].
      intros Hn. eapply fd_findplace_numeric; eassumption.
    + split; [eauto|].
      split; [exact (fd_geocode_venue_last _ _ _ _ Hrun)|].
      intros Hn. eapply fd_geocode_venue_numeric; eassumption.
    + split; [|split; [exact (fd_resolve_last _ _ _ _ _ Hrun)|]];
        destruct (fd_resolve_origin _ _ _ _ _ Hrun)
          as [->|[(q & s0 & s1 & Hr)|[(pid & s0 & s1 & d & src & Hr & ->)
             |(q & s0 & s1 & Hr)]]].
      * auto.
      * eauto.
      * simpl. intros Hne; exfalso; apply Hne; eauto.
      * eauto.
      * intros _ Hs. discriminate Hs.
      * intros Hn. eapply fd_findplace_numeric; eassumption.
      * simpl. intros Hn _. eapply fd_place_details_numeric; eassumption.
      * intros Hn. eapply fd_geocode_venue_numeric; eassumption.
Qed.



(** The slip behind C1, in general: an exception raised by the text search
    of tier 2 is the outcome of the resolver. *)
Lemma gj_text_search_exception_escapes attraction_name city_name e s s1 s2 s3
    city_loc :
  let query := GeocodeJsonSpec.query_of attraction_name city_name in
  GeocodeJsonSpec.not_skipped attraction_name city_name ->
  GeocodeJsonSpec.tier1_rejected net key query s s1 ->
  GeocodeJson.city_location net key (GeocodeJson.clean_cell city_name) s1
  = (Ok city_loc, s2) ->
  GeocodeJson.places_text_search_place_id net key query city_loc
    GeocodeJson.CITY_TEXTSEARCH_RADIUS_M (Some GeocodeJson.PLACES_TYPE) s2
  = (Raise e, s3) ->
  GeocodeJson.resolve_attraction net key attraction_name city_name s
  = (Raise e, s3).
Proof.
  intros query Hpresent (r1 & Hrun & Hrej) Hloc Hts.
  unfold GeocodeJson.resolve_attraction.
  unfold GeocodeJsonSpec.not_skipped in Hpresent. rewrite Hpresent.
  fold (GeocodeJsonSpec.query_of attraction_name city_name). fold query.
  unfold bind at 1. rewrite Hrun, Hrej.
  unfold bind at 1. rewrite Hloc. unfold bind at 1. rewrite Hts. reflexivity.
Qed.

End Resolver.

(* ===================================================================== *)
(** ** The scenarios, run *)
(* ===================================================================== *)

Import Scenario.

(** C1, at the failing input: tier 1 finds nothing and the text search
    request times out; the exception leaves the resolver of either script
    instead of becoming a status string. *)
Theorem C1_text_search_timeout_escapes :
  fst (GeocodeJson.resolve_attraction net_text_search_timeout key
         (SStr "Louvre") SNone start)
  = Raise (HTTPError "Read timed out.")
  /\ fst (Find.get_venue_location net_text_search_timeout key
            (SStr "Louvre") SNone [])
     = Raise (HTTPError "Read timed out.").
Proof. split; vm_compute; reflexivity. Qed.

Lemma by_url_numeric table :
  (forall u o, In (u, o) table ->
     match o with
     | Ok data => details_numeric data = true /\ geocode_numeric data = true
     | Raise _ => True
     end) ->
  numeric_transport (by_url table).
Proof.
  intros Htable h url params data. unfold by_url. simpl.
  induction table as [|[u o] table IH]; simpl.
  - intros Heq; inversion Heq; subst. split; reflexivity.
  - destruct (String.eqb u url).
    + intros ->. specialize (Htable u (Ok data) (or_introl eq_refl)).
      simpl in Htable. tauto.
    + apply IH. intros u' o' Hin. apply (Htable u' o'). right. exact Hin.
Qed.

Lemma net_street_numeric : numeric_transport net_street.
Proof.
  apply by_url_numeric. intros u o [Heq|[Heq|[]]]; inversion Heq; subst;
    split; reflexivity.
Qed.

(** The input on which C2 as stated fails: Place Details answers OK with
    an empty location, and tier 1 returns ["success"] with no coordinates. *)
Lemma C2_success_without_coordinates :
  exists r s',
    GeocodeJson.resolve_attraction net_no_coords key
      (SStr "Royal Palace") (SStr "Amsterdam") start = (Ok r, s')
    /\ GeocodeJson.status r = "success"
    /\ GeocodeJson.latitude r = PNone
    /\ GeocodeJson.longitude r = PNone
    /\ numeric (GeocodeJson.latitude r) = false.
Proof. do 2 eexists. split; [vm_compute; reflexivity|]. repeat split. Qed.

(** C2 on the street-level scenario, in both scripts: the coordinates are
    those of the Place Details body, 52.5 and 4.75. *)
Lemma C2_witness :
  (exists r s',
     GeocodeJson.resolve_attraction net_street key
       (SStr "Royal Palace") (SStr "Amsterdam") start = (Ok r, s')
     /\ read_last net_street [] (GeocodeJson.calls s')
          (GeocodeJson.latitude r) (GeocodeJson.longitude r)
     /\ numeric (GeocodeJson.latitude r) = true
     /\ numeric (GeocodeJson.longitude r) = true)
  /\ (exists r s',
        Find.get_venue_location net_street key
          (SStr "Royal Palace") (SStr "Amsterdam") [] = (Ok r, s')
        /\ read_last net_street [] s' (Find.latitude r) (Find.longitude r)
        /\ numeric (Find.latitude r) = true
        /\ numeric (Find.longitude r) = true).
Proof.
  destruct (C2_coordinates_follow_status net_street key) as [HG HF].
  split.
  - destruct (GeocodeJson.resolve_attraction net_street key
                (SStr "Royal Palace") (SStr "Amsterdam") start)
      as [o s'] eqn:E.
    assert (Ho : exists r, o = Ok r /\ GeocodeJson.status r = "success").
    { vm_compute in E. inversion E; subst. eexists. split; reflexivity. }
    destruct Ho as (r & -> & Hs). exists r, s'. split; [reflexivity|].
    destruct (HG r start s') as (_ & Hlast & Hnum).
    { do 3 right. exists (SStr "Royal Palace"), (SStr "Amsterdam"). exact E. }
    split; [exact (Hlast Hs)|]. exact (Hnum net_street_numeric Hs).
  - destruct (Find.get_venue_location net_street key
                (SStr "Royal Palace") (SStr "Amsterdam") [])
      as [o s'] eqn:E.
    assert (Ho : exists r, o = Ok r /\ Find.status r = "success").
    { vm_compute in E. inversion E; subst. eexists. split; reflexivity. }
    destruct Ho as (r & -> & Hs). exists r, s'. split; [reflexivity|].
    destruct (HF r [] s') as (_ & Hlast & Hnum).
    { do 3 right. exists (SStr "Royal Palace"), (SStr "Amsterdam"). exact E. }
    split; [exact (Hlast Hs)|]. exact (Hnum net_street_numeric Hs).
Defined.


(** A lookup that failed is tried again and can succeed: the first
    geocoding request times out, the second is answered. *)
Example gj_city_lookup_retried :
  exists s1 s2,
    GeocodeJson.get_city_latlng net_geocode_recovers key "Amsterdam" start
    = (Ok None, s1)
    /\ GeocodeJson.city_cache s1 = ∅
    /\ GeocodeJson.get_city_latlng net_geocode_recovers key "Amsterdam" s1
       = (Ok (Some (f52_5, f4_75)), s2)
    /\ GeocodeJson.city_cache s2 !! "Amsterdam" = Some (f52_5, f4_75)
    /\ geocode_count "Amsterdam" (GeocodeJson.calls s2) = 2%nat.
Proof.
  do 2 eexists. split; [vm_compute; reflexivity|].
  split; [reflexivity|]. split; [vm_compute; reflexivity|].
  split; vm_compute; reflexivity.
Qed.


(** C4 on the street-level scenario, in both scripts. *)
Lemma C4_witness :
  (exists r1 s1,
     GeocodeJson.resolve_attraction net_street key
       (SStr "Royal Palace") (SStr "Amsterdam") start = (Ok r1, s1)
     /\ GeocodeJson.source r1 = "places_findplace"
     /\ GeocodeJson.city_cache s1 = ∅
     /\ length (GeocodeJson.calls s1) = 2%nat)
  /\ (exists r1 s1,
        Find.get_venue_location net_street key
          (SStr "Royal Palace") (SStr "Amsterdam") [] = (Ok r1, s1)
        /\ Find.source r1 = "places_findplace"
        /\ length s1 = 2%nat).
Proof.
  destruct (C4_tier1_early_return net_street key) as [HG HF].
  split.
  - edestruct (HG (SStr "Royal Palace") (SStr "Amsterdam") start)
      as (Hrun & Hcache & pid & Hcalls);
      [reflexivity | vm_compute; reflexivity | reflexivity | reflexivity |].
    do 2 eexists. split; [exact Hrun|]. split; [reflexivity|].
    split; [exact Hcache|]. rewrite Hcalls. reflexivity.
  - edestruct (HF (SStr "Royal Palace") (SStr "Amsterdam") [])
      as (Hrun & pid & Hcalls);
      [reflexivity | vm_compute; reflexivity | reflexivity | reflexivity |].
    do 2 eexists. split; [exact Hrun|]. split; [reflexivity|].
    rewrite Hcalls. reflexivity.
Defined.

(** C5 on a text search whose details carry a city-level address. *)
Lemma C5_witness :
  (exists r s',
     GeocodeJson.resolve_attraction net_text_search key
       (SStr "Royal Palace") (SStr "Amsterdam") start = (Ok r, s')
     /\ GeocodeJson.source r = "places_textsearch_low_quality"
     /\ GeocodeJson.latitude r = PFloat f52_5)
  /\ (exists r s',
        Find.get_venue_location net_text_search key
          (SStr "Royal Palace") (SStr "Amsterdam") [] = (Ok r, s')
        /\ Find.source r = "places_textsearch_low_quality"
        /\ Find.latitude r = PFloat f52_5).
Proof.
  destruct (C5_tier2_details_kept net_text_search key) as [HG HF].
  split.
  - do 2 eexists. split.
    + eapply (HG (SStr "Royal Palace") (SStr "Amsterdam") (PStr "p2") start).
      * reflexivity.
      * do 3 eexists. split; [eexists; split; [vm_compute; reflexivity|reflexivity]|].
        split; vm_compute; reflexivity.
      * reflexivity.
      * vm_compute; reflexivity.
      * reflexivity.
    + split; reflexivity.
  - do 2 eexists. split.
    + eapply (HF (SStr "Royal Palace") (SStr "Amsterdam") (PStr "p2") []).
      * reflexivity.
      * do 3 eexists. split; [eexists; split; [vm_compute; reflexivity|reflexivity]|].
        split; vm_compute; reflexivity.
      * reflexivity.
      * vm_compute; reflexivity.
      * reflexivity.
    + split; reflexivity.
Defined.

(** C6 on a provider where neither place tier finds a candidate. *)
Lemma C6_witness :
  (exists r s',
     GeocodeJson.resolve_attraction net_geocode_only key
       (SStr "Royal Palace") (SStr "Amsterdam") start = (Ok r, s')
     /\ GeocodeJson.source r = "geocoding_api")
  /\ (exists r s',
        Find.get_venue_location net_geocode_only key
          (SStr "Royal Palace") (SStr "Amsterdam") [] = (Ok r, s')
        /\ Find.source r = "geocoding_api").
Proof.
  destruct (C6_no_candidate_falls_back net_geocode_only key) as [HG HF].
  split.
  - edestruct (HG (SStr "Royal Palace") (SStr "Amsterdam") PNone start)
      as (r & s4 & _ & Hrun & Hsrc).
    + reflexivity.
    + do 3 eexists. split; [eexists; split; [vm_compute; reflexivity|reflexivity]|].
      split; vm_compute; reflexivity.
    + reflexivity.
    + eauto.
  - edestruct (HF (SStr "Royal Palace") (SStr "Amsterdam") PNone [])
      as (r & s4 & _ & Hrun & Hsrc).
    + reflexivity.
    + do 3 eexists. split; [eexists; split; [vm_compute; reflexivity|reflexivity]|].
      split; vm_compute; reflexivity.
    + reflexivity.
    + eauto.
Defined.

(** C8 on a blank venue name and no city. *)
Lemma C8_witness :
  (exists r,
     GeocodeJson.resolve_attraction net_street key (SStr "  ") SNone start
     = (Ok r, start)
     /\ GeocodeJson.status r = "skipped-empty")
  /\ (exists r,
        Find.get_venue_location net_street key (SStr "  ") SNone [] = (Ok r, [])
        /\ Find.status r = "skipped-empty").
Proof.
  destruct (C8_skipped_empty net_street key) as [HG HF].
  split.
  - destruct (HG (SStr "  ") SNone start eq_refl eq_refl) as (r & Hrun & Hst & _).
    eauto.
  - destruct (HF (SStr "  ") SNone [] eq_refl eq_refl) as (r & Hrun & Hst & _).
    eauto.
Defined.

(** C9 on a candidate whose details are refused. *)
Lemma C9_witness :
  (exists r s',
     GeocodeJson.resolve_attraction net_details_refused key
       (SStr "Royal Palace") (SStr "Amsterdam") start = (Ok r, s')
     /\ GeocodeJson.source r = "geocoding_api")
  /\ (exists r s',
        Find.get_venue_location net_details_refused key
          (SStr "Royal Palace") (SStr "Amsterdam") [] = (Ok r, s')
        /\ Find.source r = "geocoding_api").
Proof.
  destruct (C9_details_refused_falls_back net_details_refused key) as [HG HF].
  split.
  - edestruct (HG (SStr "Royal Palace") (SStr "Amsterdam") (PStr "p2") start)
      as (r & s5 & _ & Hrun & Hsrc).
    + reflexivity.
    + do 3 eexists. split; [eexists; split; [vm_compute; reflexivity|reflexivity]|].
      split; vm_compute; reflexivity.
    + reflexivity.
    + vm_compute; reflexivity.
    + eauto.
  - edestruct (HF (SStr "Royal Palace") (SStr "Amsterdam") (PStr "p2") [])
      as (r & s5 & _ & Hrun & Hsrc).
    + reflexivity.
    + do 3 eexists. split; [eexists; split; [vm_compute; reflexivity|reflexivity]|].
      split; vm_compute; reflexivity.
    + reflexivity.
    + vm_compute; reflexivity.
    + eauto.
Defined.

(** C10 on [nan] between an em space and an ideographic space, and on
    ["NaN"]. *)
Lemma C10_witness :
  (GeocodeJson.clean_cell (SStr (PyStr.encode [8195; 110; 97; 110; 12288]))
   = None
   /\ Find.clean_cell (SStr (PyStr.encode [8195; 110; 97; 110; 12288]))
      = None)
  /\ GeocodeJson.resolve_attraction net_street key (SStr "NaN") SNone start
     = (Ok (GeocodeJson.failure "skipped-empty" "none"), start)
  /\ Find.get_venue_location net_street key (SStr "NaN") SNone []
     = (Ok (Find.failure "skipped-empty" "none"), []).
Proof.
  destruct (C10_nan_is_absent net_street key) as [Hclean Hrun].
  split.
  - destruct (Hclean (SStr (PyStr.encode [8195; 110; 97; 110; 12288])))
      as [Hiff Hagree].
    assert (Hnone : GeocodeJson.clean_cell
                      (SStr (PyStr.encode [8195; 110; 97; 110; 12288]))
                    = None).
    { apply Hiff. right; right. exists "nan". split; [left; reflexivity|].
      exists (PyStr.encode [8195]), (PyStr.encode [12288]).
      split; [vm_compute; reflexivity|].
      split; intros c Hc; vm_compute in Hc; destruct Hc as [<-|[]];
        reflexivity. }
    split; [exact Hnone|rewrite Hagree; exact Hnone].
  - destruct (Hrun "NaN" (or_introl eq_refl)) as [HG HF].
    split; [apply HG|apply HF].
Defined.

(* ===================================================================== *)
(** ** Further properties: the normalizer *)
(* ===================================================================== *)

Section NormalForm.
Context `{PyRuntime}.

Lemma clean_cell_text s :
  GeocodeJson.clean_cell (SStr s)
  = (if negb (PyStr.nonempty (PyStr.strip s))
        || String.eqb (PyStr.lower (PyStr.strip s)) "nan"
     then None else Some (PyStr.strip s)).
Proof. reflexivity. Qed.

Lemma clean_cell_stripped x s :
  GeocodeJson.clean_cell x = Some s ->
  exists t, s = PyStr.strip t
            /\ PyStr.nonempty s = true
            /\ String.eqb (PyStr.lower s) "nan" = false.
Proof.
  intros Hx.
  assert (Hgen : (if pd_isna x then None
                  else
                    let t := PyStr.strip (Py.str (scalar_val x)) in
                    if negb (PyStr.nonempty t)
                       || String.eqb (PyStr.lower t) "nan"
                    then None else Some t) = GeocodeJson.clean_cell x)
    by (destruct x; reflexivity).
  rewrite <- Hgen in Hx. destruct (pd_isna x); [discriminate|].
  cbv zeta in Hx.
  destruct (PyStr.nonempty _) eqn:Hne; [|discriminate]. simpl in Hx.
  destruct (String.eqb _ "nan") eqn:Hnan; [discriminate|].
  inversion Hx; subst. eauto.
Qed.

Lemma clean_cell_fixed x s :
  GeocodeJson.clean_cell x = Some s ->
  s <> "" /\ PyStr.lower s <> "nan"
  /\ PyStr.strip s = s
  /\ GeocodeJson.clean_cell (SStr s) = Some s.
Proof.
  intros Hx. destruct (clean_cell_stripped x s Hx) as (t & -> & Hne & Hnan).
  split; [intros He; rewrite He in Hne; discriminate|].
  split; [intros He; rewrite He in Hnan; discriminate|].
  split; [apply strip_idempotent|].
  rewrite clean_cell_text, strip_idempotent, Hne, Hnan. reflexivity.
Qed.

(** X1: what [clean_cell] returns is in normal form.  A returned text is
    not empty, begins and ends with a character that is not white space
    (of any script), is not a spelling of [nan], and cleaning it again
    returns it unchanged; in both scripts. *)
Theorem X1_clean_cell_normal_form (x : scalar) (s : string) :
  GeocodeJson.clean_cell x = Some s ->
  s <> ""
  /\ (forall c, first_char s = Some c -> PyStr.isspace c = false)
  /\ (forall c, last_char s = Some c -> PyStr.isspace c = false)
  /\ ~ In s nan_spellings
  /\ GeocodeJson.clean_cell (SStr s) = Some s
  /\ Find.clean_cell x = Some s
  /\ Find.clean_cell (SStr s) = Some s.
Proof.
  intros Hx. destruct (clean_cell_fixed x s Hx) as (Hne & Hnan & Hfix & Hagain).
  split; [exact Hne|].
  split; [intros c; rewrite <- Hfix; apply strip_first|].
  split; [intros c; rewrite <- Hfix; apply strip_last|].
  split; [intros Hs; apply Hnan, lower_nan, Hs|].
  split; [exact Hagain|].
  rewrite !clean_cell_agree. auto.
Qed.

Lemma reclean_name x :
  GeocodeJson.clean_cell (SStr (or_empty (GeocodeJson.clean_cell x)))
  = GeocodeJson.clean_cell x.
Proof.
  destruct (GeocodeJson.clean_cell x) as [s|] eqn:Hx; [|reflexivity].
  destruct (clean_cell_fixed x s Hx) as (Hne & _ & _ & Hagain).
  simpl. destruct s; [contradiction|]. exact Hagain.
Qed.

Lemma reclean_city x :
  GeocodeJson.clean_cell (optional (GeocodeJson.clean_cell x))
  = GeocodeJson.clean_cell x.
Proof.
  destruct (GeocodeJson.clean_cell x) as [s|] eqn:Hx; [|reflexivity].
  apply (clean_cell_fixed x s Hx).
Qed.

End NormalForm.

(* ===================================================================== *)
(** ** Further properties: the batch loops *)
(* ===================================================================== *)

Section Batch.
Context `{PyRuntime} (net : transport) (key : string).

Lemma gj_resolve_recleaned a c s :
  GeocodeJson.resolve_attraction net key
    (SStr (or_empty (GeocodeJson.clean_cell a)))
    (optional (GeocodeJson.clean_cell c)) s
  = GeocodeJson.resolve_attraction net key a c s.
Proof.
  unfold GeocodeJson.resolve_attraction.
  rewrite reclean_name, reclean_city. reflexivity.
Qed.

Lemma fd_resolve_recleaned a c s :
  Find.get_venue_location net key
    (SStr (or_empty (Find.clean_cell a))) (optional (Find.clean_cell c)) s
  = Find.get_venue_location net key a c s.
Proof.
  unfold Find.get_venue_location.
  rewrite !clean_cell_agree, reclean_name, reclean_city. reflexivity.
Qed.

Lemma gj_row_run a c s :
  GeocodeJsonDriver.geocode_venues_excel_row net key a c s
  = (if negb (GeocodeJson.present (GeocodeJson.clean_cell a))
        && negb (GeocodeJson.present (GeocodeJson.clean_cell c))
     then (Ok None, s)
     else
       match GeocodeJson.resolve_attraction net key a c s with
       | (Ok r, s') => (Ok (Some r), s')
       | (Raise e, s') => (Raise e, s')
       end).
Proof.
  unfold GeocodeJsonDriver.geocode_venues_excel_row.
  destruct (negb _ && negb _); [reflexivity|].
  unfold bind. rewrite gj_resolve_recleaned. reflexivity.
Qed.

Lemma fd_row_run a c s :
  FindDriver.geocode_excel_row net key a c s
  = (if negb (Find.present (Find.clean_cell a))
        && negb (Find.present (Find.clean_cell c))
     then (Ok None, s)
     else
       match Find.get_venue_location net key a c s with
       | (Ok r, s') => (Ok (Some r), s')
       | (Raise e, s') => (Raise e, s')
       end).
Proof.
  unfold FindDriver.geocode_excel_row.
  destruct (negb _ && negb _); [reflexivity|].
  unfold bind. rewrite fd_resolve_recleaned. reflexivity.
Qed.

(** X2: the loop cleans the two cells before it calls the resolver, which
    cleans them again; the second cleaning changes nothing.  For a row that
    is not empty, a turn of the loop has the outcome and the final state of
    the resolver called on the raw cells; for an empty row it makes no
    request and leaves the state as it is.  In both scripts. *)
Theorem X2_loop_turn_is_resolver :
  (forall (cell_a cell_b : scalar) (s : GeocodeJson.world),
     (GeocodeJsonSpec.not_skipped cell_a cell_b ->
      GeocodeJsonDriver.geocode_venues_excel_row net key cell_a cell_b s
      = (r <- GeocodeJson.resolve_attraction net key cell_a cell_b ;;
         ret (Some r)) s)
     /\ (GeocodeJson.clean_cell cell_a = None ->
         GeocodeJson.clean_cell cell_b = None ->
         GeocodeJsonDriver.geocode_venues_excel_row net key cell_a cell_b s
         = (Ok None, s)))
  /\ (forall (cell_name cell_city : scalar) (s : Find.world),
        (FindSpec.not_skipped cell_name cell_city ->
         FindDriver.geocode_excel_row net key cell_name cell_city s
         = (r <- Find.get_venue_location net key cell_name cell_city ;;
            ret (Some r)) s)
        /\ (Find.clean_cell cell_name = None ->
            Find.clean_cell cell_city = None ->
            FindDriver.geocode_excel_row net key cell_name cell_city s
            = (Ok None, s))).
Proof.
  split; intros a c s; split.
  - intros Hp. rewrite gj_row_run. unfold GeocodeJsonSpec.not_skipped in Hp.
    rewrite Hp. reflexivity.
  - intros Ha Hc. rewrite gj_row_run, Ha, Hc. reflexivity.
  - intros Hp. rewrite fd_row_run. unfold FindSpec.not_skipped in Hp.
    rewrite Hp. reflexivity.
  - intros Ha Hc. rewrite fd_row_run, Ha, Hc. reflexivity.
Qed.

Lemma present_clean x :
  GeocodeJson.present (GeocodeJson.clean_cell x) = false
  <-> GeocodeJson.clean_cell x = None.
Proof.
  destruct (GeocodeJson.clean_cell x) as [s|] eqn:Hx; simpl; [|tauto].
  destruct (clean_cell_fixed x s Hx) as (Hne & _).
  destruct s; [contradiction|]. simpl. split; discriminate.
Qed.

Lemma rows_empty_iff a c :
  negb (GeocodeJson.present (GeocodeJson.clean_cell a))
  && negb (GeocodeJson.present (GeocodeJson.clean_cell c)) = true
  <-> GeocodeJson.clean_cell a = None /\ GeocodeJson.clean_cell c = None.
Proof.
  rewrite andb_true_iff, !negb_true_iff, !present_clean. tauto.
Qed.

Lemma gj_loop_app rows1 rows2 s :
  GeocodeJsonDriver.geocode_venues_excel_loop net key (rows1 ++ rows2) s
  = match GeocodeJsonDriver.geocode_venues_excel_loop net key rows1 s with
    | (Ok o1, s1) =>
        match GeocodeJsonDriver.geocode_venues_excel_loop net key rows2 s1 with
        | (Ok o2, s2) => (Ok (o1 ++ o2), s2)
        | (Raise e, s2) => (Raise e, s2)
        end
    | (Raise e, s1) => (Raise e, s1)
    end.
Proof.
  revert s. induction rows1 as [|[a c] rows1 IH]; intros s; simpl.
  - unfold ret. destruct (GeocodeJsonDriver.geocode_venues_excel_loop _ _ _ _)
      as [[o2|e] s2]; reflexivity.
  - unfold bind.
    destruct (GeocodeJsonDriver.geocode_venues_excel_row net key a c s)
      as [[o|e] s1]; [|reflexivity].
    rewrite IH.
    destruct (GeocodeJsonDriver.geocode_venues_excel_loop net key rows1 s1)
      as [[o1|e] s2]; [|reflexivity].
    unfold ret. simpl.
    destruct (GeocodeJsonDriver.geocode_venues_excel_loop net key rows2 s2)
      as [[o2|e] s3]; reflexivity.
Qed.

Lemma fd_loop_app rows1 rows2 s :
  FindDriver.geocode_excel_loop net key (rows1 ++ rows2) s
  = match FindDriver.geocode_excel_loop net key rows1 s with
    | (Ok o1, s1) =>
        match FindDriver.geocode_excel_loop net key rows2 s1 with
        | (Ok o2, s2) => (Ok (o1 ++ o2), s2)
        | (Raise e, s2) => (Raise e, s2)
        end
    | (Raise e, s1) => (Raise e, s1)
    end.
Proof.
  revert s. induction rows1 as [|[a c] rows1 IH]; intros s; simpl.
  - unfold ret. destruct (FindDriver.geocode_excel_loop _ _ _ _)
      as [[o2|e] s2]; reflexivity.
  - unfold bind.
    destruct (FindDriver.geocode_excel_row net key a c s)
      as [[o|e] s1]; [|reflexivity].
    rewrite IH.
    destruct (FindDriver.geocode_excel_loop net key rows1 s1)
      as [[o1|e] s2]; [|reflexivity].
    unfold ret. simpl.
    destruct (FindDriver.geocode_excel_loop net key rows2 s2)
      as [[o2|e] s3]; reflexivity.
Qed.

(** X3: when the loop runs to its end, it has one outcome per row, in
    order, and the rows it skipped are exactly those whose two cells both
    clean to absent.  In both scripts. *)
Theorem X3_loop_skips_exactly_empty_rows :
  (forall (rows : list (scalar * scalar)) outs (s s' : GeocodeJson.world),
     GeocodeJsonDriver.geocode_venues_excel_loop net key rows s = (Ok outs, s') ->
     Forall2 (fun row o =>
                o = None <->
                GeocodeJson.clean_cell (fst row) = None
                /\ GeocodeJson.clean_cell (snd row) = None) rows outs)
  /\ (forall (rows : list (scalar * scalar)) outs (s s' : Find.world),
        FindDriver.geocode_excel_loop net key rows s = (Ok outs, s') ->
        Forall2 (fun row o =>
                   o = None <->
                   Find.clean_cell (fst row) = None
                   /\ Find.clean_cell (snd row) = None) rows outs).
Proof.
  split.
  - induction rows as [|[a c] rows IH]; intros outs s s'; simpl.
    + intros Heq; inversion Heq; constructor.
    + unfold bind at 1. rewrite gj_row_run.
      destruct (negb _ && negb _) eqn:Hskip.
      * unfold bind.
        destruct (GeocodeJsonDriver.geocode_venues_excel_loop net key rows s)
          as [[os|e] s1] eqn:E; [|discriminate].
        intros Heq; inversion Heq; subst. constructor; [|eapply IH; eauto].
        simpl. apply rows_empty_iff in Hskip. split; [intros _; exact Hskip|reflexivity].
      * destruct (GeocodeJson.resolve_attraction net key a c s)
          as [[r|e] s1]; [|discriminate].
        unfold bind.
        destruct (GeocodeJsonDriver.geocode_venues_excel_loop net key rows s1)
          as [[os|e] s2] eqn:E; [|discriminate].
        intros Heq; inversion Heq; subst. constructor; [|eapply IH; eauto].
        simpl. split; [discriminate|]. intros Hn.
        apply rows_empty_iff in Hn. congruence.
  - induction rows as [|[a c] rows IH]; intros outs s s'; simpl.
    + intros Heq; inversion Heq; constructor.
    + unfold bind at 1. rewrite fd_row_run, !clean_cell_agree.
      change Find.present with GeocodeJson.present.
      destruct (negb _ && negb _) eqn:Hskip.
      * unfold bind.
        destruct (FindDriver.geocode_excel_loop net key rows s)
          as [[os|e] s1] eqn:E; [|discriminate].
        intros Heq; inversion Heq; subst. constructor; [|eapply IH; eauto].
        simpl. rewrite !clean_cell_agree. apply rows_empty_iff in Hskip.
        split; [intros _; exact Hskip|reflexivity].
      * destruct (Find.get_venue_location net key a c s)
          as [[r|e] s1]; [|discriminate].
        unfold bind.
        destruct (FindDriver.geocode_excel_loop net key rows s1)
          as [[os|e] s2] eqn:E; [|discriminate].
        intros Heq; inversion Heq; subst. constructor; [|eapply IH; eauto].
        simpl. rewrite !clean_cell_agree. split; [discriminate|]. intros Hn.
        apply rows_empty_iff in Hn. congruence.
Qed.

(** X4: an exception that leaves the resolver on one row leaves the loop:
    the batch ends with that exception in the state the failing call left,
    so no later row is processed and no outcome is returned.  In both
    scripts. *)
Theorem X4_loop_aborts_on_exception :
  (forall rows1 rows2 (cell_a cell_b : scalar) outs e
          (s s1 s2 : GeocodeJson.world),
     GeocodeJsonDriver.geocode_venues_excel_loop net key rows1 s = (Ok outs, s1) ->
     GeocodeJsonSpec.not_skipped cell_a cell_b ->
     GeocodeJson.resolve_attraction net key cell_a cell_b s1 = (Raise e, s2) ->
     GeocodeJsonDriver.geocode_venues_excel_loop net key
       (rows1 ++ (cell_a, cell_b) :: rows2) s = (Raise e, s2))
  /\ (forall rows1 rows2 (cell_name cell_city : scalar) outs e
             (s s1 s2 : Find.world),
        FindDriver.geocode_excel_loop net key rows1 s = (Ok outs, s1) ->
        FindSpec.not_skipped cell_name cell_city ->
        Find.get_venue_location net key cell_name cell_city s1 = (Raise e, s2) ->
        FindDriver.geocode_excel_loop net key
          (rows1 ++ (cell_name, cell_city) :: rows2) s = (Raise e, s2)).
Proof.
  split.
  - intros rows1 rows2 a c outs e s s1 s2 Hrun Hp Hraise.
    rewrite gj_loop_app, Hrun. simpl. unfold bind at 1.
    rewrite gj_row_run. unfold GeocodeJsonSpec.not_skipped in Hp.
    rewrite Hp, Hraise. reflexivity.
  - intros rows1 rows2 a c outs e s s1 s2 Hrun Hp Hraise.
    rewrite fd_loop_app, Hrun. simpl. unfold bind at 1.
    rewrite fd_row_run. unfold FindSpec.not_skipped in Hp.
    rewrite Hp, Hraise. reflexivity.
Qed.

End Batch.

(* ===================================================================== *)
(** ** Further properties: the requests of one resolver call *)
(* ===================================================================== *)

Section Traces.
Context `{PyRuntime} (net : transport) (key : string).

Lemma gj_resolve_shape a c s o s' :
  GeocodeJson.resolve_attraction net key a c s = (o, s') ->
  (exists l,
     GeocodeJson.calls s' = GeocodeJson.calls s ++ l
     /\ (l = []
         \/ exists t1 tc t2 t3,
              l = t1 ++ tc ++ t2 ++ t3
              /\ gj_tiers key (GeocodeJson.clean_cell c)
                   (GeocodeJsonSpec.query_of a c) t1 tc t2 t3
              /\ (forall c0, In (GeocodeJsonSpec.geocode_request key c0) tc ->
                             GeocodeJson.city_cache s !! c0 = None)))
  /\ (GeocodeJson.city_cache s' = GeocodeJson.city_cache s
      \/ exists cc p,
           GeocodeJson.clean_cell c = Some cc
           /\ GeocodeJson.city_cache s !! cc = None
           /\ GeocodeJson.city_cache s' = <[cc := p]> (GeocodeJson.city_cache s)).
Proof.
  unfold GeocodeJson.resolve_attraction.
  fold (GeocodeJsonSpec.query_of a c).
  set (q := GeocodeJsonSpec.query_of a c).
  set (city := GeocodeJson.clean_cell c).
  destruct (negb _ && negb _).
  { unfold ret. intros Heq; inversion Heq; subst. split; [|auto].
    exists []. rewrite app_nil_r. auto. }
  unfold bind at 1.
  destruct (gj_findplace_run net key q s) as (r1 & t1 & E1 & _ & _ & Ht1 & _).
  rewrite E1.
  assert (Hfinish : forall (o' : res GeocodeJson.result) s'' tc t2 t3,
    GeocodeJson.calls s'' = GeocodeJson.calls s ++ t1 ++ tc ++ t2 ++ t3 ->
    (GeocodeJson.city_cache s'' = GeocodeJson.city_cache s
     \/ exists cc p, city = Some cc /\ GeocodeJson.city_cache s !! cc = None
          /\ GeocodeJson.city_cache s'' = <[cc := p]> (GeocodeJson.city_cache s)) ->
    (tc = [] \/ exists c0, city = Some c0
                           /\ tc = [GeocodeJsonSpec.geocode_request key c0]
                           /\ GeocodeJson.city_cache s !! c0 = None) ->
    (t2 = []
     \/ exists ts, fst ts = GeocodeJson.url_textsearch
                   /\ (t2 = [ts]
                       \/ exists pid,
                            t2 = [ts; GeocodeJsonSpec.details_request key pid])) ->
    (t3 = [] \/ t3 = [GeocodeJsonSpec.geocode_request key q]) ->
    (t2 = [] -> t3 = []) ->
    (o', s'') = (o, s') ->
    (exists l,
       GeocodeJson.calls s' = GeocodeJson.calls s ++ l
       /\ (l = []
           \/ exists t1 tc t2 t3,
                l = t1 ++ tc ++ t2 ++ t3 /\ gj_tiers key city q t1 tc t2 t3
                /\ (forall c0, In (GeocodeJsonSpec.geocode_request key c0) tc ->
                               GeocodeJson.city_cache s !! c0 = None)))
    /\ (GeocodeJson.city_cache s' = GeocodeJson.city_cache s
        \/ exists cc p,
             city = Some cc
             /\ GeocodeJson.city_cache s !! cc = None
             /\ GeocodeJson.city_cache s' = <[cc := p]> (GeocodeJson.city_cache s))).
  { intros o' s'' tc t2 t3 Hcalls Hcache Htc Ht2 Ht3 H23 Heq.
    inversion Heq; subst. split; [|exact Hcache].
    exists (t1 ++ tc ++ t2 ++ t3). split; [exact Hcalls|].
    right. exists t1, tc, t2, t3. split; [reflexivity|]. split.
    - unfold gj_tiers. repeat split; auto.
      destruct Htc as [->|(c0 & ? & ? & ?)]; eauto.
    - intros c0 Hin. destruct Htc as [->|(c1 & _ & -> & Hnone)]; [destruct Hin|].
      destruct Hin as [Heq'|[]]. inversion Heq'; subst. exact Hnone. }
  destruct (_ && _).
  { unfold ret.
    apply (Hfinish _ _ [] [] []); [|left; reflexivity|auto..].
    simpl. rewrite app_nil_r. reflexivity. }
  unfold bind at 1.
  destruct (gj_city_location_run net key city (GeocodeJsonSpec.log s t1))
    as (oc & s2 & tc & E2 & Hcalls2 & Hcase). rewrite E2.
  simpl in Hcalls2.
  assert (Htc : tc = [] \/ exists c0, city = Some c0
                  /\ tc = [GeocodeJsonSpec.geocode_request key c0]
                  /\ GeocodeJson.city_cache s !! c0 = None).
  { destruct Hcase as [[-> _]|(c0 & Hc0 & -> & Hnone & _)]; eauto. }
  assert (Hcache2 : GeocodeJson.city_cache s2 = GeocodeJson.city_cache s
     \/ exists cc p, city = Some cc /\ GeocodeJson.city_cache s !! cc = None
          /\ GeocodeJson.city_cache s2 = <[cc := p]> (GeocodeJson.city_cache s)).
  { destruct Hcase as [[_ ->]|(c0 & Hc0 & _ & Hnone & [->|[p ->]])]; simpl; eauto 10. }
  destruct oc as [loc|e].
  2:{ apply (Hfinish _ _ tc [] []); [|exact Hcache2|exact Htc|auto..].
      rewrite Hcalls2, !app_nil_r, <- app_assoc. reflexivity. }
  unfold bind at 1.
  destruct (gj_text_search_run net key q loc GeocodeJson.CITY_TEXTSEARCH_RADIUS_M
              (Some GeocodeJson.PLACES_TYPE) s2) as (op & ts & E3 & Hts).
  rewrite E3.
  assert (Hc3 : forall tail,
            GeocodeJson.calls s2 ++ [ts] ++ tail
            = GeocodeJson.calls s ++ t1 ++ tc ++ [ts] ++ tail).
  { intros tail. rewrite Hcalls2, <- !app_assoc. reflexivity. }
  destruct op as [pid|e].
  2:{ apply (Hfinish _ _ tc [ts] []);
        [|exact Hcache2|exact Htc|right; eauto|left; reflexivity|discriminate].
      simpl. rewrite Hcalls2, <- !app_assoc. reflexivity. }
  assert (Hfb : forall t2 s3,
    GeocodeJson.calls s3 = GeocodeJson.calls s ++ t1 ++ tc ++ t2 ->
    GeocodeJson.city_cache s3 = GeocodeJson.city_cache s2 ->
    (t2 = [ts] \/ exists pid, t2 = [ts; GeocodeJsonSpec.details_request key pid]) ->
    GeocodeJson.geocode_fallback net key q s3 = (o, s') ->
    (exists l,
       GeocodeJson.calls s' = GeocodeJson.calls s ++ l
       /\ (l = []
           \/ exists t1 tc t2 t3,
                l = t1 ++ tc ++ t2 ++ t3 /\ gj_tiers key city q t1 tc t2 t3
                /\ (forall c0, In (GeocodeJsonSpec.geocode_request key c0) tc ->
                               GeocodeJson.city_cache s !! c0 = None)))
    /\ (GeocodeJson.city_cache s' = GeocodeJson.city_cache s
        \/ exists cc p,
             city = Some cc
             /\ GeocodeJson.city_cache s !! cc = None
             /\ GeocodeJson.city_cache s' = <[cc := p]> (GeocodeJson.city_cache s))).
  { intros t2 s3 Hcalls3 Hcache3 Ht2.
    destruct (gj_geocode_fallback_run net key q s3) as (r & E5 & _). rewrite E5.
    apply (Hfinish _ _ tc t2 [GeocodeJsonSpec.geocode_request key q]).
    - simpl. rewrite Hcalls3, <- !app_assoc. reflexivity.
    - simpl. rewrite Hcache3. exact Hcache2.
    - exact Htc.
    - right. exists ts. auto.
    - right. reflexivity.
    - intros ->. destruct Ht2 as [?|[? ?]]; discriminate. }
  destruct (Py.truthy pid).
  2:{ apply (Hfb [ts]); auto. simpl. rewrite Hcalls2, <- !app_assoc. reflexivity. }
  unfold bind at 1.
  destruct (gj_place_details_run net key pid (GeocodeJsonSpec.log s2 [ts]))
    as (od & E4 & _). rewrite E4.
  assert (Hc4 : GeocodeJson.calls
                  (GeocodeJsonSpec.log (GeocodeJsonSpec.log s2 [ts])
                     [GeocodeJsonSpec.details_request key pid])
                = GeocodeJson.calls s ++ t1 ++ tc
                  ++ [ts; GeocodeJsonSpec.details_request key pid]).
  { simpl. rewrite Hcalls2, <- !app_assoc. reflexivity. }
  assert (Hret : forall o',
    (o', GeocodeJsonSpec.log (GeocodeJsonSpec.log s2 [ts])
           [GeocodeJsonSpec.details_request key pid]) = (o, s') ->
    (exists l,
       GeocodeJson.calls s' = GeocodeJson.calls s ++ l
       /\ (l = []
           \/ exists t1 tc t2 t3,
                l = t1 ++ tc ++ t2 ++ t3 /\ gj_tiers key city q t1 tc t2 t3
                /\ (forall c0, In (GeocodeJsonSpec.geocode_request key c0) tc ->
                               GeocodeJson.city_cache s !! c0 = None)))
    /\ (GeocodeJson.city_cache s' = GeocodeJson.city_cache s
        \/ exists cc p,
             city = Some cc
             /\ GeocodeJson.city_cache s !! cc = None
             /\ GeocodeJson.city_cache s' = <[cc := p]> (GeocodeJson.city_cache s))).
  { intros o'.
    apply (Hfinish _ _ tc [ts; GeocodeJsonSpec.details_request key pid] []);
      [|exact Hcache2|exact Htc|right; eauto 10|left; reflexivity|discriminate].
    rewrite Hc4, app_nil_r. reflexivity. }
  destruct od as [[d|]|e].
  - destruct (String.eqb (GeocodeJson.status d) "success").
    + destruct (GeocodeJson.is_low_quality_address _); unfold ret; apply Hret.
    + apply (Hfb _ _ Hc4 eq_refl). eauto.
  - apply (Hfb _ _ Hc4 eq_refl). eauto.
  - apply Hret.
Qed.

Lemma fd_city_location_any city s :
  exists o tc,
    Find.city_location net key city s = (Ok o, s ++ tc)
    /\ (tc = [] \/ exists c, city = Some c
                            /\ tc = [FindSpec.geocode_request key c]).
Proof.
  unfold Find.city_location.
  destruct city as [c|]; [destruct (PyStr.nonempty c)|].
  2,3: exists None, []; rewrite app_nil_r; auto.
  unfold bind.
  destruct (fd_geocode_venue_run net key c s) as (r & E & _). rewrite E.
  destruct (_ && _); do 2 eexists; (split; [reflexivity|]); eauto.
Qed.

Lemma fd_resolve_shape a c s o s' :
  Find.get_venue_location net key a c s = (o, s') ->
  exists l,
    s' = s ++ l
    /\ (l = []
        \/ exists t1 tc t2 t3,
             l = t1 ++ tc ++ t2 ++ t3
             /\ fd_tiers key (Find.clean_cell c) (FindSpec.query_of a c)
                  t1 tc t2 t3).
Proof.
  unfold Find.get_venue_location.
  fold (FindSpec.query_of a c).
  set (q := FindSpec.query_of a c).
  set (city := Find.clean_cell c).
  destruct (negb _ && negb _).
  { unfold ret. intros Heq; inversion Heq; subst.
    exists []. rewrite app_nil_r. auto. }
  unfold bind at 1.
  destruct (fd_findplace_run net key q s) as (r1 & t1 & E1 & _ & _ & Ht1 & _).
  rewrite E1.
  assert (Hfinish : forall (o' : res Find.result) s'' tc t2 t3,
    s'' = s ++ t1 ++ tc ++ t2 ++ t3 ->
    (tc = [] \/ exists c0, city = Some c0
                           /\ tc = [FindSpec.geocode_request key c0]) ->
    (t2 = []
     \/ exists ts, fst ts = Find.url_textsearch
                   /\ (t2 = [ts]
                       \/ exists pid, t2 = [ts; FindSpec.details_request key pid])) ->
    (t3 = [] \/ t3 = [FindSpec.geocode_request key q]) ->
    (t2 = [] -> t3 = []) ->
    (o', s'') = (o, s') ->
    exists l,
      s' = s ++ l
      /\ (l = []
          \/ exists t1 tc t2 t3,
               l = t1 ++ tc ++ t2 ++ t3 /\ fd_tiers key city q t1 tc t2 t3)).
  { intros o' s'' tc t2 t3 Hcalls Htc Ht2 Ht3 H23 Heq.
    inversion Heq; subst.
    exists (t1 ++ tc ++ t2 ++ t3). split; [reflexivity|].
    right. exists t1, tc, t2, t3. split; [reflexivity|].
    unfold fd_tiers. auto 10. }
  destruct (_ && _).
  { unfold ret. apply (Hfinish _ _ [] [] []); auto.
    rewrite app_nil_r. reflexivity. }
  unfold bind at 1.
  destruct (fd_city_location_any city (s ++ t1)) as (loc & tc & E2 & Htc).
  rewrite E2.
  unfold bind at 1.
  destruct (fd_text_search_run net key q loc 50000 (Some "tourist_attraction")
              ((s ++ t1) ++ tc)) as (op & ts & E3 & Hts).
  rewrite E3.
  destruct op as [pid|e].
  2:{ apply (Hfinish _ _ tc [ts] []);
        [|exact Htc|right; eauto|left; reflexivity|discriminate].
      rewrite <- !app_assoc. reflexivity. }
  assert (Hfb : forall t2 s3,
    s3 = s ++ t1 ++ tc ++ t2 ->
    (t2 = [ts] \/ exists pid, t2 = [ts; FindSpec.details_request key pid]) ->
    Find.geocode_venue net key q s3 = (o, s') ->
    exists l,
      s' = s ++ l
      /\ (l = []
          \/ exists t1 tc t2 t3,
               l = t1 ++ tc ++ t2 ++ t3 /\ fd_tiers key city q t1 tc t2 t3)).
  { intros t2 s3 Hcalls3 Ht2.
    destruct (fd_geocode_venue_run net key q s3) as (r & E5 & _). rewrite E5.
    apply (Hfinish _ _ tc t2 [FindSpec.geocode_request key q]).
    - rewrite Hcalls3, <- !app_assoc. reflexivity.
    - exact Htc.
    - right. exists ts. auto.
    - right. reflexivity.
    - intros ->. destruct Ht2 as [?|[? ?]]; discriminate. }
  destruct (Py.truthy pid).
  2:{ apply (Hfb [ts]); auto. rewrite <- !app_assoc. reflexivity. }
  unfold bind at 1.
  destruct (fd_place_details_run net key pid (((s ++ t1) ++ tc) ++ [ts]))
    as (od & E4 & _). rewrite E4.
  assert (Hc4 : (((s ++ t1) ++ tc) ++ [ts]) ++ [FindSpec.details_request key pid]
                = s ++ t1 ++ tc ++ [ts; FindSpec.details_request key pid]).
  { rewrite <- !app_assoc. reflexivity. }
  assert (Hret : forall o',
    (o', (((s ++ t1) ++ tc) ++ [ts]) ++ [FindSpec.details_request key pid])
    = (o, s') ->
    exists l,
      s' = s ++ l
      /\ (l = []
          \/ exists t1 tc t2 t3,
               l = t1 ++ tc ++ t2 ++ t3 /\ fd_tiers key city q t1 tc t2 t3)).
  { intros o'.
    apply (Hfinish _ _ tc [ts; FindSpec.details_request key pid] []);
      [|exact Htc|right; eauto 10|left; reflexivity|discriminate].
    rewrite Hc4, app_nil_r. reflexivity. }
  destruct od as [[d|]|e].
  - destruct (String.eqb (Find.status d) "success"); simpl.
    + destruct (Find.is_low_quality_address _); unfold ret; apply Hret.
    + apply (Hfb _ _ Hc4). eauto.
  - apply (Hfb _ _ Hc4). eauto.
  - apply Hret.
Qed.

Lemma url_count_app u l1 l2 :
  url_count u (l1 ++ l2) = (url_count u l1 + url_count u l2)%nat.
Proof. induction l1 as [|rq l1 IH]; simpl; [reflexivity|]. rewrite IH. lia. Qed.

Lemma gj_tiers_bounds city q t1 tc t2 t3 :
  gj_tiers key city q t1 tc t2 t3 ->
  let l := t1 ++ tc ++ t2 ++ t3 in
  (length l <= 6)%nat
  /\ url_count GeocodeJson.url_findplace l = 1%nat
  /\ (url_count GeocodeJson.url_textsearch l <= 1)%nat
  /\ (url_count GeocodeJson.url_details l <= 2)%nat
  /\ (url_count GeocodeJson.url_geocode l <= 2)%nat
  /\ head l = Some (GeocodeJsonSpec.findplace_request key q).
Proof.
  intros (Ht1 & Htc & Ht2 & Ht3 & _). cbv zeta.
  rewrite !length_app, !url_count_app.
  assert (H1 : (length t1 <= 2)%nat
               /\ url_count GeocodeJson.url_findplace t1 = 1%nat
               /\ url_count GeocodeJson.url_textsearch t1 = 0%nat
               /\ (url_count GeocodeJson.url_details t1 <= 1)%nat
               /\ url_count GeocodeJson.url_geocode t1 = 0%nat
               /\ head (t1 ++ tc ++ t2 ++ t3)
                  = Some (GeocodeJsonSpec.findplace_request key q)).
  { destruct Ht1 as [->|[pid ->]]; simpl; repeat split; lia. }
  assert (Hc : (length tc <= 1)%nat
               /\ url_count GeocodeJson.url_findplace tc = 0%nat
               /\ url_count GeocodeJson.url_textsearch tc = 0%nat
               /\ url_count GeocodeJson.url_details tc = 0%nat
               /\ (url_count GeocodeJson.url_geocode tc <= 1)%nat).
  { destruct Htc as [->|(c & _ & ->)]; simpl; repeat split; lia. }
  assert (H2 : (length t2 <= 2)%nat
               /\ url_count GeocodeJson.url_findplace t2 = 0%nat
               /\ (url_count GeocodeJson.url_textsearch t2 <= 1)%nat
               /\ (url_count GeocodeJson.url_details t2 <= 1)%nat
               /\ url_count GeocodeJson.url_geocode t2 = 0%nat).
  { destruct Ht2 as [->|([u p] & Hu & [->|[pid ->]])]; simpl in *; subst;
      simpl; repeat split; lia. }
  assert (H3 : (length t3 <= 1)%nat
               /\ url_count GeocodeJson.url_findplace t3 = 0%nat
               /\ url_count GeocodeJson.url_textsearch t3 = 0%nat
               /\ url_count GeocodeJson.url_details t3 = 0%nat
               /\ (url_count GeocodeJson.url_geocode t3 <= 1)%nat).
  { destruct Ht3 as [->| ->]; simpl; repeat split; lia. }
  destruct H1 as (? & ? & ? & ? & ? & ?), Hc as (? & ? & ? & ? & ?),
           H2 as (? & ? & ? & ? & ?), H3 as (? & ? & ? & ? & ?).
  repeat split; try lia. assumption.
Qed.

Lemma fd_tiers_bounds city q t1 tc t2 t3 :
  fd_tiers key city q t1 tc t2 t3 ->
  let l := t1 ++ tc ++ t2 ++ t3 in
  (length l <= 6)%nat
  /\ url_count Find.url_findplace l = 1%nat
  /\ (url_count Find.url_textsearch l <= 1)%nat
  /\ (url_count Find.url_details l <= 2)%nat
  /\ (url_count Find.url_geocode l <= 2)%nat
  /\ head l = Some (FindSpec.findplace_request key q).
Proof.
  intros (Ht1 & Htc & Ht2 & Ht3 & _). cbv zeta.
  rewrite !length_app, !url_count_app.
  assert (H1 : (length t1 <= 2)%nat
               /\ url_count Find.url_findplace t1 = 1%nat
               /\ url_count Find.url_textsearch t1 = 0%nat
               /\ (url_count Find.url_details t1 <= 1)%nat
               /\ url_count Find.url_geocode t1 = 0%nat
               /\ head (t1 ++ tc ++ t2 ++ t3)
                  = Some (FindSpec.findplace_request key q)).
  { destruct Ht1 as [->|[pid ->]]; simpl; repeat split; lia. }
  assert (Hc : (length tc <= 1)%nat
               /\ url_count Find.url_findplace tc = 0%nat
               /\ url_count Find.url_textsearch tc = 0%nat
               /\ url_count Find.url_details tc = 0%nat
               /\ (url_count Find.url_geocode tc <= 1)%nat).
  { destruct Htc as [->|(c & _ & ->)]; simpl; repeat split; lia. }
  assert (H2 : (length t2 <= 2)%nat
               /\ url_count Find.url_findplace t2 = 0%nat
               /\ (url_count Find.url_textsearch t2 <= 1)%nat
               /\ (url_count Find.url_details t2 <= 1)%nat
               /\ url_count Find.url_geocode t2 = 0%nat).
  { destruct Ht2 as [->|([u p] & Hu & [->|[pid ->]])]; simpl in *; subst;
      simpl; repeat split; lia. }
  assert (H3 : (length t3 <= 1)%nat
               /\ url_count Find.url_findplace t3 = 0%nat
               /\ url_count Find.url_textsearch t3 = 0%nat
               /\ url_count Find.url_details t3 = 0%nat
               /\ (url_count Find.url_geocode t3 <= 1)%nat).
  { destruct Ht3 as [->| ->]; simpl; repeat split; lia. }
  destruct H1 as (? & ? & ? & ? & ? & ?), Hc as (? & ? & ? & ? & ?),
           H2 as (? & ? & ? & ? & ?), H3 as (? & ? & ? & ? & ?).
  repeat split; try lia. assumption.
Qed.

End Traces.

Section Requests.
Context `{PyRuntime} (net : transport) (key : string).

(** X5: the requests of one resolver call come tier by tier and are few.
    Whatever the provider answers and whether the call returns or raises,
    the requests it adds to the log are none (the empty input) or: the Find
    Place request on the query first, at most one Place Details, at most
    one geocoding of the city, at most one Text Search with at most one
    Place Details, and at most one geocoding of the query, in that order; at
    most six requests in all.  In both scripts. *)
Theorem X5_resolver_requests_in_tier_order :
  (forall (a c : scalar) (s s' : GeocodeJson.world) o,
     GeocodeJson.resolve_attraction net key a c s = (o, s') ->
     exists l,
       GeocodeJson.calls s' = GeocodeJson.calls s ++ l
       /\ (length l <= 6)%nat
       /\ (l = []
           \/ exists t1 tc t2 t3,
                l = t1 ++ tc ++ t2 ++ t3
                /\ gj_tiers key (GeocodeJson.clean_cell c)
                     (GeocodeJsonSpec.query_of a c) t1 tc t2 t3))
  /\ (forall (a c : scalar) (s s' : Find.world) o,
        Find.get_venue_location net key a c s = (o, s') ->
        exists l,
          s' = s ++ l
          /\ (length l <= 6)%nat
          /\ (l = []
              \/ exists t1 tc t2 t3,
                   l = t1 ++ tc ++ t2 ++ t3
                   /\ fd_tiers key (Find.clean_cell c)
                        (FindSpec.query_of a c) t1 tc t2 t3)).
Proof.
  split.
  - intros a c s s' o Hrun.
    destruct (gj_resolve_shape net key a c s o s' Hrun) as [(l & Hl & Hshape) _].
    exists l. split; [exact Hl|].
    destruct Hshape as [->|(t1 & tc & t2 & t3 & -> & Ht & _)].
    + split; [simpl; lia|auto].
    + split; [apply (gj_tiers_bounds key _ _ _ _ _ _ Ht)|eauto 10].
  - intros a c s s' o Hrun.
    destruct (fd_resolve_shape net key a c s o s' Hrun) as (l & Hl & Hshape).
    exists l. split; [exact Hl|].
    destruct Hshape as [->|(t1 & tc & t2 & t3 & -> & Ht)].
    + split; [simpl; lia|auto].
    + split; [apply (fd_tiers_bounds key _ _ _ _ _ _ Ht)|eauto 10].
Qed.

Lemma gj_loop_cache rows :
  forall s o s',
    GeocodeJsonDriver.geocode_venues_excel_loop net key rows s = (o, s') ->
    (forall k p, GeocodeJson.city_cache s !! k = Some p ->
                 GeocodeJson.city_cache s' !! k = Some p)
    /\ (forall k, GeocodeJson.city_cache s !! k = None ->
                  is_Some (GeocodeJson.city_cache s' !! k) ->
                  exists row, In row rows
                              /\ GeocodeJson.clean_cell (snd row) = Some k).
Proof.
  induction rows as [|[a c] rows IH]; intros s o s'; simpl.
  - unfold ret. intros Heq; inversion Heq; subst. split; [auto|].
    intros k Hk [p Hp]. congruence.
  - unfold bind at 1. rewrite gj_row_run.
    assert (Hstep : forall o1 s1,
              GeocodeJson.resolve_attraction net key a c s = (o1, s1) ->
              (forall k p, GeocodeJson.city_cache s !! k = Some p ->
                           GeocodeJson.city_cache s1 !! k = Some p)
              /\ (forall k, GeocodeJson.city_cache s !! k = None ->
                            is_Some (GeocodeJson.city_cache s1 !! k) ->
                            GeocodeJson.clean_cell c = Some k)).
    { intros o1 s1 Hrun.
      destruct (gj_resolve_shape net key a c s o1 s1 Hrun)
        as [_ [->|(cc & p & Hcc & Hnone & ->)]].
      - split; [auto|]. intros k Hk [p Hp]. congruence.
      - split.
        + intros k p' Hk. rewrite lookup_insert_ne; [exact Hk|congruence].
        + intros k Hk [p' Hp']. destruct (decide (cc = k)) as [<-|Hne]; [exact Hcc|].
          rewrite lookup_insert_ne in Hp' by exact Hne. congruence. }
    assert (Hrest : forall s1 o2,
              (forall k p, GeocodeJson.city_cache s !! k = Some p ->
                           GeocodeJson.city_cache s1 !! k = Some p) ->
              (forall k, GeocodeJson.city_cache s !! k = None ->
                         is_Some (GeocodeJson.city_cache s1 !! k) ->
                         GeocodeJson.clean_cell c = Some k) ->
              GeocodeJsonDriver.geocode_venues_excel_loop net key rows s1 = (o2, s') ->
              (forall k p, GeocodeJson.city_cache s !! k = Some p ->
                           GeocodeJson.city_cache s' !! k = Some p)
              /\ (forall k, GeocodeJson.city_cache s !! k = None ->
                            is_Some (GeocodeJson.city_cache s' !! k) ->
                            exists row, In row ((a, c) :: rows)
                                        /\ GeocodeJson.clean_cell (snd row) = Some k)).
    { intros s1 o2 Hm1 Hn1 Hloop.
      destruct (IH s1 o2 s' Hloop) as [Hm2 Hn2]. split; [auto|].
      intros k Hk Hs'.
      destruct (GeocodeJson.city_cache s1 !! k) as [p1|] eqn:Hk1.
      - exists (a, c). split; [left; reflexivity|]. apply Hn1; [exact Hk|].
        rewrite Hk1. eauto.
      - destruct (Hn2 k Hk1 Hs') as (row & Hin & Hrow).
        exists row. split; [right; exact Hin|exact Hrow]. }
    destruct (negb _ && negb _).
    + assert (Hsame : forall k, GeocodeJson.city_cache s !! k = None ->
                                is_Some (GeocodeJson.city_cache s !! k) ->
                                GeocodeJson.clean_cell c = Some k).
      { intros k Hk Hs. rewrite Hk in Hs. destruct Hs as [p Hp]. discriminate Hp. }
      unfold bind.
      destruct (GeocodeJsonDriver.geocode_venues_excel_loop net key rows s)
        as [[os|e] s2] eqn:E; intros Heq; inversion Heq; subst;
        exact (Hrest s _ (fun k p Hk => Hk) Hsame E).
    + destruct (GeocodeJson.resolve_attraction net key a c s)
        as [[r|e] s1] eqn:E1; destruct (Hstep _ _ eq_refl) as [Hm1 Hn1].
      * unfold bind.
        destruct (GeocodeJsonDriver.geocode_venues_excel_loop net key rows s1)
          as [[os|e] s2] eqn:E; intros Heq; inversion Heq; subst;
          (eapply Hrest; [exact Hm1|exact Hn1|exact E]).
      * intros Heq; inversion Heq; subst. split; [exact Hm1|].
        intros k Hk Hs'. exists (a, c). split; [left; reflexivity|].
        apply Hn1; assumption.
Qed.

(** X6: the city cache only grows, and only by the city of the call.  One
    resolver call leaves the cache as it was or adds one entry, for the
    cleaned city of that call, which was not cached before; over a whole
    batch no entry is removed or overwritten, and a city that enters the
    cache is the cleaned city of some row.  This holds also when the call
    or the batch ends with an exception. *)
Theorem X6_city_cache_only_grows :
  (forall (a c : scalar) (s s' : GeocodeJson.world) o,
     GeocodeJson.resolve_attraction net key a c s = (o, s') ->
     GeocodeJson.city_cache s' = GeocodeJson.city_cache s
     \/ exists cc p,
          GeocodeJson.clean_cell c = Some cc
          /\ GeocodeJson.city_cache s !! cc = None
          /\ GeocodeJson.city_cache s' = <[cc := p]> (GeocodeJson.city_cache s))
  /\ (forall (rows : list (scalar * scalar)) (s s' : GeocodeJson.world) o,
        GeocodeJsonDriver.geocode_venues_excel_loop net key rows s = (o, s') ->
        (forall k p, GeocodeJson.city_cache s !! k = Some p ->
                     GeocodeJson.city_cache s' !! k = Some p)
        /\ (forall k, GeocodeJson.city_cache s !! k = None ->
                      is_Some (GeocodeJson.city_cache s' !! k) ->
                      exists row, In row rows
                                  /\ GeocodeJson.clean_cell (snd row) = Some k)).
Proof.
  split.
  - intros a c s s' o Hrun. apply (gj_resolve_shape net key a c s o s' Hrun).
  - intros rows s s' o. apply gj_loop_cache.
Qed.

End Requests.

Section CachedBatch.
Context `{PyRuntime} (net : transport) (key : string).

Lemma geocode_count_uncached c p (s : GeocodeJson.world) tc :
  GeocodeJson.city_cache s !! c = Some p ->
  (tc = [] \/ exists c0, tc = [GeocodeJsonSpec.geocode_request key c0]) ->
  (forall c0, In (GeocodeJsonSpec.geocode_request key c0) tc ->
              GeocodeJson.city_cache s !! c0 = None) ->
  geocode_count c tc = 0%nat.
Proof.
  intros Hc [->|[c0 ->]] Hun; [reflexivity|].
  rewrite geocode_count_request. unfold tier3_on.
  destruct (String.eqb_spec c0 c) as [->|Hne]; [|reflexivity].
  rewrite (Hun c (or_introl eq_refl)) in Hc. discriminate.
Qed.

Lemma gj_resolve_cached c p a cell s o s' :
  GeocodeJson.city_cache s !! c = Some p ->
  GeocodeJsonSpec.query_of a cell <> c ->
  GeocodeJson.resolve_attraction net key a cell s = (o, s') ->
  exists l,
    GeocodeJson.calls s' = GeocodeJson.calls s ++ l
    /\ geocode_count c l = 0%nat
    /\ GeocodeJson.city_cache s' !! c = Some p.
Proof.
  intros Hc Hq Hrun.
  destruct (gj_resolve_shape net key a cell s o s' Hrun)
    as [(l & Hl & Hshape) Hcache].
  exists l. split; [exact Hl|]. split.
  - destruct Hshape as [->|(t1 & tc & t2 & t3 & -> & Ht & Hun)]; [reflexivity|].
    destruct Ht as (Ht1 & Htc & Ht2 & Ht3 & _).
    rewrite !geocode_count_app.
    assert (H1 : geocode_count c t1 = 0%nat)
      by (destruct Ht1 as [->|[pid ->]]; reflexivity).
    assert (Hcc : geocode_count c tc = 0%nat).
    { apply (geocode_count_uncached c p s tc Hc); [|exact Hun].
      destruct Htc as [->|(c0 & _ & ->)]; eauto. }
    assert (H2 : geocode_count c t2 = 0%nat).
    { destruct Ht2 as [->|([u ps] & Hu & [->|[pid ->]])]; simpl in *; subst;
        reflexivity. }
    assert (H3 : geocode_count c t3 = 0%nat).
    { destruct Ht3 as [->| ->]; [reflexivity|].
      rewrite geocode_count_request. unfold tier3_on.
      destruct (String.eqb_spec (GeocodeJsonSpec.query_of a cell) c);
        [contradiction|reflexivity]. }
    lia.
  - destruct Hcache as [->|(cc & p' & _ & Hnone & ->)]; [exact Hc|].
    rewrite lookup_insert_ne; [exact Hc|congruence].
Qed.

(** X7: once a city is in the cache, no row of the batch geocodes it again.
    If the cache holds the city at the start of the loop and no row is that
    bare city alone (whose tier 3 would geocode it as the query), then the
    loop, however it ends, sends no geocoding request for the city and
    still holds its entry. *)
Theorem X7_cached_city_is_not_geocoded_again
    (rows : list (scalar * scalar)) (c : string) (p : Z * Z)
    (s s' : GeocodeJson.world) o :
  GeocodeJson.city_cache s !! c = Some p ->
  Forall (fun row => GeocodeJsonSpec.query_of (fst row) (snd row) <> c) rows ->
  GeocodeJsonDriver.geocode_venues_excel_loop net key rows s = (o, s') ->
  exists l,
    GeocodeJson.calls s' = GeocodeJson.calls s ++ l
    /\ geocode_count c l = 0%nat
    /\ GeocodeJson.city_cache s' !! c = Some p.
Proof.
  revert s o s'. induction rows as [|[a cell] rows IH]; intros s o s' Hc Hrows; simpl.
  - unfold ret. intros Heq; inversion Heq; subst. exists [].
    rewrite app_nil_r. auto.
  - inversion Hrows as [|row rest Hq Hrest]; subst. simpl in Hq.
    unfold bind at 1. rewrite gj_row_run.
    assert (Hgo : forall s1 l1 o2,
              GeocodeJson.calls s1 = GeocodeJson.calls s ++ l1 ->
              geocode_count c l1 = 0%nat ->
              GeocodeJson.city_cache s1 !! c = Some p ->
              GeocodeJsonDriver.geocode_venues_excel_loop net key rows s1 = (o2, s') ->
              exists l,
                GeocodeJson.calls s' = GeocodeJson.calls s ++ l
                /\ geocode_count c l = 0%nat
                /\ GeocodeJson.city_cache s' !! c = Some p).
    { intros s1 l1 o2 Hl1 Hc1 Hp1 Hloop.
      destruct (IH s1 o2 s' Hp1 Hrest Hloop) as (l2 & Hl2 & Hc2 & Hp2).
      exists (l1 ++ l2). rewrite Hl2, Hl1, <- app_assoc, geocode_count_app.
      split; [reflexivity|]. split; [lia|exact Hp2]. }
    destruct (negb _ && negb _).
    + unfold bind.
      destruct (GeocodeJsonDriver.geocode_venues_excel_loop net key rows s)
        as [[os|e] s2] eqn:E; intros Heq; inversion Heq; subst;
        apply (Hgo s [] _ (eq_sym (app_nil_r _)) eq_refl Hc E).
    + destruct (GeocodeJson.resolve_attraction net key a cell s)
        as [[r|e] s1] eqn:E1;
        destruct (gj_resolve_cached c p a cell s _ s1 Hc Hq E1)
          as (l1 & Hl1 & Hc1 & Hp1).
      * unfold bind.
        destruct (GeocodeJsonDriver.geocode_venues_excel_loop net key rows s1)
          as [[os|e] s2] eqn:E; intros Heq; inversion Heq; subst;
          apply (Hgo s1 l1 _ Hl1 Hc1 Hp1 E).
      * intros Heq; inversion Heq; subst. eauto.
Qed.

End CachedBatch.

(* ===================================================================== *)
(** ** Further properties: what the resolver returns and raises *)
(* ===================================================================== *)

Section Outcomes.
Context `{PyRuntime} (net : transport) (key : string).

Lemma gj_geocode_status q s r s' :
  GeocodeJson.geocode_fallback net key q s = (Ok r, s') ->
  GeocodeJson.source r = "geocoding_api"
  /\ (GeocodeJson.status r = "success"
      \/ (exists x, GeocodeJson.status r = "Error: " +:+ x)
      \/ (exists x, GeocodeJson.status r = "Exception: " +:+ x)).
Proof.
  unfold GeocodeJson.geocode_fallback, GeocodeJson.http_get_json. unfold_m.
  run; intros Heq; inversion Heq; subst; simpl; split; eauto.
Qed.

Lemma fd_geocode_status q s r s' :
  Find.geocode_venue net key q s = (Ok r, s') ->
  Find.source r = "geocoding_api"
  /\ (Find.status r = "success"
      \/ (exists x, Find.status r = "Error: " +:+ x)
      \/ (exists x, Find.status r = "Exception: " +:+ x)).
Proof.
  unfold Find.geocode_venue, Find.http_get_json. unfold_m.
  run; intros Heq; inversion Heq; subst; simpl; split; eauto.
Qed.

(** X8: the source of a returned result tells how it was obtained.  A
    result of the resolver is one of five kinds: the skipped one (source
    ["none"], status ["skipped-empty"], both fields absent); a tier-1
    success whose address is not city-level (["places_findplace"]); a
    tier-2 success whose address is not city-level (["places_textsearch"])
    or is (["places_textsearch_low_quality"]); or the output of the
    geocoding adapter (["geocoding_api"]), whose status is ["success"] or
    begins with ["Error: "] or ["Exception: "].  So a tier-1 failure record
    (["not_found_in_places:..."]) is never what the resolver returns.  In
    both scripts. *)
Theorem X8_source_tells_the_tier :
  (forall (a c : scalar) (s s' : GeocodeJson.world) (r : GeocodeJson.result),
     GeocodeJson.resolve_attraction net key a c s = (Ok r, s') ->
     let low := GeocodeJson.is_low_quality_address
                  (GeocodeJson.formatted_address r) in
     (r = GeocodeJson.failure "skipped-empty" "none"
      /\ GeocodeJson.clean_cell a = None /\ GeocodeJson.clean_cell c = None)
     \/ (GeocodeJson.source r = "places_findplace"
         /\ GeocodeJson.status r = "success" /\ low = false)
     \/ (GeocodeJson.source r = "places_textsearch"
         /\ GeocodeJson.status r = "success" /\ low = false)
     \/ (GeocodeJson.source r = "places_textsearch_low_quality"
         /\ GeocodeJson.status r = "success" /\ low = true)
     \/ (GeocodeJson.source r = "geocoding_api"
         /\ (GeocodeJson.status r = "success"
             \/ (exists x, GeocodeJson.status r = "Error: " +:+ x)
             \/ (exists x, GeocodeJson.status r = "Exception: " +:+ x))))
  /\ (forall (a c : scalar) (s s' : Find.world) (r : Find.result),
        Find.get_venue_location net key a c s = (Ok r, s') ->
        let low := Find.is_low_quality_address (Find.formatted_address r) in
        (r = Find.failure "skipped-empty" "none"
         /\ Find.clean_cell a = None /\ Find.clean_cell c = None)
        \/ (Find.source r = "places_findplace"
            /\ Find.status r = "success" /\ low = false)
        \/ (Find.source r = "places_textsearch"
            /\ Find.status r = "success" /\ low = false)
        \/ (Find.source r = "places_textsearch_low_quality"
            /\ Find.status r = "success" /\ low = true)
        \/ (Find.source r = "geocoding_api"
            /\ (Find.status r = "success"
                \/ (exists x, Find.status r = "Error: " +:+ x)
                \/ (exists x, Find.status r = "Exception: " +:+ x)))).
Proof.
  split.
  - intros a c s s' r. cbv zeta. unfold GeocodeJson.resolve_attraction.
    destruct (negb _ && negb _) eqn:Hskip.
    { intros Heq; inversion Heq; subst. left. split; [reflexivity|].
      apply rows_empty_iff. exact Hskip. }
    unfold bind at 1.
    destruct (gj_findplace_run net key
                (GeocodeJson.build_query (GeocodeJson.clean_cell a)
                   (GeocodeJson.clean_cell c)) s)
      as (r1 & t1 & E1 & Hsrc1 & _). rewrite E1.
    destruct (String.eqb_spec (GeocodeJson.status r1) "success") as [Hst|Hst];
      [destruct (GeocodeJson.is_low_quality_address
                   (GeocodeJson.formatted_address r1)) eqn:Hlow|]; simpl.
    2:{ intros Heq; inversion Heq; subst. right; left. auto. }
    all: unfold bind at 1;
      destruct (GeocodeJson.city_location net key _ _) as [[loc|e2] s2];
        [|discriminate];
      unfold bind at 1;
      destruct (GeocodeJson.places_text_search_place_id net key _ loc _ _ s2)
        as [[pid|e3] s3]; [|discriminate];
      (destruct (Py.truthy pid);
       [ unfold bind at 1;
         destruct (gj_place_details_run net key pid s3) as (od & E4 & Hd);
         rewrite E4; destruct od as [[d|]|e4]; [| |discriminate];
         [ destruct (Hd d eq_refl) as (Hdst & _); rewrite Hdst; simpl;
           destruct (GeocodeJson.is_low_quality_address
                       (GeocodeJson.formatted_address d)) eqn:Hdl;
           intros Heq; inversion Heq; subst; simpl; rewrite Hdl;
           [do 3 right; left|do 2 right; left]; auto
         | ]
       | ]);
      intros Hg; apply gj_geocode_status in Hg; do 4 right; exact Hg.
  - intros a c s s' r. cbv zeta. unfold Find.get_venue_location.
    destruct (negb _ && negb _) eqn:Hskip.
    { intros Heq; inversion Heq; subst. left. split; [reflexivity|].
      rewrite !clean_cell_agree. apply rows_empty_iff.
      rewrite <- !clean_cell_agree. exact Hskip. }
    unfold bind at 1.
    destruct (fd_findplace_run net key
                (Find.build_query (Find.clean_cell a) (Find.clean_cell c)) s)
      as (r1 & t1 & E1 & Hsrc1 & _). rewrite E1.
    destruct (String.eqb_spec (Find.status r1) "success") as [Hst|Hst];
      [destruct (Find.is_low_quality_address (Find.formatted_address r1))
         eqn:Hlow|]; simpl.
    2:{ intros Heq; inversion Heq; subst. right; left. auto. }
    all: unfold bind at 1;
      destruct (Find.city_location net key _ _) as [[loc|e2] s2];
        [|discriminate];
      unfold bind at 1;
      destruct (Find.places_text_search_place_id net key _ loc _ _ s2)
        as [[pid|e3] s3]; [|discriminate];
      (destruct (Py.truthy pid);
       [ unfold bind at 1;
         destruct (fd_place_details_run net key pid s3) as (od & E4 & Hd);
         rewrite E4; destruct od as [[d|]|e4]; [| |discriminate];
         [ destruct (Hd d eq_refl) as (Hdst & _); rewrite Hdst; simpl;
           destruct (Find.is_low_quality_address (Find.formatted_address d))
             eqn:Hdl;
           simpl; intros Heq; inversion Heq; subst; simpl; rewrite Hdl;
           [do 3 right; left|do 2 right; left]; auto
         | ]
       | ]);
      intros Hg; apply fd_geocode_status in Hg; do 4 right; exact Hg.
Qed.

End Outcomes.

(* ===================================================================== *)
(** ** Further properties: how the adapters map failures *)
(* ===================================================================== *)

Section Mapping.
Context `{PyRuntime} (net : transport) (key : string).

(** X9: the geocoding adapter never raises and always sends exactly one
    request.  An exception of the transport becomes the status
    ["Exception: <text>"]; a body that is not an object becomes the
    ["Exception: ..."] of the attribute error; an object that is not an OK
    body with non-empty results becomes ["Error: <status>"], where a
    missing status prints as ["UNKNOWN"] and an OK body with no results
    prints as ["Error: OK"].  Every such result has source
    ["geocoding_api"] and no coordinates.  In both scripts. *)
Theorem X9_geocoding_failure_statuses (q : string) :
  (forall s : GeocodeJson.world,
     let rq := GeocodeJsonSpec.geocode_request key q in
     let s' := GeocodeJsonSpec.log s [rq] in
     (exists r, GeocodeJson.geocode_fallback net key q s = (Ok r, s'))
     /\ (forall e, net (GeocodeJson.calls s) rq = Raise e ->
           GeocodeJson.geocode_fallback net key q s
           = (Ok (GeocodeJson.failure ("Exception: " +:+ Py.str_exn e)
                    "geocoding_api"), s'))
     /\ (forall data, net (GeocodeJson.calls s) rq = Ok data ->
           (forall d, data <> PDict d) ->
           GeocodeJson.geocode_fallback net key q s
           = (Ok (GeocodeJson.failure
                    ("Exception: " +:+ Py.str_exn (AttributeError data "get"))
                    "geocoding_api"), s'))
     /\ (forall d, net (GeocodeJson.calls s) rq = Ok (PDict d) ->
           ok_with "results" d = false ->
           GeocodeJson.geocode_fallback net key q s
           = (Ok (GeocodeJson.failure
                    ("Error: " +:+ Py.str (status_or_unknown d))
                    "geocoding_api"), s')))
  /\ (forall s : Find.world,
        let rq := FindSpec.geocode_request key q in
        let s' := s ++ [rq] in
        (exists r, Find.geocode_venue net key q s = (Ok r, s'))
        /\ (forall e, net s rq = Raise e ->
              Find.geocode_venue net key q s
              = (Ok (Find.failure ("Exception: " +:+ Py.str_exn e)
                       "geocoding_api"), s'))
        /\ (forall data, net s rq = Ok data ->
              (forall d, data <> PDict d) ->
              Find.geocode_venue net key q s
              = (Ok (Find.failure
                       ("Exception: " +:+ Py.str_exn (AttributeError data "get"))
                       "geocoding_api"), s'))
        /\ (forall d, net s rq = Ok (PDict d) ->
              ok_with "results" d = false ->
              Find.geocode_venue net key q s
              = (Ok (Find.failure
                       ("Error: " +:+ Py.str (status_or_unknown d))
                       "geocoding_api"), s'))).
Proof.
  split; intros s rq s'; subst rq s'.
  - split; [|split; [|split]].
    + destruct (gj_geocode_fallback_run net key q s) as (r & E & _). eauto.
    + intros e Hnet. unfold GeocodeJson.geocode_fallback,
        GeocodeJson.http_get_json, GeocodeJsonSpec.geocode_request in *.
      unfold_m. rewrite Hnet. reflexivity.
    + intros data Hnet Hnd. unfold GeocodeJson.geocode_fallback,
        GeocodeJson.http_get_json, GeocodeJsonSpec.geocode_request in *.
      unfold_m. rewrite Hnet.
      destruct data; try reflexivity. exfalso. eapply Hnd. reflexivity.
    + intros d Hnet Hok. unfold GeocodeJson.geocode_fallback,
        GeocodeJson.http_get_json, GeocodeJsonSpec.geocode_request in *.
      unfold_m. rewrite Hnet. unfold ok_with, status_or_unknown in *. simpl.
      destruct (Py.lookup "status" d) as [v|]; simpl; [|reflexivity].
      destruct (Py.eq_str v "OK"); simpl; [|reflexivity].
      simpl in Hok. destruct (Py.lookup "results" d) as [x|]; simpl.
      * rewrite Hok. reflexivity.
      * reflexivity.
  - split; [|split; [|split]].
    + destruct (fd_geocode_venue_run net key q s) as (r & E & _). eauto.
    + intros e Hnet. unfold Find.geocode_venue,
        Find.http_get_json, FindSpec.geocode_request in *.
      unfold_m. rewrite Hnet. reflexivity.
    + intros data Hnet Hnd. unfold Find.geocode_venue,
        Find.http_get_json, FindSpec.geocode_request in *.
      unfold_m. rewrite Hnet.
      destruct data; try reflexivity. exfalso. eapply Hnd. reflexivity.
    + intros d Hnet Hok. unfold Find.geocode_venue,
        Find.http_get_json, FindSpec.geocode_request in *.
      unfold_m. rewrite Hnet. unfold ok_with, status_or_unknown in *. simpl.
      destruct (Py.lookup "status" d) as [v|]; simpl; [|reflexivity].
      destruct (Py.eq_str v "OK"); simpl; [|reflexivity].
      simpl in Hok. destruct (Py.lookup "results" d) as [x|]; simpl.
      * rewrite Hok. reflexivity.
      * reflexivity.
Qed.

End Mapping.

Section FindPlaceMapping.
Context `{PyRuntime} (net : transport) (key : string).

Lemma ok_with_true k d :
  ok_with k d = true ->
  exists x, Py.lookup "status" d = Some (PStr "OK")
            /\ Py.lookup k d = Some x /\ Py.truthy x = true.
Proof.
  unfold ok_with. destruct (Py.lookup "status" d) as [v|]; [|discriminate].
  destruct v; simpl; try discriminate.
  destruct (String.eqb_spec s "OK") as [->|]; [|discriminate]. simpl.
  destruct (Py.lookup k d) as [x|]; [|discriminate]. eauto.
Qed.

Lemma gj_findplace_candidate q s d pid :
  net (GeocodeJson.calls s) (GeocodeJsonSpec.findplace_request key q)
  = Ok (PDict d) ->
  ok_with "candidates" d = true ->
  first_candidate (PDict d) = Ok pid ->
  GeocodeJson.findplace_then_details net key q s
  = match GeocodeJson.place_details net key pid
            (GeocodeJsonSpec.log s [GeocodeJsonSpec.findplace_request key q]) with
    | (Ok (Some r), s2) =>
        (Ok (GeocodeJson.set_source r "places_findplace"), s2)
    | (Ok None, s2) =>
        (Ok (GeocodeJson.failure "not_found_in_places:OK" "places_findplace"), s2)
    | (Raise e, s2) =>
        (Ok (GeocodeJson.failure ("Exception: " +:+ Py.str_exn e)
               "places_findplace"), s2)
    end.
Proof.
  intros Hnet Hok Hpid.
  destruct (ok_with_true _ _ Hok) as (x & Hst & Hc & Hx).
  remember (GeocodeJson.place_details net key pid
              (GeocodeJsonSpec.log s [GeocodeJsonSpec.findplace_request key q]))
    as pd eqn:Hpd.
  assert (Hsucc : forall r s2, pd = (Ok (Some r), s2) ->
                               GeocodeJson.status r = "success").
  { intros r s2 Heq. rewrite Hpd in Heq.
    destruct (gj_place_details_run net key pid
                (GeocodeJsonSpec.log s [GeocodeJsonSpec.findplace_request key q]))
      as (od & E & Hd).
    rewrite E in Heq. inversion Heq; subst. apply (Hd r eq_refl). }
  unfold GeocodeJson.findplace_then_details, GeocodeJson.http_get_json.
  unfold_m. unfold GeocodeJsonSpec.findplace_request in Hnet. rewrite Hnet.
  unfold first_candidate in Hpid. simpl in Hpid. simpl.
  rewrite Hst, Hc in *. simpl. rewrite Hx. simpl.
  destruct (Py.first x) as [c0|e0]; [|discriminate]. simpl.
  rewrite Hpid.
  match goal with
  | |- context [GeocodeJson.place_details net key pid ?X] =>
      replace (GeocodeJson.place_details net key pid X) with pd
        by (rewrite Hpd; reflexivity)
  end.
  destruct pd as [[[r|]|e] s2]; try reflexivity.
  rewrite (Hsucc r s2 eq_refl). reflexivity.
Qed.

Lemma fd_findplace_candidate q s d pid :
  net s (FindSpec.findplace_request key q) = Ok (PDict d) ->
  ok_with "candidates" d = true ->
  first_candidate (PDict d) = Ok pid ->
  Find.find_venue_with_places_findplace net key q s
  = match Find.place_details net key pid
            (s ++ [FindSpec.findplace_request key q]) with
    | (Ok (Some r), s2) => (Ok (Find.set_source r "places_findplace"), s2)
    | (Ok None, s2) =>
        (Ok (Find.failure "not_found_in_places:OK" "places_findplace"), s2)
    | (Raise e, s2) =>
        (Ok (Find.failure ("Exception: " +:+ Py.str_exn e)
               "places_findplace"), s2)
    end.
Proof.
  intros Hnet Hok Hpid.
  destruct (ok_with_true _ _ Hok) as (x & Hst & Hc & Hx).
  remember (Find.place_details net key pid
              (s ++ [FindSpec.findplace_request key q])) as pd eqn:Hpd.
  assert (Hsucc : forall r s2, pd = (Ok (Some r), s2) ->
                               Find.status r = "success").
  { intros r s2 Heq. rewrite Hpd in Heq.
    destruct (fd_place_details_run net key pid
                (s ++ [FindSpec.findplace_request key q])) as (od & E & Hd).
    rewrite E in Heq. inversion Heq; subst. apply (Hd r eq_refl). }
  unfold Find.find_venue_with_places_findplace, Find.http_get_json.
  unfold_m. unfold FindSpec.findplace_request in Hnet. rewrite Hnet.
  unfold first_candidate in Hpid. simpl in Hpid. simpl.
  rewrite Hst, Hc in *. simpl. rewrite Hx. simpl.
  destruct (Py.first x) as [c0|e0]; [|discriminate]. simpl.
  rewrite Hpid.
  match goal with
  | |- context [Find.place_details net key pid ?X] =>
      replace (Find.place_details net key pid X) with pd
        by (rewrite Hpd; reflexivity)
  end.
  destruct pd as [[[r|]|e] s2]; try reflexivity.
  rewrite (Hsucc r s2 eq_refl). reflexivity.
Qed.

(** X10: tier 1 never raises, and this is how it reports.  An exception of
    the transport on the Find Place request becomes ["Exception: <text>"];
    a body that is not OK with a non-empty candidate list becomes
    ["not_found_in_places:<status>"] after that single request.  When a
    first candidate is found, its details are fetched: a details result is
    returned with source ["places_findplace"]; details refused ([None])
    are reported as ["not_found_in_places:OK"], the status of the search;
    an exception of the details fetch becomes ["Exception: <text>"].  In
    both scripts. *)
Theorem X10_findplace_failure_statuses (q : string) :
  (forall s : GeocodeJson.world,
     let rq := GeocodeJsonSpec.findplace_request key q in
     let s1 := GeocodeJsonSpec.log s [rq] in
     (forall e, net (GeocodeJson.calls s) rq = Raise e ->
        GeocodeJson.findplace_then_details net key q s
        = (Ok (GeocodeJson.failure ("Exception: " +:+ Py.str_exn e)
                 "places_findplace"), s1))
     /\ (forall d, net (GeocodeJson.calls s) rq = Ok (PDict d) ->
           ok_with "candidates" d = false ->
           GeocodeJson.findplace_then_details net key q s
           = (Ok (GeocodeJson.failure
                    ("not_found_in_places:" +:+ Py.str (status_or_unknown d))
                    "places_findplace"), s1))
     /\ (forall d pid, net (GeocodeJson.calls s) rq = Ok (PDict d) ->
           ok_with "candidates" d = true ->
           first_candidate (PDict d) = Ok pid ->
           GeocodeJson.findplace_then_details net key q s
           = match GeocodeJson.place_details net key pid s1 with
             | (Ok (Some r), s2) =>
                 (Ok (GeocodeJson.set_source r "places_findplace"), s2)
             | (Ok None, s2) =>
                 (Ok (GeocodeJson.failure "not_found_in_places:OK"
                        "places_findplace"), s2)
             | (Raise e, s2) =>
                 (Ok (GeocodeJson.failure ("Exception: " +:+ Py.str_exn e)
                        "places_findplace"), s2)
             end))
  /\ (forall s : Find.world,
        let rq := FindSpec.findplace_request key q in
        let s1 := s ++ [rq] in
        (forall e, net s rq = Raise e ->
           Find.find_venue_with_places_findplace net key q s
           = (Ok (Find.failure ("Exception: " +:+ Py.str_exn e)
                    "places_findplace"), s1))
        /\ (forall d, net s rq = Ok (PDict d) ->
              ok_with "candidates" d = false ->
              Find.find_venue_with_places_findplace net key q s
              = (Ok (Find.failure
                       ("not_found_in_places:" +:+ Py.str (status_or_unknown d))
                       "places_findplace"), s1))
        /\ (forall d pid, net s rq = Ok (PDict d) ->
              ok_with "candidates" d = true ->
              first_candidate (PDict d) = Ok pid ->
              Find.find_venue_with_places_findplace net key q s
              = match Find.place_details net key pid s1 with
                | (Ok (Some r), s2) =>
                    (Ok (Find.set_source r "places_findplace"), s2)
                | (Ok None, s2) =>
                    (Ok (Find.failure "not_found_in_places:OK"
                           "places_findplace"), s2)
                | (Raise e, s2) =>
                    (Ok (Find.failure ("Exception: " +:+ Py.str_exn e)
                           "places_findplace"), s2)
                end)).
Proof.
  split; intros s rq s1; subst rq s1.
  - split; [|split].
    + intros e Hnet. unfold GeocodeJson.findplace_then_details,
        GeocodeJson.http_get_json, GeocodeJsonSpec.findplace_request in *.
      unfold_m. rewrite Hnet. reflexivity.
    + intros d Hnet Hok. unfold GeocodeJson.findplace_then_details,
        GeocodeJson.http_get_json, GeocodeJsonSpec.findplace_request in *.
      unfold_m. rewrite Hnet. unfold ok_with, status_or_unknown in *. simpl.
      destruct (Py.lookup "status" d) as [v|]; simpl; [|reflexivity].
      destruct (Py.eq_str v "OK"); simpl; [|reflexivity].
      simpl in Hok. destruct (Py.lookup "candidates" d) as [x|]; simpl.
      * rewrite Hok. reflexivity.
      * reflexivity.
    + intros d pid. apply gj_findplace_candidate.
  - split; [|split].
    + intros e Hnet. unfold Find.find_venue_with_places_findplace,
        Find.http_get_json, FindSpec.findplace_request in *.
      unfold_m. rewrite Hnet. reflexivity.
    + intros d Hnet Hok. unfold Find.find_venue_with_places_findplace,
        Find.http_get_json, FindSpec.findplace_request in *.
      unfold_m. rewrite Hnet. unfold ok_with, status_or_unknown in *. simpl.
      destruct (Py.lookup "status" d) as [v|]; simpl; [|reflexivity].
      destruct (Py.eq_str v "OK"); simpl; [|reflexivity].
      simpl in Hok. destruct (Py.lookup "candidates" d) as [x|]; simpl.
      * rewrite Hok. reflexivity.
      * reflexivity.
    + intros d pid. apply fd_findplace_candidate.
Qed.

End FindPlaceMapping.

Section Exceptions.
Context `{PyRuntime} (net : transport) (key : string).

Lemma gj_city_raise cc s0 e s' :
  GeocodeJson.get_city_latlng net key cc s0 = (Raise e, s') ->
  exists r,
    GeocodeJson.geocode_fallback net key cc s0 = (Ok r, s')
    /\ (Py.to_float (GeocodeJson.latitude r) = Raise e
        \/ Py.to_float (GeocodeJson.longitude r) = Raise e).
Proof.
  unfold GeocodeJson.get_city_latlng.
  destruct (GeocodeJson.city_cache s0 !! cc); [discriminate|].
  unfold bind at 1.
  destruct (gj_geocode_fallback_run net key cc s0) as (r & E & _). rewrite E.
  destruct (_ && _); [|discriminate].
  unfold_m. unfold GeocodeJson.cache_store.
  destruct (Py.to_float (GeocodeJson.latitude r)) as [lat|e1] eqn:E1.
  - destruct (Py.to_float (GeocodeJson.longitude r)) as [lng|e2] eqn:E2.
    + discriminate.
    + intros Heq; inversion Heq; subst. eauto.
  - intros Heq; inversion Heq; subst. eauto.
Qed.

(** X11: an exception leaves the resolver only from tier 2.  When a
    resolver call raises, the exception was raised by the text search, by
    the Place Details fetch that follows it, or (in [geocode_json.py]) by
    the conversion to [float] of a coordinate that the geocoding of the
    city returned; the state is the one that step left.  Tier 1, tier 3
    and the empty input never raise.  In both scripts. *)
Theorem X11_exceptions_come_from_tier2 :
  (forall (a c : scalar) (s s' : GeocodeJson.world) e,
     GeocodeJson.resolve_attraction net key a c s = (Raise e, s') ->
     (exists s0 cc r,
        GeocodeJson.clean_cell c = Some cc
        /\ GeocodeJson.geocode_fallback net key cc s0 = (Ok r, s')
        /\ (Py.to_float (GeocodeJson.latitude r) = Raise e
            \/ Py.to_float (GeocodeJson.longitude r) = Raise e))
     \/ (exists s0 city_loc,
           GeocodeJson.places_text_search_place_id net key
             (GeocodeJsonSpec.query_of a c) city_loc
             GeocodeJson.CITY_TEXTSEARCH_RADIUS_M
             (Some GeocodeJson.PLACES_TYPE) s0 = (Raise e, s'))
     \/ (exists s0 pid,
           GeocodeJson.place_details net key pid s0 = (Raise e, s')))
  /\ (forall (a c : scalar) (s s' : Find.world) e,
        Find.get_venue_location net key a c s = (Raise e, s') ->
        (exists s0 city_loc,
           Find.places_text_search_place_id net key
             (FindSpec.query_of a c) city_loc 50000
             (Some "tourist_attraction") s0 = (Raise e, s'))
        \/ (exists s0 pid,
              Find.place_details net key pid s0 = (Raise e, s'))).
Proof.
  split.
  - intros a c s s' e. unfold GeocodeJson.resolve_attraction.
    fold (GeocodeJsonSpec.query_of a c).
    destruct (negb _ && negb _); [discriminate|].
    unfold bind at 1.
    destruct (gj_findplace_run net key (GeocodeJsonSpec.query_of a c) s)
      as (r1 & t1 & E1 & _). rewrite E1.
    destruct (_ && _); [discriminate|].
    unfold bind at 1.
    destruct (GeocodeJson.city_location net key (GeocodeJson.clean_cell c) _)
      as [[loc|e2] s2] eqn:E2.
    2:{ intros Heq; inversion Heq; subst. left.
        unfold GeocodeJson.city_location in E2.
        destruct (GeocodeJson.clean_cell c) as [cc|]; [|discriminate].
        destruct (PyStr.nonempty cc); [|discriminate].
        unfold bind in E2.
        destruct (GeocodeJson.get_city_latlng net key cc _)
          as [[[[lat lng]|]|e3] s3] eqn:E3; try discriminate.
        inversion E2; subst.
        destruct (gj_city_raise _ _ _ _ E3) as (r & Hr & Hconv). eauto 10. }
    unfold bind at 1.
    destruct (GeocodeJson.places_text_search_place_id net key _ loc _ _ s2)
      as [[pid|e3] s3] eqn:E3.
    2:{ intros Heq; inversion Heq; subst. right; left. eauto. }
    assert (Hfb : forall s4,
              GeocodeJson.geocode_fallback net key
                (GeocodeJsonSpec.query_of a c) s4 <> (Raise e, s')).
    { intros s4. destruct (gj_geocode_fallback_run net key
                             (GeocodeJsonSpec.query_of a c) s4) as (r & E & _).
      rewrite E. discriminate. }
    destruct (Py.truthy pid); [|intros Hg; exfalso; exact (Hfb _ Hg)].
    unfold bind at 1.
    destruct (GeocodeJson.place_details net key pid s3)
      as [[[d|]|e4] s4] eqn:E4.
    + destruct (String.eqb _ _);
        [destruct (GeocodeJson.is_low_quality_address _); discriminate|].
      intros Hg; exfalso; exact (Hfb _ Hg).
    + intros Hg; exfalso; exact (Hfb _ Hg).
    + intros Heq; inversion Heq; subst. right; right. eauto.
  - intros a c s s' e. unfold Find.get_venue_location.
    fold (FindSpec.query_of a c).
    destruct (negb _ && negb _); [discriminate|].
    unfold bind at 1.
    destruct (fd_findplace_run net key (FindSpec.query_of a c) s)
      as (r1 & t1 & E1 & _). rewrite E1.
    destruct (_ && _); [discriminate|].
    unfold bind at 1.
    destruct (fd_city_location_any net key (Find.clean_cell c) (s ++ t1))
      as (loc & tc & E2 & _). rewrite E2.
    unfold bind at 1.
    destruct (Find.places_text_search_place_id net key _ loc _ _ _)
      as [[pid|e3] s3] eqn:E3.
    2:{ intros Heq; inversion Heq; subst. left. eauto. }
    assert (Hfb : forall s4,
              Find.geocode_venue net key (FindSpec.query_of a c) s4
              <> (Raise e, s')).
    { intros s4. destruct (fd_geocode_venue_run net key
                             (FindSpec.query_of a c) s4) as (r & E & _).
      rewrite E. discriminate. }
    destruct (Py.truthy pid); [|intros Hg; exfalso; exact (Hfb _ Hg)].
    unfold bind at 1.
    destruct (Find.place_details net key pid s3) as [[[d|]|e4] s4] eqn:E4.
    + destruct (String.eqb _ _); simpl;
        [destruct (Find.is_low_quality_address _); discriminate|].
      intros Hg; exfalso; exact (Hfb _ Hg).
    + intros Hg; exfalso; exact (Hfb _ Hg).
    + intros Heq; inversion Heq; subst. right. eauto.
Qed.

End Exceptions.

Section Bias.
Context `{PyRuntime} (net : transport) (key : string).

Lemma nonempty_app_comma a b : PyStr.nonempty (a +:+ "," +:+ b) = true.
Proof. destruct a; reflexivity. Qed.

Lemma gj_text_search_exact q pair s :
  exists o,
    GeocodeJson.places_text_search_place_id net key q
      (match pair with
       | Some (lat, lng) =>
           Some (Py.str (PFloat lat) +:+ "," +:+ Py.str (PFloat lng))
       | None => None
       end)
      GeocodeJson.CITY_TEXTSEARCH_RADIUS_M (Some GeocodeJson.PLACES_TYPE) s
    = (o, GeocodeJsonSpec.log s
            [(GeocodeJson.url_textsearch, textsearch_params key q pair)]).
Proof.
  unfold GeocodeJson.places_text_search_place_id, GeocodeJson.http_get_json.
  unfold_m. destruct pair as [[lat lng]|].
  - rewrite nonempty_app_comma. run; eexists; reflexivity.
  - run; eexists; reflexivity.
Qed.

Lemma gj_city_location_value city s1 loc s2 :
  (forall cc, city = Some cc -> PyStr.nonempty cc = true) ->
  GeocodeJson.city_location net key city s1 = (Ok loc, s2) ->
  loc = match match city with
              | Some cc => GeocodeJson.city_cache s2 !! cc
              | None => None
              end with
        | Some (lat, lng) =>
            Some (Py.str (PFloat lat) +:+ "," +:+ Py.str (PFloat lng))
        | None => None
        end.
Proof.
  intros Hne. unfold GeocodeJson.city_location.
  destruct city as [cc|]; [|intros Heq; inversion Heq; reflexivity].
  rewrite (Hne cc eq_refl). unfold bind.
  destruct (GeocodeJson.city_cache s1 !! cc) as [p|] eqn:Hc.
  - rewrite (gj_city_hit net key _ _ _ Hc). destruct p as [lat lng].
    intros Heq; inversion Heq; subst. rewrite Hc. reflexivity.
  - destruct (gj_city_miss net key _ _ Hc) as (o & s' & E & _ & Hcache).
    rewrite E. destruct o as [[[lat lng]|]|e]; [| |discriminate].
    + intros Heq; inversion Heq; subst. rewrite Hcache, lookup_insert_eq.
      reflexivity.
    + intros Heq; inversion Heq; subst. rewrite Hcache, Hc. reflexivity.
Qed.

(** X12: the text search of tier 2 is biased exactly by the cached
    centroid.  In every call of [resolve_attraction], a Text Search request
    that is sent carries [query], [key] and [type = tourist_attraction],
    and between them [location = "<lat>,<lng>"] with [radius = 50000] when
    the cache holds the cleaned city once the call is over, with that
    entry's coordinates; it carries neither when there is no city or the
    city is not in the cache (its geocoding failed). *)
Theorem X12_text_search_bias_is_the_cached_centroid
    (a c : scalar) (s s' : GeocodeJson.world) o :
  GeocodeJson.resolve_attraction net key a c s = (o, s') ->
  exists l,
    GeocodeJson.calls s' = GeocodeJson.calls s ++ l
    /\ forall ts,
         In ts l -> fst ts = GeocodeJson.url_textsearch ->
         snd ts
         = textsearch_params key (GeocodeJsonSpec.query_of a c)
             (match GeocodeJson.clean_cell c with
              | Some cc => GeocodeJson.city_cache s' !! cc
              | None => None
              end).
Proof.
  unfold GeocodeJson.resolve_attraction.
  fold (GeocodeJsonSpec.query_of a c).
  set (q := GeocodeJsonSpec.query_of a c).
  destruct (negb _ && negb _).
  { unfold ret. intros Heq; inversion Heq; subst. exists [].
    rewrite app_nil_r. split; [reflexivity|]. intros ts []. }
  unfold bind at 1.
  destruct (gj_findplace_run net key q s) as (r1 & t1 & E1 & _ & _ & Ht1 & _).
  rewrite E1.
  assert (H1 : forall ts, In ts t1 -> fst ts <> GeocodeJson.url_textsearch).
  { intros ts Hin. destruct Ht1 as [->|[pid ->]]; simpl in Hin;
      intuition (subst; discriminate). }
  destruct (_ && _).
  { unfold ret. intros Heq; inversion Heq; subst. exists t1.
    split; [reflexivity|]. intros ts Hin Hu. destruct (H1 ts Hin Hu). }
  unfold bind at 1.
  destruct (gj_city_location_run net key (GeocodeJson.clean_cell c)
              (GeocodeJsonSpec.log s t1))
    as (oc & s2 & tc & E2 & Hcalls2 & Hcase). rewrite E2.
  simpl in Hcalls2.
  assert (Hc : forall ts, In ts tc -> fst ts <> GeocodeJson.url_textsearch).
  { intros ts Hin. destruct Hcase as [[-> _]|(c0 & _ & -> & _)]; simpl in Hin;
      intuition (subst; discriminate). }
  destruct oc as [loc|e].
  2:{ intros Heq; inversion Heq; subst. exists (t1 ++ tc).
      rewrite Hcalls2, <- app_assoc. split; [reflexivity|].
      intros ts Hin Hu. apply in_app_or in Hin as [Hin|Hin];
        [destruct (H1 ts Hin Hu)|destruct (Hc ts Hin Hu)]. }
  assert (Hne : forall cc, GeocodeJson.clean_cell c = Some cc ->
                           PyStr.nonempty cc = true).
  { intros cc Hcc. destruct (clean_cell_stripped c cc Hcc) as (t & _ & Hn & _).
    exact Hn. }
  assert (Hloc := gj_city_location_value _ _ _ _ Hne E2).
  set (pair := match GeocodeJson.clean_cell c with
               | Some cc => GeocodeJson.city_cache s2 !! cc
               | None => None
               end) in *.
  subst loc.
  unfold bind at 1.
  destruct (gj_text_search_exact q pair s2) as (op & E3). rewrite E3.
  set (ts0 := (GeocodeJson.url_textsearch, textsearch_params key q pair)).
  assert (Hfinish : forall (o' : res GeocodeJson.result) s'' tail,
    GeocodeJson.calls s'' = GeocodeJson.calls s2 ++ [ts0] ++ tail ->
    GeocodeJson.city_cache s'' = GeocodeJson.city_cache s2 ->
    (forall ts, In ts tail -> fst ts <> GeocodeJson.url_textsearch) ->
    (o', s'') = (o, s') ->
    exists l,
      GeocodeJson.calls s' = GeocodeJson.calls s ++ l
      /\ forall ts,
           In ts l -> fst ts = GeocodeJson.url_textsearch ->
           snd ts
           = textsearch_params key q
               (match GeocodeJson.clean_cell c with
                | Some cc => GeocodeJson.city_cache s' !! cc
                | None => None
                end)).
  { intros o' s'' tail Hcalls Hcache Htail Heq. inversion Heq; subst.
    exists (t1 ++ tc ++ [ts0] ++ tail).
    rewrite Hcalls, Hcalls2, <- !app_assoc. split; [reflexivity|].
    intros ts Hin Hu. rewrite Hcache. fold pair.
    apply in_app_or in Hin as [Hin|Hin]; [destruct (H1 ts Hin Hu)|].
    apply in_app_or in Hin as [Hin|Hin]; [destruct (Hc ts Hin Hu)|].
    destruct Hin as [<-|Hin]; [reflexivity|destruct (Htail ts Hin Hu)]. }
  destruct op as [pid|e].
  2:{ apply (Hfinish _ _ []); [reflexivity|reflexivity|intros ts []]. }
  assert (Hfb : forall tail s3,
    GeocodeJson.calls s3 = GeocodeJson.calls s2 ++ [ts0] ++ tail ->
    GeocodeJson.city_cache s3 = GeocodeJson.city_cache s2 ->
    (forall ts, In ts tail -> fst ts <> GeocodeJson.url_textsearch) ->
    GeocodeJson.geocode_fallback net key q s3 = (o, s') ->
    exists l,
      GeocodeJson.calls s' = GeocodeJson.calls s ++ l
      /\ forall ts,
           In ts l -> fst ts = GeocodeJson.url_textsearch ->
           snd ts
           = textsearch_params key q
               (match GeocodeJson.clean_cell c with
                | Some cc => GeocodeJson.city_cache s' !! cc
                | None => None
                end)).
  { intros tail s3 Hcalls3 Hcache3 Htail.
    destruct (gj_geocode_fallback_run net key q s3) as (r & E5 & _). rewrite E5.
    apply (Hfinish _ _ (tail ++ [GeocodeJsonSpec.geocode_request key q])).
    - simpl. rewrite Hcalls3, <- !app_assoc. reflexivity.
    - exact Hcache3.
    - intros ts Hin. apply in_app_or in Hin as [Hin|[<-|[]]];
        [exact (Htail ts Hin)|discriminate]. }
  destruct (Py.truthy pid).
  2:{ apply (Hfb []); [reflexivity|reflexivity|intros ts []]. }
  unfold bind at 1.
  destruct (gj_place_details_run net key pid (GeocodeJsonSpec.log s2 [ts0]))
    as (od & E4 & _). rewrite E4.
  assert (Hc4 : GeocodeJson.calls
                  (GeocodeJsonSpec.log (GeocodeJsonSpec.log s2 [ts0])
                     [GeocodeJsonSpec.details_request key pid])
                = GeocodeJson.calls s2 ++ [ts0]
                  ++ [GeocodeJsonSpec.details_request key pid]).
  { simpl. rewrite <- app_assoc. reflexivity. }
  assert (Hd4 : forall ts, In ts [GeocodeJsonSpec.details_request key pid] ->
                           fst ts <> GeocodeJson.url_textsearch).
  { intros ts [<-|[]]. discriminate. }
  destruct od as [[d|]|e].
  - destruct (String.eqb (GeocodeJson.status d) "success").
    + destruct (GeocodeJson.is_low_quality_address _); unfold ret;
        apply (Hfinish _ _ _ Hc4 eq_refl Hd4).
    + apply (Hfb _ _ Hc4 eq_refl Hd4).
  - apply (Hfb _ _ Hc4 eq_refl Hd4).
  - apply (Hfinish _ _ _ Hc4 eq_refl Hd4).
Qed.

End Bias.

Section DetailsAndSearch.
Context `{PyRuntime} (net : transport) (key : string).

(** X13: Place Details sends exactly one request and catches nothing.  An
    exception of the transport is raised to the caller; an object whose
    status is not ["OK"] gives [None]; an OK object without [result] raises
    [KeyError('result')]; an OK object whose [result] has a
    [geometry.location] object gives a ["success"] record holding the
    location's [lat] and [lng] ([None] when missing), the address and the
    name (the empty string when missing) and the identifier asked for.  In
    both scripts. *)
Theorem X13_place_details_outcomes (pid : pyval) :
  (forall s : GeocodeJson.world,
     let rq := GeocodeJsonSpec.details_request key pid in
     let s' := GeocodeJsonSpec.log s [rq] in
     (exists o, GeocodeJson.place_details net key pid s = (o, s'))
     /\ (forall e, net (GeocodeJson.calls s) rq = Raise e ->
           GeocodeJson.place_details net key pid s = (Raise e, s'))
     /\ (forall d, net (GeocodeJson.calls s) rq = Ok (PDict d) ->
           Py.lookup "status" d <> Some (PStr "OK") ->
           GeocodeJson.place_details net key pid s = (Ok None, s'))
     /\ (forall d, net (GeocodeJson.calls s) rq = Ok (PDict d) ->
           Py.lookup "status" d = Some (PStr "OK") ->
           Py.lookup "result" d = None ->
           GeocodeJson.place_details net key pid s
           = (Raise (KeyError (PStr "result")), s'))
     /\ (forall d res geom loc,
           net (GeocodeJson.calls s) rq = Ok (PDict d) ->
           Py.lookup "status" d = Some (PStr "OK") ->
           Py.lookup "result" d = Some (PDict res) ->
           Py.lookup "geometry" res = Some (PDict geom) ->
           Py.lookup "location" geom = Some (PDict loc) ->
           GeocodeJson.place_details net key pid s
           = (Ok (Some {| GeocodeJson.latitude := or_none (Py.lookup "lat" loc);
                          GeocodeJson.longitude := or_none (Py.lookup "lng" loc);
                          GeocodeJson.formatted_address :=
                            or_blank (Py.lookup "formatted_address" res);
                          GeocodeJson.resolved_name :=
                            or_blank (Py.lookup "name" res);
                          GeocodeJson.status := "success";
                          GeocodeJson.source := "places_details";
                          GeocodeJson.place_id := pid |}), s')))
  /\ (forall s : Find.world,
        let rq := FindSpec.details_request key pid in
        let s' := s ++ [rq] in
        (exists o, Find.place_details net key pid s = (o, s'))
        /\ (forall e, net s rq = Raise e ->
              Find.place_details net key pid s = (Raise e, s'))
        /\ (forall d, net s rq = Ok (PDict d) ->
              Py.lookup "status" d <> Some (PStr "OK") ->
              Find.place_details net key pid s = (Ok None, s'))
        /\ (forall d, net s rq = Ok (PDict d) ->
              Py.lookup "status" d = Some (PStr "OK") ->
              Py.lookup "result" d = None ->
              Find.place_details net key pid s
              = (Raise (KeyError (PStr "result")), s'))
        /\ (forall d res geom loc,
              net s rq = Ok (PDict d) ->
              Py.lookup "status" d = Some (PStr "OK") ->
              Py.lookup "result" d = Some (PDict res) ->
              Py.lookup "geometry" res = Some (PDict geom) ->
              Py.lookup "location" geom = Some (PDict loc) ->
              Find.place_details net key pid s
              = (Ok (Some {| Find.latitude := or_none (Py.lookup "lat" loc);
                             Find.longitude := or_none (Py.lookup "lng" loc);
                             Find.formatted_address :=
                               or_blank (Py.lookup "formatted_address" res);
                             Find.venue_name := or_blank (Py.lookup "name" res);
                             Find.status := "success";
                             Find.source := "places_details" |}), s'))).
Proof.
  assert (Hne : forall v, Some v <> Some (PStr "OK") -> Py.eq_str v "OK" = false).
  { intros v Hv. destruct v; try reflexivity. simpl.
    destruct (String.eqb_spec s "OK") as [->|]; [exfalso; auto|reflexivity]. }
  split; intros s rq s'; subst rq s'.
  - split; [|split; [|split; [|split]]].
    + destruct (gj_place_details_run net key pid s) as (o & E & _). eauto.
    + intros e Hnet. unfold GeocodeJson.place_details,
        GeocodeJson.http_get_json, GeocodeJsonSpec.details_request in *.
      unfold_m. rewrite Hnet. reflexivity.
    + intros d Hnet Hst. unfold GeocodeJson.place_details,
        GeocodeJson.http_get_json, GeocodeJsonSpec.details_request in *.
      unfold_m. rewrite Hnet. simpl.
      destruct (Py.lookup "status" d) as [v|]; simpl; [|reflexivity].
      rewrite (Hne v Hst). reflexivity.
    + intros d Hnet Hst Hres. unfold GeocodeJson.place_details,
        GeocodeJson.http_get_json, GeocodeJsonSpec.details_request in *.
      unfold_m. rewrite Hnet. simpl. rewrite Hst. simpl. rewrite Hres.
      reflexivity.
    + intros d res geom loc Hnet Hst Hres Hgeom Hloc.
      unfold GeocodeJson.place_details,
        GeocodeJson.http_get_json, GeocodeJsonSpec.details_request in *.
      unfold_m. rewrite Hnet. simpl. rewrite Hst. simpl. rewrite Hres. simpl.
      rewrite Hgeom. simpl. rewrite Hloc. reflexivity.
  - split; [|split; [|split; [|split]]].
    + destruct (fd_place_details_run net key pid s) as (o & E & _). eauto.
    + intros e Hnet. unfold Find.place_details,
        Find.http_get_json, FindSpec.details_request in *.
      unfold_m. rewrite Hnet. reflexivity.
    + intros d Hnet Hst. unfold Find.place_details,
        Find.http_get_json, FindSpec.details_request in *.
      unfold_m. rewrite Hnet. simpl.
      destruct (Py.lookup "status" d) as [v|]; simpl; [|reflexivity].
      rewrite (Hne v Hst). reflexivity.
    + intros d Hnet Hst Hres. unfold Find.place_details,
        Find.http_get_json, FindSpec.details_request in *.
      unfold_m. rewrite Hnet. simpl. rewrite Hst. simpl. rewrite Hres.
      reflexivity.
    + intros d res geom loc Hnet Hst Hres Hgeom Hloc.
      unfold Find.place_details,
        Find.http_get_json, FindSpec.details_request in *.
      unfold_m. rewrite Hnet. simpl. rewrite Hst. simpl. rewrite Hres. simpl.
      rewrite Hgeom. simpl. rewrite Hloc. reflexivity.
Qed.

End DetailsAndSearch.

Section SearchAndQuery.
Context `{PyRuntime} (net : transport) (key : string).

(** X14: what the text search returns.  It sends one request and catches
    nothing: an exception of the transport is raised to the caller.  An
    object that is not an OK body with non-empty results gives [None]; an
    OK body whose first result is an object gives that result's [place_id],
    or [None] when it has none.  The bias and its radius are sent only with
    a non-empty location, the category only when it is non-empty.  In both
    scripts. *)
Theorem X14_text_search_outcomes
    (q : string) (location : option string) (radius : Z)
    (place_type : option string) :
  (forall s : GeocodeJson.world,
     let rq := textsearch_request key q location radius place_type in
     let s' := GeocodeJsonSpec.log s [rq] in
     (exists o,
        GeocodeJson.places_text_search_place_id net key q location radius
          place_type s = (o, s'))
     /\ (forall e, net (GeocodeJson.calls s) rq = Raise e ->
           GeocodeJson.places_text_search_place_id net key q location radius
             place_type s = (Raise e, s'))
     /\ (forall d, net (GeocodeJson.calls s) rq = Ok (PDict d) ->
           ok_with "results" d = false ->
           GeocodeJson.places_text_search_place_id net key q location radius
             place_type s = (Ok PNone, s'))
     /\ (forall d r0 rest, net (GeocodeJson.calls s) rq = Ok (PDict d) ->
           Py.lookup "status" d = Some (PStr "OK") ->
           Py.lookup "results" d = Some (PList (PDict r0 :: rest)) ->
           GeocodeJson.places_text_search_place_id net key q location radius
             place_type s = (Ok (or_none (Py.lookup "place_id" r0)), s')))
  /\ (forall s : Find.world,
        let rq := textsearch_request key q location radius place_type in
        let s' := s ++ [rq] in
        (exists o,
           Find.places_text_search_place_id net key q location radius
             place_type s = (o, s'))
        /\ (forall e, net s rq = Raise e ->
              Find.places_text_search_place_id net key q location radius
                place_type s = (Raise e, s'))
        /\ (forall d, net s rq = Ok (PDict d) ->
              ok_with "results" d = false ->
              Find.places_text_search_place_id net key q location radius
                place_type s = (Ok PNone, s'))
        /\ (forall d r0 rest, net s rq = Ok (PDict d) ->
              Py.lookup "status" d = Some (PStr "OK") ->
              Py.lookup "results" d = Some (PList (PDict r0 :: rest)) ->
              Find.places_text_search_place_id net key q location radius
                place_type s = (Ok (or_none (Py.lookup "place_id" r0)), s'))).
Proof.
  assert (Hrq : forall (l0 : list (string * pyval)),
            (let params := l0 in
             let params0 :=
               match location with
               | Some l =>
                   if PyStr.nonempty l
                   then params ++ [("location", PStr l); ("radius", PInt radius)]
                   else params
               | None => params
               end in
             match place_type with
             | Some t =>
                 if PyStr.nonempty t then params0 ++ [("type", PStr t)]
                 else params0
             | None => params0
             end)
            = l0
              ++ (match location with
                  | Some l =>
                      if PyStr.nonempty l
                      then [("location", PStr l); ("radius", PInt radius)]
                      else []
                  | None => []
                  end)
              ++ (match place_type with
                  | Some t => if PyStr.nonempty t then [("type", PStr t)] else []
                  | None => []
                  end)).
  { intros l0. cbv zeta.
    destruct location as [l|]; [destruct (PyStr.nonempty l)|];
      (destruct place_type as [t|]; [destruct (PyStr.nonempty t)|]);
      rewrite ?app_nil_r, <- ?app_assoc; reflexivity. }
  split; intros s rq s'; subst rq s'; unfold textsearch_request.
  - unfold GeocodeJson.places_text_search_place_id, GeocodeJson.http_get_json.
    cbv zeta in Hrq |- *. rewrite Hrq. unfold_m.
    split; [|split; [|split]].
    + destruct (net _ _) as [data|e]; [|eexists; reflexivity].
      run; eexists; reflexivity.
    + intros e Hnet. rewrite Hnet. reflexivity.
    + intros d Hnet Hok. rewrite Hnet. unfold ok_with in Hok. simpl.
      destruct (Py.lookup "status" d) as [v|]; simpl; [|reflexivity].
      destruct (Py.eq_str v "OK"); simpl; [|reflexivity].
      simpl in Hok. destruct (Py.lookup "results" d) as [x|]; simpl.
      * rewrite Hok. reflexivity.
      * reflexivity.
    + intros d r0 rest Hnet Hst Hres. rewrite Hnet. simpl.
      rewrite Hst. simpl. rewrite Hres. simpl.
      destruct (Py.lookup "place_id" r0); reflexivity.
  - unfold Find.places_text_search_place_id, Find.http_get_json.
    cbv zeta in Hrq |- *. rewrite Hrq. unfold_m.
    change Find.url_textsearch with GeocodeJson.url_textsearch.
    split; [|split; [|split]].
    + destruct (net _ _) as [data|e]; [|eexists; reflexivity].
      run; eexists; reflexivity.
    + intros e Hnet. rewrite Hnet. reflexivity.
    + intros d Hnet Hok. rewrite Hnet. unfold ok_with in Hok. simpl.
      destruct (Py.lookup "status" d) as [v|]; simpl; [|reflexivity].
      destruct (Py.eq_str v "OK"); simpl; [|reflexivity].
      simpl in Hok. destruct (Py.lookup "results" d) as [x|]; simpl.
      * rewrite Hok. reflexivity.
      * reflexivity.
    + intros d r0 rest Hnet Hst Hres. rewrite Hnet. simpl.
      rewrite Hst. simpl. rewrite Hres. simpl.
      destruct (Py.lookup "place_id" r0); reflexivity.
Qed.

End SearchAndQuery.

Section QueryForm.
Context `{PyRuntime}.

Lemma chars_cons c t :
  PyStr.chars (String c t)
  = if PyStr.starts_inside t then
      match PyStr.chars t with
      | ch :: rest => String c ch :: rest
      | [] => [String c EmptyString]
      end
    else String c EmptyString :: PyStr.chars t.
Proof. reflexivity. Qed.

(** An ASCII byte with more bytes in its character encodes nothing. *)
Lemma code_ascii_long c ch :
  PyStr.byte c < 128 -> ch <> "" -> PyStr.code (String c ch) = -1.
Proof.
  intros Hc Hch. destruct ch as [|c1 [|c2 [|c3 [|c4 t]]]]; [contradiction| | | |];
    unfold PyStr.code; simpl; try reflexivity;
    repeat split_if; try reflexivity; bools; lia.
Qed.

Lemma last_after_space ct :
  ct <> "" ->
  (forall ch, last (PyStr.chars ct) = Some ch ->
              PyStr.isspace (PyStr.code ch) = false) ->
  forall ch, last (PyStr.chars (String " " ct)) = Some ch ->
             PyStr.isspace (PyStr.code ch) = false.
Proof.
  intros Hne Hlast ch. rewrite chars_cons.
  destruct (PyStr.chars ct) as [|c0 rest] eqn:E.
  { apply chars_nil in E. contradiction. }
  assert (Hc0 : c0 <> "").
  { pose proof (proj1 (chars_separable ct)) as Hall. rewrite E in Hall.
    inversion Hall; subst. destruct c0; [contradiction|discriminate]. }
  rewrite last_cons in Hlast.
  destruct (PyStr.starts_inside ct); rewrite !last_cons.
  - destruct (last rest) as [y|].
    + intros Heq; inversion Heq; subst. apply Hlast. reflexivity.
    + intros Heq; inversion Heq; subst.
      rewrite code_ascii_long; [reflexivity|vm_compute; reflexivity|exact Hc0].
  - destruct (last rest) as [y|]; intros Heq; inversion Heq; subst;
      apply Hlast; reflexivity.
Qed.

(** The ends of ["<name>, <city>"] are those of the name and of the
    city. *)
Lemma joined_edges n ct :
  n <> "" -> ct <> "" ->
  (forall c, first_char n = Some c -> PyStr.isspace c = false) ->
  (forall c, last_char ct = Some c -> PyStr.isspace c = false) ->
  (forall c, first_char (n +:+ ", " +:+ ct) = Some c -> PyStr.isspace c = false)
  /\ (forall c, last_char (n +:+ ", " +:+ ct) = Some c ->
                PyStr.isspace c = false).
Proof.
  intros Hn Hct Hfirst Hlast.
  unfold first_char, last_char, PyStr.codes in *.
  assert (Hq : PyStr.chars (n +:+ ", " +:+ ct)
               = PyStr.chars n ++ "," :: PyStr.chars (String " " ct)).
  { rewrite chars_app by reflexivity. f_equal. }
  rewrite Hq. split; intros c.
  - destruct (PyStr.chars n) as [|ch rest] eqn:E.
    { apply chars_nil in E. contradiction. }
    simpl. intros Heq. apply Hfirst. exact Heq.
  - change (map PyStr.code) with (fmap (M:=list) PyStr.code).
    rewrite fmap_last, last_app, last_cons.
    destruct (last (PyStr.chars (String " " ct))) as [y|] eqn:E.
    + simpl. intros Heq; inversion Heq; subst.
      apply (last_after_space ct Hct); [|exact E].
      intros ch Hch. apply Hlast.
      change (map PyStr.code) with (fmap (M:=list) PyStr.code).
      rewrite fmap_last, Hch. reflexivity.
    + exfalso. apply last_None in E. apply chars_nil in E. discriminate E.
Qed.

Lemma clean_cell_edges x s :
  GeocodeJson.clean_cell x = Some s ->
  s <> ""
  /\ (forall c, first_char s = Some c -> PyStr.isspace c = false)
  /\ (forall c, last_char s = Some c -> PyStr.isspace c = false).
Proof.
  intros Hx. destruct (clean_cell_fixed x s Hx) as (Hne & _ & Hfix & _).
  split; [exact Hne|].
  split; intros c; rewrite <- Hfix; [apply strip_first|apply strip_last].
Qed.

(** X15: the query that goes to every tier.  For an input that is not
    empty it is the cleaned name, the cleaned city, or the two joined by a
    comma and a space, name first; it is never empty, it neither begins
    nor ends with white space (of any script), so that [strip] leaves it as
    it is; both scripts build the same one. *)
Theorem X15_query_form (a c : scalar) :
  GeocodeJsonSpec.not_skipped a c ->
  let q := GeocodeJsonSpec.query_of a c in
  q = match GeocodeJson.clean_cell a, GeocodeJson.clean_cell c with
      | Some name, Some city => name +:+ ", " +:+ city
      | Some name, None => name
      | None, Some city => city
      | None, None => ""
      end
  /\ q <> ""
  /\ (forall ch, first_char q = Some ch -> PyStr.isspace ch = false)
  /\ (forall ch, last_char q = Some ch -> PyStr.isspace ch = false)
  /\ PyStr.strip q = q
  /\ FindSpec.query_of a c = q.
Proof.
  unfold GeocodeJsonSpec.not_skipped, GeocodeJsonSpec.query_of,
    FindSpec.query_of. rewrite !clean_cell_agree.
  change Find.build_query with GeocodeJson.build_query.
  destruct (GeocodeJson.clean_cell a) as [n|] eqn:Ha;
    destruct (GeocodeJson.clean_cell c) as [ct|] eqn:Hc; cbv zeta.
  - destruct (clean_cell_edges a n Ha) as (Hn & Hnf & _).
    destruct (clean_cell_edges c ct Hc) as (Hct & _ & Hctl).
    destruct (joined_edges n ct Hn Hct Hnf Hctl) as [Hqf Hql].
    intros _. destruct n as [|n0 n]; [contradiction|].
    destruct ct as [|c0 ct]; [contradiction|].
    change (GeocodeJson.build_query (Some (String n0 n)) (Some (String c0 ct)))
      with (String n0 n +:+ ", " +:+ String c0 ct).
    split; [reflexivity|]. split; [discriminate|].
    split; [exact Hqf|]. split; [exact Hql|].
    split; [|reflexivity]. apply strip_fixed; assumption.
  - destruct (clean_cell_fixed a n Ha) as (Hn & _ & Hfix & _).
    destruct (clean_cell_edges a n Ha) as (_ & Hnf & Hnl).
    intros _. destruct n as [|n0 n]; [contradiction|].
    split; [reflexivity|]. split; [discriminate|].
    split; [exact Hnf|]. split; [exact Hnl|].
    split; [exact Hfix|reflexivity].
  - destruct (clean_cell_fixed c ct Hc) as (Hct & _ & Hfix & _).
    destruct (clean_cell_edges c ct Hc) as (_ & Hcf & Hcl).
    intros _. destruct ct as [|c0 ct]; [contradiction|].
    split; [reflexivity|]. split; [discriminate|].
    split; [exact Hcf|]. split; [exact Hcl|].
    split; [exact Hfix|reflexivity].
  - simpl. discriminate.
Qed.

End QueryForm.

(* ===================================================================== *)
(** ** The further properties, on the scenarios *)
(* ===================================================================== *)

Import MoreScenarios.

(** X1 on a street address between an em space and an ideographic
    space. *)
Lemma X1_witness :
  GeocodeJson.clean_cell
    (SStr (PyStr.encode [8195] +:+ "Dam 1" +:+ PyStr.encode [12288]))
  = Some "Dam 1"
  /\ GeocodeJson.clean_cell (SStr "Dam 1") = Some "Dam 1"
  /\ Find.clean_cell (SStr "Dam 1") = Some "Dam 1".
Proof.
  assert (Hc : GeocodeJson.clean_cell
                 (SStr (PyStr.encode [8195] +:+ "Dam 1" +:+ PyStr.encode [12288]))
               = Some "Dam 1") by (vm_compute; reflexivity).
  destruct (X1_clean_cell_normal_form _ _ Hc) as (_ & _ & _ & _ & Hg & _ & Hf).
  split; [exact Hc|]. split; [exact Hg|exact Hf].
Defined.

(** X2 on a venue row and on a blank row. *)
Lemma X2_witness :
  (GeocodeJsonDriver.geocode_venues_excel_row net_street key
     (SStr " Royal Palace ") (SStr "Amsterdam") start
   = (r <- GeocodeJson.resolve_attraction net_street key
             (SStr " Royal Palace ") (SStr "Amsterdam") ;;
      ret (Some r)) start
   /\ GeocodeJsonDriver.geocode_venues_excel_row net_street key
        (SStr " ") SNone start = (Ok None, start))
  /\ (FindDriver.geocode_excel_row net_street key
        (SStr " Royal Palace ") (SStr "Amsterdam") []
      = (r <- Find.get_venue_location net_street key
                (SStr " Royal Palace ") (SStr "Amsterdam") ;;
         ret (Some r)) []
      /\ FindDriver.geocode_excel_row net_street key (SStr " ") SNone []
         = (Ok None, [])).
Proof.
  destruct (X2_loop_turn_is_resolver net_street key) as [HG HF].
  split.
  - split; [apply HG; reflexivity|apply HG; reflexivity].
  - split; [apply HF; reflexivity|apply HF; reflexivity].
Defined.

(** X3 on a batch of a venue and a blank row. *)
Lemma X3_witness :
  (exists outs s',
     GeocodeJsonDriver.geocode_venues_excel_loop net_street key
       rows_with_blank start = (Ok outs, s')
     /\ Forall2 (fun row o =>
                   o = None <->
                   GeocodeJson.clean_cell (fst row) = None
                   /\ GeocodeJson.clean_cell (snd row) = None)
          rows_with_blank outs)
  /\ (exists outs s',
        FindDriver.geocode_excel_loop net_street key rows_with_blank []
        = (Ok outs, s')
        /\ Forall2 (fun row o =>
                      o = None <->
                      Find.clean_cell (fst row) = None
                      /\ Find.clean_cell (snd row) = None)
             rows_with_blank outs).
Proof.
  destruct (X3_loop_skips_exactly_empty_rows net_street key) as [HG HF].
  split.
  - do 2 eexists. split; [vm_compute; reflexivity|].
    eapply (HG rows_with_blank _ start). vm_compute. reflexivity.
  - do 2 eexists. split; [vm_compute; reflexivity|].
    eapply (HF rows_with_blank _ []). vm_compute. reflexivity.
Defined.

(** X4 on a batch whose second row meets a text search that times out. *)
Lemma X4_witness :
  fst (GeocodeJsonDriver.geocode_venues_excel_loop net_text_search_timeout key
         ([(SStr " ", SNone)] ++ (SStr "Louvre", SNone) :: rows_one_city) start)
  = Raise (HTTPError "Read timed out.")
  /\ fst (FindDriver.geocode_excel_loop net_text_search_timeout key
            ([(SStr " ", SNone)] ++ (SStr "Louvre", SNone) :: rows_one_city) [])
     = Raise (HTTPError "Read timed out.").
Proof.
  destruct (X4_loop_aborts_on_exception net_text_search_timeout key) as [HG HF].
  split.
  - erewrite (HG [(SStr " ", SNone)] rows_one_city (SStr "Louvre") SNone);
      [reflexivity|vm_compute; reflexivity|reflexivity|vm_compute; reflexivity].
  - erewrite (HF [(SStr " ", SNone)] rows_one_city (SStr "Louvre") SNone);
      [reflexivity|vm_compute; reflexivity|reflexivity|vm_compute; reflexivity].
Defined.

(** X5 on a call that goes through tier 2. *)
Lemma X5_witness :
  (exists l,
     GeocodeJson.calls
       (snd (GeocodeJson.resolve_attraction net_details_refused key
               (SStr "Royal Palace") (SStr "Amsterdam") start))
     = GeocodeJson.calls start ++ l
     /\ (length l <= 6)%nat)
  /\ (exists l,
        snd (Find.get_venue_location net_details_refused key
               (SStr "Royal Palace") (SStr "Amsterdam") [])
        = [] ++ l
        /\ (length l <= 6)%nat).
Proof.
  destruct (X5_resolver_requests_in_tier_order net_details_refused key)
    as [HG HF].
  split.
  - destruct (GeocodeJson.resolve_attraction net_details_refused key
                (SStr "Royal Palace") (SStr "Amsterdam") start)
      as [o s'] eqn:E.
    destruct (HG _ _ _ _ _ E) as (l & Hl & Hlen & _). eauto.
  - destruct (Find.get_venue_location net_details_refused key
                (SStr "Royal Palace") (SStr "Amsterdam") [])
      as [o s'] eqn:E.
    destruct (HF _ _ _ _ _ E) as (l & Hl & Hlen & _). eauto.
Defined.

(** X6 on a batch that starts with Amsterdam cached. *)
Lemma X6_witness :
  GeocodeJson.city_cache
    (snd (GeocodeJsonDriver.geocode_venues_excel_loop net_text_search key
            rows_one_city start_cached)) !! "Amsterdam"
  = Some (f52_5, f4_75).
Proof.
  destruct (X6_city_cache_only_grows net_text_search key) as [_ Hloop].
  destruct (GeocodeJsonDriver.geocode_venues_excel_loop net_text_search key
              rows_one_city start_cached) as [o s'] eqn:E.
  destruct (Hloop _ _ _ _ E) as [Hkeep _].
  apply Hkeep. reflexivity.
Defined.

(** X7 on the same batch: Amsterdam is not geocoded at all. *)
Lemma X7_witness :
  exists l,
    GeocodeJson.calls
      (snd (GeocodeJsonDriver.geocode_venues_excel_loop net_text_search key
              rows_one_city start_cached))
    = GeocodeJson.calls start_cached ++ l
    /\ geocode_count "Amsterdam" l = 0%nat.
Proof.
  destruct (GeocodeJsonDriver.geocode_venues_excel_loop net_text_search key
              rows_one_city start_cached) as [o s'] eqn:E.
  destruct (X7_cached_city_is_not_geocoded_again net_text_search key
              rows_one_city "Amsterdam" (f52_5, f4_75) start_cached s' o)
    as (l & Hl & Hc & _).
  - reflexivity.
  - repeat constructor; vm_compute; discriminate.
  - exact E.
  - eauto.
Defined.

(** X8 on a tier-2 result with a city-level address. *)
Lemma X8_witness :
  (exists r s',
     GeocodeJson.resolve_attraction net_text_search key
       (SStr "Royal Palace") (SStr "Amsterdam") start = (Ok r, s')
     /\ GeocodeJson.source r = "places_textsearch_low_quality"
     /\ GeocodeJson.status r = "success")
  /\ (exists r s',
        Find.get_venue_location net_text_search key
          (SStr "Royal Palace") (SStr "Amsterdam") [] = (Ok r, s')
        /\ Find.source r = "places_textsearch_low_quality"
        /\ Find.status r = "success").
Proof.
  destruct (X8_source_tells_the_tier net_text_search key) as [HG HF].
  split.
  - destruct (GeocodeJson.resolve_attraction net_text_search key
                (SStr "Royal Palace") (SStr "Amsterdam") start)
      as [o s'] eqn:E.
    assert (Ho : exists r, o = Ok r /\ GeocodeJson.source r
                                       = "places_textsearch_low_quality").
    { vm_compute in E. inversion E; subst. eexists. split; reflexivity. }
    destruct Ho as (r & -> & Hsrc). exists r, s'. split; [reflexivity|].
    split; [exact Hsrc|].
    destruct (HG _ _ _ _ _ E)
      as [(-> & _)|[(Hs & Hst & _)|[(Hs & Hst & _)|[(Hs & Hst & _)|(Hs & _)]]]];
      first [exact Hst | rewrite Hsrc in Hs; discriminate Hs | discriminate Hsrc].
  - destruct (Find.get_venue_location net_text_search key
                (SStr "Royal Palace") (SStr "Amsterdam") [])
      as [o s'] eqn:E.
    assert (Ho : exists r, o = Ok r /\ Find.source r
                                       = "places_textsearch_low_quality").
    { vm_compute in E. inversion E; subst. eexists. split; reflexivity. }
    destruct Ho as (r & -> & Hsrc). exists r, s'. split; [reflexivity|].
    split; [exact Hsrc|].
    destruct (HF _ _ _ _ _ E)
      as [(-> & _)|[(Hs & Hst & _)|[(Hs & Hst & _)|[(Hs & Hst & _)|(Hs & _)]]]];
      first [exact Hst | rewrite Hsrc in Hs; discriminate Hs | discriminate Hsrc].
Defined.

(** X9 on a body without status and on a timeout. *)
Lemma X9_witness :
  (GeocodeJson.geocode_fallback net_text_search_timeout key "Paris" start
   = (Ok (GeocodeJson.failure "Error: UNKNOWN" "geocoding_api"),
      GeocodeJsonSpec.log start [GeocodeJsonSpec.geocode_request key "Paris"])
   /\ GeocodeJson.geocode_fallback net_geocode_recovers key "Paris" start
      = (Ok (GeocodeJson.failure "Exception: Read timed out." "geocoding_api"),
         GeocodeJsonSpec.log start [GeocodeJsonSpec.geocode_request key "Paris"]))
  /\ (Find.geocode_venue net_text_search_timeout key "Paris" []
      = (Ok (Find.failure "Error: UNKNOWN" "geocoding_api"),
         [FindSpec.geocode_request key "Paris"])
      /\ Find.geocode_venue net_geocode_recovers key "Paris" []
         = (Ok (Find.failure "Exception: Read timed out." "geocoding_api"),
            [FindSpec.geocode_request key "Paris"])).
Proof.
  split; split.
  - destruct (X9_geocoding_failure_statuses net_text_search_timeout key "Paris")
      as [HG _].
    destruct (HG start) as (_ & _ & _ & Herr). apply (Herr []); reflexivity.
  - destruct (X9_geocoding_failure_statuses net_geocode_recovers key "Paris")
      as [HG _].
    destruct (HG start) as (_ & Hexc & _).
    apply (Hexc (HTTPError "Read timed out.")). reflexivity.
  - destruct (X9_geocoding_failure_statuses net_text_search_timeout key "Paris")
      as [_ HF].
    destruct (HF []) as (_ & _ & _ & Herr). apply (Herr []); reflexivity.
  - destruct (X9_geocoding_failure_statuses net_geocode_recovers key "Paris")
      as [_ HF].
    destruct (HF []) as (_ & Hexc & _).
    apply (Hexc (HTTPError "Read timed out.")). reflexivity.
Defined.

(** X10 on a search without results and on a candidate whose details are
    refused. *)
Lemma X10_witness :
  (GeocodeJson.status
     (match fst (GeocodeJson.findplace_then_details net_geocode_only key
                   "Louvre" start) with
      | Ok r => r
      | Raise _ => GeocodeJson.failure "" ""
      end) = "not_found_in_places:ZERO_RESULTS"
   /\ GeocodeJson.status
        (match fst (GeocodeJson.findplace_then_details
                      net_tier1_details_refused key "Louvre" start) with
         | Ok r => r
         | Raise _ => GeocodeJson.failure "" ""
         end) = "not_found_in_places:OK")
  /\ (Find.status
        (match fst (Find.find_venue_with_places_findplace net_geocode_only key
                      "Louvre" []) with
         | Ok r => r
         | Raise _ => Find.failure "" ""
         end) = "not_found_in_places:ZERO_RESULTS"
      /\ Find.status
           (match fst (Find.find_venue_with_places_findplace
                         net_tier1_details_refused key "Louvre" []) with
            | Ok r => r
            | Raise _ => Find.failure "" ""
            end) = "not_found_in_places:OK").
Proof.
  split; split.
  - destruct (X10_findplace_failure_statuses net_geocode_only key "Louvre")
      as [HG _].
    destruct (HG start) as (_ & Hnf & _).
    rewrite (Hnf [("status", PStr "ZERO_RESULTS")] eq_refl eq_refl). reflexivity.
  - destruct (X10_findplace_failure_statuses net_tier1_details_refused key
                "Louvre") as [HG _].
    destruct (HG start) as (_ & _ & Hc).
    rewrite (Hc _ (PStr "p1") eq_refl eq_refl eq_refl). reflexivity.
  - destruct (X10_findplace_failure_statuses net_geocode_only key "Louvre")
      as [_ HF].
    destruct (HF []) as (_ & Hnf & _).
    rewrite (Hnf [("status", PStr "ZERO_RESULTS")] eq_refl eq_refl). reflexivity.
  - destruct (X10_findplace_failure_statuses net_tier1_details_refused key
                "Louvre") as [_ HF].
    destruct (HF []) as (_ & _ & Hc).
    rewrite (Hc _ (PStr "p1") eq_refl eq_refl eq_refl). reflexivity.
Defined.

(** X11 on the text search that times out. *)
Lemma X11_witness :
  (exists e s',
     GeocodeJson.resolve_attraction net_text_search_timeout key
       (SStr "Louvre") SNone start = (Raise e, s')
     /\ ((exists s0 cc r,
            GeocodeJson.clean_cell SNone = Some cc
            /\ GeocodeJson.geocode_fallback net_text_search_timeout key cc s0
               = (Ok r, s')
            /\ (Py.to_float (GeocodeJson.latitude r) = Raise e
                \/ Py.to_float (GeocodeJson.longitude r) = Raise e))
         \/ (exists s0 city_loc,
               GeocodeJson.places_text_search_place_id net_text_search_timeout
                 key (GeocodeJsonSpec.query_of (SStr "Louvre") SNone) city_loc
                 GeocodeJson.CITY_TEXTSEARCH_RADIUS_M
                 (Some GeocodeJson.PLACES_TYPE) s0 = (Raise e, s'))
         \/ (exists s0 pid,
               GeocodeJson.place_details net_text_search_timeout key pid s0
               = (Raise e, s'))))
  /\ (exists e s',
        Find.get_venue_location net_text_search_timeout key
          (SStr "Louvre") SNone [] = (Raise e, s')
        /\ ((exists s0 city_loc,
               Find.places_text_search_place_id net_text_search_timeout key
                 (FindSpec.query_of (SStr "Louvre") SNone) city_loc 50000
                 (Some "tourist_attraction") s0 = (Raise e, s'))
            \/ (exists s0 pid,
                  Find.place_details net_text_search_timeout key pid s0
                  = (Raise e, s')))).
Proof.
  destruct (X11_exceptions_come_from_tier2 net_text_search_timeout key)
    as [HG HF].
  split.
  - destruct (GeocodeJson.resolve_attraction net_text_search_timeout key
                (SStr "Louvre") SNone start) as [o s'] eqn:E.
    assert (Ho : o = Raise (HTTPError "Read timed out."))
      by (vm_compute in E; inversion E; reflexivity).
    subst o. exists (HTTPError "Read timed out."), s'.
    split; [reflexivity|]. exact (HG _ _ _ _ _ E).
  - destruct (Find.get_venue_location net_text_search_timeout key
                (SStr "Louvre") SNone []) as [o s'] eqn:E.
    assert (Ho : o = Raise (HTTPError "Read timed out."))
      by (vm_compute in E; inversion E; reflexivity).
    subst o. exists (HTTPError "Read timed out."), s'.
    split; [reflexivity|]. exact (HF _ _ _ _ _ E).
Defined.

(** X12 on a venue of Amsterdam, whose centroid the call stores. *)
Lemma X12_witness :
  exists o s',
    GeocodeJson.resolve_attraction net_text_search key
      (SStr "Royal Palace") (SStr "Amsterdam") start = (o, s')
    /\ forall ts,
         In ts (GeocodeJson.calls s') ->
         fst ts = GeocodeJson.url_textsearch ->
         snd ts
         = textsearch_params key "Royal Palace, Amsterdam"
             (Some (f52_5, f4_75)).
Proof.
  destruct (GeocodeJson.resolve_attraction net_text_search key
              (SStr "Royal Palace") (SStr "Amsterdam") start)
    as [o s'] eqn:E.
  exists o, s'. split; [reflexivity|].
  destruct (X12_text_search_bias_is_the_cached_centroid net_text_search key
              _ _ _ _ _ E) as (l & Hl & Hts).
  simpl in Hl. rewrite Hl. intros ts Hin Hu. rewrite (Hts ts Hin Hu).
  assert (Hq : GeocodeJsonSpec.query_of (SStr "Royal Palace") (SStr "Amsterdam")
               = "Royal Palace, Amsterdam") by (vm_compute; reflexivity).
  assert (Hc : GeocodeJson.clean_cell (SStr "Amsterdam") = Some "Amsterdam")
    by (vm_compute; reflexivity).
  assert (Hs' : GeocodeJson.city_cache s' !! "Amsterdam" = Some (f52_5, f4_75)).
  { vm_compute in E. inversion E; subst. vm_compute. reflexivity. }
  rewrite Hq, Hc, Hs'. reflexivity.
Defined.

(** X13 on a details body with a location and on a refusal. *)
Lemma X13_witness :
  (GeocodeJson.place_details net_street key (PStr "p1") start
   = (Ok (Some {| GeocodeJson.latitude := PFloat f52_5;
                  GeocodeJson.longitude := PFloat f4_75;
                  GeocodeJson.formatted_address :=
                    PStr "Dam 1, 1012 JS Amsterdam";
                  GeocodeJson.resolved_name := PStr "Royal Palace";
                  GeocodeJson.status := "success";
                  GeocodeJson.source := "places_details";
                  GeocodeJson.place_id := PStr "p1" |}),
      GeocodeJsonSpec.log start
        [GeocodeJsonSpec.details_request key (PStr "p1")])
   /\ GeocodeJson.place_details net_details_refused key (PStr "p2") start
      = (Ok None,
         GeocodeJsonSpec.log start
           [GeocodeJsonSpec.details_request key (PStr "p2")]))
  /\ (Find.place_details net_street key (PStr "p1") []
      = (Ok (Some {| Find.latitude := PFloat f52_5;
                     Find.longitude := PFloat f4_75;
                     Find.formatted_address :=
                       PStr "Dam 1, 1012 JS Amsterdam";
                     Find.venue_name := PStr "Royal Palace";
                     Find.status := "success";
                     Find.source := "places_details" |}),
         [FindSpec.details_request key (PStr "p1")])
      /\ Find.place_details net_details_refused key (PStr "p2") []
         = (Ok None, [FindSpec.details_request key (PStr "p2")])).
Proof.
  split; split.
  - destruct (X13_place_details_outcomes net_street key (PStr "p1"))
      as [HG _].
    destruct (HG start) as (_ & _ & _ & _ & Hok).
    exact (Hok _ _ _ _ eq_refl eq_refl eq_refl eq_refl eq_refl).
  - destruct (X13_place_details_outcomes net_details_refused key (PStr "p2"))
      as [HG _].
    destruct (HG start) as (_ & _ & Hnone & _).
    apply (Hnone [("status", PStr "NOT_FOUND")]); [reflexivity|discriminate].
  - destruct (X13_place_details_outcomes net_street key (PStr "p1"))
      as [_ HF].
    destruct (HF []) as (_ & _ & _ & _ & Hok).
    exact (Hok _ _ _ _ eq_refl eq_refl eq_refl eq_refl eq_refl).
  - destruct (X13_place_details_outcomes net_details_refused key (PStr "p2"))
      as [_ HF].
    destruct (HF []) as (_ & _ & Hnone & _).
    apply (Hnone [("status", PStr "NOT_FOUND")]); [reflexivity|discriminate].
Defined.

(** X14 on a search that finds a place, one that finds none and one that
    times out. *)
Lemma X14_witness :
  (GeocodeJson.places_text_search_place_id net_text_search key
     "Royal Palace" (Some "52.5,4.75") 50000 (Some "tourist_attraction") start
   = (Ok (PStr "p2"),
      GeocodeJsonSpec.log start
        [(GeocodeJson.url_textsearch,
          [("query", PStr "Royal Palace"); ("key", PStr key);
           ("location", PStr "52.5,4.75"); ("radius", PInt 50000);
           ("type", PStr "tourist_attraction")])])
   /\ GeocodeJson.places_text_search_place_id net_geocode_only key
        "Royal Palace" None 50000 (Some "") start
      = (Ok PNone,
         GeocodeJsonSpec.log start
           [(GeocodeJson.url_textsearch,
             [("query", PStr "Royal Palace"); ("key", PStr key)])]))
  /\ (Find.places_text_search_place_id net_text_search key
        "Royal Palace" (Some "52.5,4.75") 50000 (Some "tourist_attraction") []
      = (Ok (PStr "p2"),
         [(GeocodeJson.url_textsearch,
           [("query", PStr "Royal Palace"); ("key", PStr key);
            ("location", PStr "52.5,4.75"); ("radius", PInt 50000);
            ("type", PStr "tourist_attraction")])])
      /\ Find.places_text_search_place_id net_text_search_timeout key
           "Royal Palace" (Some "") 50000 None []
         = (Raise (HTTPError "Read timed out."),
            [(GeocodeJson.url_textsearch,
              [("query", PStr "Royal Palace"); ("key", PStr key)])])).
Proof.
  split; split.
  - destruct (X14_text_search_outcomes net_text_search key "Royal Palace"
                (Some "52.5,4.75") 50000 (Some "tourist_attraction"))
      as [HG _].
    destruct (HG start) as (_ & _ & _ & Hok).
    exact (Hok _ _ _ eq_refl eq_refl eq_refl).
  - destruct (X14_text_search_outcomes net_geocode_only key "Royal Palace"
                None 50000 (Some "")) as [HG _].
    destruct (HG start) as (_ & _ & Hnone & _).
    apply (Hnone [("status", PStr "ZERO_RESULTS")]); reflexivity.
  - destruct (X14_text_search_outcomes net_text_search key "Royal Palace"
                (Some "52.5,4.75") 50000 (Some "tourist_attraction"))
      as [_ HF].
    destruct (HF []) as (_ & _ & _ & Hok).
    exact (Hok _ _ _ eq_refl eq_refl eq_refl).
  - destruct (X14_text_search_outcomes net_text_search_timeout key
                "Royal Palace" (Some "") 50000 None) as [_ HF].
    destruct (HF []) as (_ & Hexc & _).
    apply (Hexc (HTTPError "Read timed out.")). reflexivity.
Defined.

(** X15 on a name padded with an ideographic space and a city. *)
Lemma X15_witness :
  GeocodeJsonSpec.not_skipped
    (SStr (PyStr.encode [12288] +:+ "Royal Palace ")) (SStr "Amsterdam")
  /\ GeocodeJsonSpec.query_of
       (SStr (PyStr.encode [12288] +:+ "Royal Palace ")) (SStr "Amsterdam")
     = "Royal Palace, Amsterdam"
  /\ PyStr.strip
       (GeocodeJsonSpec.query_of
          (SStr (PyStr.encode [12288] +:+ "Royal Palace ")) (SStr "Amsterdam"))
     = GeocodeJsonSpec.query_of
         (SStr (PyStr.encode [12288] +:+ "Royal Palace ")) (SStr "Amsterdam")
  /\ FindSpec.query_of
       (SStr (PyStr.encode [12288] +:+ "Royal Palace ")) (SStr "Amsterdam")
     = "Royal Palace, Amsterdam".
Proof.
  assert (Hns : GeocodeJsonSpec.not_skipped
                  (SStr (PyStr.encode [12288] +:+ "Royal Palace "))
                  (SStr "Amsterdam")) by (vm_compute; reflexivity).
  destruct (X15_query_form
              (SStr (PyStr.encode [12288] +:+ "Royal Palace "))
              (SStr "Amsterdam") Hns)
    as (Hq & _ & _ & _ & Hstrip & HF).
  split; [exact Hns|]. split; [|split].
  - rewrite Hq. vm_compute. reflexivity.
  - exact Hstrip.
  - rewrite HF, Hq. vm_compute. reflexivity.
Defined.

(* ===================================================================== *)
(** ** Further properties: the bias of [find.py] *)
(* ===================================================================== *)

Section FindBias.
Context `{PyRuntime} (net : transport) (key : string).

Lemma fd_text_search_exact q loc s :
  exists o,
    Find.places_text_search_place_id net key q loc 50000
      (Some "tourist_attraction") s
    = (o, s ++ [textsearch_request key q loc 50000
                  (Some "tourist_attraction")]).
Proof.
  unfold Find.places_text_search_place_id, Find.http_get_json,
    textsearch_request.
  change Find.url_textsearch with GeocodeJson.url_textsearch.
  unfold_m. destruct loc as [l|]; [destruct (PyStr.nonempty l)|];
    run; eexists; reflexivity.
Qed.

Lemma fd_city_bias city s1 :
  (forall cc, city = Some cc -> PyStr.nonempty cc = true) ->
  exists loc tc,
    Find.city_location net key city s1 = (Ok loc, s1 ++ tc)
    /\ (forall ts, In ts tc -> fst ts <> Find.url_textsearch)
    /\ match city with
       | Some cc =>
           exists g,
             Find.geocode_venue net key cc s1
             = (Ok g, s1 ++ [FindSpec.geocode_request key cc])
             /\ tc = [FindSpec.geocode_request key cc]
             /\ loc = fd_bias g
       | None => tc = [] /\ loc = None
       end.
Proof.
  intros Hne. unfold Find.city_location. destruct city as [cc|].
  - rewrite (Hne cc eq_refl). unfold bind.
    destruct (fd_geocode_venue_run net key cc s1) as (g & E & _). rewrite E.
    exists (fd_bias g), [FindSpec.geocode_request key cc].
    split; [unfold fd_bias; destruct (_ && _); reflexivity|].
    split; [intros ts [<-|[]]; discriminate|].
    exists g. auto.
  - exists None, []. rewrite app_nil_r. split; [reflexivity|].
    split; [intros ts []|auto].
Qed.

(** X16: in [find.py] the text search of tier 2 is biased by a fresh
    geocoding of the city.  In every call of [get_venue_location], a Text
    Search request that is sent carries [query], [key] and
    [type = tourist_attraction].  With a city, it is the request that
    directly follows a geocoding of the cleaned city, and it carries
    [location = "<lat>,<lng>"] with [radius = 50000] exactly when that
    geocoding returned ["success"] with both coordinates present; the two
    are printed as they came in the body, without conversion to [float].
    Without a city it carries no bias. *)
Theorem X16_find_bias_is_a_fresh_geocoding
    (a c : scalar) (s s' : Find.world) o :
  Find.get_venue_location net key a c s = (o, s') ->
  exists l,
    s' = s ++ l
    /\ forall ts,
         In ts l -> fst ts = Find.url_textsearch ->
         match Find.clean_cell c with
         | Some cc =>
             exists s0 g post,
               Find.geocode_venue net key cc s0
               = (Ok g, s0 ++ [FindSpec.geocode_request key cc])
               /\ s' = s0 ++ [FindSpec.geocode_request key cc; ts] ++ post
               /\ ts = textsearch_request key (FindSpec.query_of a c)
                         (fd_bias g) 50000 (Some "tourist_attraction")
         | None =>
             ts = textsearch_request key (FindSpec.query_of a c) None 50000
                    (Some "tourist_attraction")
         end.
Proof.
  unfold Find.get_venue_location. fold (FindSpec.query_of a c).
  generalize (FindSpec.query_of a c). intros q.
  destruct (negb _ && negb _).
  { unfold ret. intros Heq; inversion Heq; subst. exists [].
    rewrite app_nil_r. split; [reflexivity|]. intros ts []. }
  unfold bind at 1.
  destruct (fd_findplace_run net key q s) as (r1 & t1 & E1 & _ & _ & Ht1 & _).
  rewrite E1.
  assert (H1 : forall ts, In ts t1 -> fst ts <> Find.url_textsearch).
  { intros ts Hin. destruct Ht1 as [->|[pid ->]]; simpl in Hin;
      intuition (subst; discriminate). }
  destruct (_ && _).
  { unfold ret. intros Heq; inversion Heq; subst. exists t1.
    split; [reflexivity|]. intros ts Hin Hu. destruct (H1 ts Hin Hu). }
  unfold bind at 1.
  assert (Hne : forall cc, Find.clean_cell c = Some cc ->
                           PyStr.nonempty cc = true).
  { intros cc Hcc. rewrite clean_cell_agree in Hcc.
    destruct (clean_cell_stripped c cc Hcc) as (t & _ & Hn & _). exact Hn. }
  destruct (fd_city_bias (Find.clean_cell c) (s ++ t1) Hne)
    as (loc & tc & E2 & Hc & Hcase).
  rewrite E2. clear E2 Hne.
  unfold bind at 1.
  destruct (fd_text_search_exact q loc ((s ++ t1) ++ tc)) as (op & E3).
  rewrite E3.
  set (ts0 := textsearch_request key q loc 50000 (Some "tourist_attraction")).
  assert (Hfinish : forall (o' : res Find.result) s'' tail,
    s'' = (((s ++ t1) ++ tc) ++ [ts0]) ++ tail ->
    (forall ts, In ts tail -> fst ts <> Find.url_textsearch) ->
    (o', s'') = (o, s') ->
    exists l,
      s' = s ++ l
      /\ forall ts,
           In ts l -> fst ts = Find.url_textsearch ->
           match Find.clean_cell c with
           | Some cc =>
               exists s0 g post,
                 Find.geocode_venue net key cc s0
                 = (Ok g, s0 ++ [FindSpec.geocode_request key cc])
                 /\ s' = s0 ++ [FindSpec.geocode_request key cc; ts] ++ post
                 /\ ts = textsearch_request key q (fd_bias g) 50000
                           (Some "tourist_attraction")
           | None =>
               ts = textsearch_request key q None 50000
                      (Some "tourist_attraction")
           end).
  { intros o' s'' tail Hs'' Htail Heq. inversion Heq; subst o' s'.
    exists (t1 ++ tc ++ [ts0] ++ tail).
    split; [rewrite Hs'', <- !app_assoc; reflexivity|].
    intros ts Hin Hu.
    assert (Hts : ts = ts0).
    { apply in_app_or in Hin as [Hin|Hin]; [destruct (H1 ts Hin Hu)|].
      apply in_app_or in Hin as [Hin|Hin]; [destruct (Hc ts Hin Hu)|].
      destruct Hin as [<-|Hin]; [reflexivity|destruct (Htail ts Hin Hu)]. }
    subst ts. destruct (Find.clean_cell c) as [cc|].
    - destruct Hcase as (g & Eg & Htc & Hloc).
      exists (s ++ t1), g, tail. split; [exact Eg|].
      split; [|unfold ts0; rewrite Hloc; reflexivity].
      rewrite Hs'', Htc, <- !app_assoc. reflexivity.
    - destruct Hcase as [_ Hloc]. unfold ts0. rewrite Hloc. reflexivity. }
  destruct op as [pid|e].
  2:{ apply (Hfinish _ _ []); [rewrite app_nil_r; reflexivity|intros ts []]. }
  assert (Hfb : forall tail,
    (forall ts, In ts tail -> fst ts <> Find.url_textsearch) ->
    Find.geocode_venue net key q ((((s ++ t1) ++ tc) ++ [ts0]) ++ tail)
    = (o, s') ->
    exists l,
      s' = s ++ l
      /\ forall ts,
           In ts l -> fst ts = Find.url_textsearch ->
           match Find.clean_cell c with
           | Some cc =>
               exists s0 g post,
                 Find.geocode_venue net key cc s0
                 = (Ok g, s0 ++ [FindSpec.geocode_request key cc])
                 /\ s' = s0 ++ [FindSpec.geocode_request key cc; ts] ++ post
                 /\ ts = textsearch_request key q (fd_bias g) 50000
                           (Some "tourist_attraction")
           | None =>
               ts = textsearch_request key q None 50000
                      (Some "tourist_attraction")
           end).
  { intros tail Htail.
    destruct (fd_geocode_venue_run net key q
                ((((s ++ t1) ++ tc) ++ [ts0]) ++ tail)) as (r & E5 & _).
    rewrite E5.
    apply (Hfinish _ _ (tail ++ [FindSpec.geocode_request key q])).
    - rewrite <- !app_assoc. reflexivity.
    - intros ts Hin. apply in_app_or in Hin as [Hin|[<-|[]]];
        [exact (Htail ts Hin)|discriminate]. }
  destruct (Py.truthy pid).
  2:{ intros E. apply (Hfb []); [intros ts []|].
      rewrite app_nil_r. exact E. }
  unfold bind at 1.
  destruct (fd_place_details_run net key pid (((s ++ t1) ++ tc) ++ [ts0]))
    as (od & E4 & _). rewrite E4.
  assert (Hd4 : forall ts, In ts [FindSpec.details_request key pid] ->
                           fst ts <> Find.url_textsearch).
  { intros ts [<-|[]]. discriminate. }
  destruct od as [[d|]|e].
  - destruct (String.eqb (Find.status d) "success"); simpl.
    + destruct (Find.is_low_quality_address _); simpl; unfold ret;
        apply (Hfinish _ _ _ eq_refl Hd4).
    + apply (Hfb _ Hd4).
  - apply (Hfb _ Hd4).
  - apply (Hfinish _ _ _ eq_refl Hd4).
Qed.

End FindBias.

(** X16 on a venue of Amsterdam. *)
Lemma X16_witness :
  exists o s',
    Find.get_venue_location net_text_search key
      (SStr "Royal Palace") (SStr "Amsterdam") [] = (o, s')
    /\ forall ts,
         In ts s' -> fst ts = Find.url_textsearch ->
         snd ts
         = [("query", PStr "Royal Palace, Amsterdam"); ("key", PStr key);
            ("location", PStr "52.5,4.75"); ("radius", PInt 50000);
            ("type", PStr "tourist_attraction")].
Proof.
  destruct (Find.get_venue_location net_text_search key
              (SStr "Royal Palace") (SStr "Amsterdam") []) as [o s'] eqn:E.
  exists o, s'. split; [reflexivity|].
  destruct (X16_find_bias_is_a_fresh_geocoding net_text_search key _ _ _ _ _ E)
    as (l & Hl & Hts).
  simpl in Hl. subst l. intros ts Hin Hu.
  specialize (Hts ts Hin Hu).
  assert (Hc : Find.clean_cell (SStr "Amsterdam") = Some "Amsterdam")
    by (vm_compute; reflexivity).
  rewrite Hc in Hts. destruct Hts as (s0 & g & post & Eg & _ & ->).
  assert (Hg : g = {| Find.latitude := PFloat f52_5;
                      Find.longitude := PFloat f4_75;
                      Find.formatted_address := PStr "Amsterdam, Netherlands";
                      Find.venue_name := PNone;
                      Find.status := "success";
                      Find.source := "geocoding_api" |}).
  { vm_compute in Eg. inversion Eg. reflexivity. }
  subst g. vm_compute. reflexivity.
Defined.
